(** * Excel2bSDD_converter: a shallow embedding and its verification

    The program reads the eight sheets of a bSDD workbook into pandas
    frames, turns every row into a dictionary shaped by a template
    ([jsonify]), hangs child rows below the parent whose [Code] they
    name ([excel2bsdd]), optionally strips [None] entries
    ([clean_nones]) and dumps the tree as JSON (the [__main__] block).

    Python objects are modelled at two levels.

    - Part I is a value-level model: a Python object is the tree of its
      contents ([value]).  A dictionary is the list of its items in
      insertion order, a list is a list.  In-place updates of nested
      objects are written back along the access path.  This is adequate
      for every object of the converter because [jsonify] hands out
      objects that share no mutable part with anything else, which is
      what Part II establishes.
    - Part II is a store-level model of [jsonify]: objects live at
      addresses of a heap, [deepcopy] walks the object graph with its
      memo table, item assignment mutates the heap.

    Outside the model: float cells other than NaN (numbers are [Z]),
    column labels that are not strings, list literals that hold
    floats, tuples, sets or bytes, and the [NaT] pandas puts for a
    blank cell in a row whose other cells are all timestamps. *)

From Stdlib Require Import ZArith String Ascii List Bool Lia.
From stdpp Require Import base tactics option list strings gmap.

(* ================================================================== *)
(** * Part I: values, exceptions and the world                         *)
(* ================================================================== *)

(** ** Python values *)

(** The objects that can occur in the output tree. *)
#[local] Unset Elimination Schemes.
Inductive value : Type :=
| VNone
| VBool (b : bool)
| VInt (n : Z)
| VStr (s : string)
| VList (items : list value)
| VDict (entries : list (string * value)).
#[local] Set Elimination Schemes.

(** A [dict] with string keys: its items in insertion order.  Python
    keeps the keys of a dictionary distinct, see [dict_wf]. *)
Abbreviation dict := (list (string * value)).

Definition dict_wf {V} (d : list (string * V)) : Prop := NoDup (d.*1).

(** [k in d] *)
Definition dict_mem {V} (k : string) (d : list (string * V)) : bool :=
  existsb (fun kv => String.eqb k kv.1) d.

(** [d.get(k)] *)
Fixpoint dict_get {V} (k : string) (d : list (string * V)) : option V :=
  match d with
  | [] => None
  | (k', v) :: d' => if String.eqb k k' then Some v else dict_get k d'
  end.

(** [d[k] = v]: an existing key keeps its position, a new key goes last. *)
Fixpoint dict_set {V} (k : string) (v : V) (d : list (string * V)) : list (string * V) :=
  match d with
  | [] => [(k, v)]
  | (k', v') :: d' =>
      if String.eqb k k' then (k, v) :: d' else (k', v') :: dict_set k v d'
  end.

(** The items left by [del d[k]]. *)
Definition dict_remove {V} (k : string) (d : list (string * V)) : list (string * V) :=
  filter (fun kv => kv.1 ≠ k) d.

Definition is_none (v : value) : bool :=
  match v with VNone => true | _ => false end.

(** Python's [==] on the modelled values: [bool] is a subtype of [int]
    ([True == 1]), lists compare element by element, dictionaries compare
    as sets of items whatever their order. *)
Fixpoint py_eq (a b : value) {struct a} : bool :=
  match a, b with
  | VNone, VNone => true
  | VBool x, VBool y => Bool.eqb x y
  | VBool x, VInt y => Z.eqb (Z.b2z x) y
  | VInt x, VBool y => Z.eqb x (Z.b2z y)
  | VInt x, VInt y => Z.eqb x y
  | VStr x, VStr y => String.eqb x y
  | VList xs, VList ys =>
      (fix go (xs ys : list value) {struct xs} : bool :=
         match xs, ys with
         | [], [] => true
         | x :: xs', y :: ys' => py_eq x y && go xs' ys'
         | _, _ => false
         end) xs ys
  | VDict xs, VDict ys =>
      Nat.eqb (length xs) (length ys) &&
      forallb (fun kv => match dict_get kv.1 ys with
                         | Some w => py_eq kv.2 w
                         | None => false
                         end) xs
  | _, _ => false
  end.

(** ** Exceptions *)

Inductive exn : Type :=
| KeyError
| IndexError
| TypeError
| AttributeError
| StopIteration
| ValueError
| MalformedLiteral  (* the [ValueError] or [SyntaxError] of [ast.literal_eval] *)
| FileNotFoundError.

Inductive result (A : Type) : Type :=
| Ok (a : A)
| Raise (e : exn).
Arguments Ok {A} a.
Arguments Raise {A} e.

Definition is_ok {A} (r : result A) : bool :=
  match r with Ok _ => true | Raise _ => false end.

(** ** The world: standard output and the files *)

(** A [pandas.Timestamp]: nanoseconds since the epoch and, when it is
    timezone-aware, the offset from UTC in minutes. *)
Record Timestamp : Type := mkTimestamp {
  ts_nanos : Z;
  ts_utcoffset : option Z
}.

(** A cell of a frame as [pd.read_excel] returns it; [CNaN] is the
    missing cell. *)
Inductive cell : Type :=
| CNaN
| CBool (b : bool)
| CInt (n : Z)
| CStr (s : string)
| CTimestamp (t : Timestamp).

(** A frame as [pd.read_excel] returns it: the column labels and the
    rows, every row with one cell per column. *)
Record DataFrame : Type := mkDataFrame {
  columns : list string;
  rows : list (list cell)
}.

(** An open workbook: [read_excel wb sheet usecols] is the frame
    [pd.read_excel(xls, sheet, skiprows=5, usecols=usecols,
    true_values="TRUE")] parses, or the exception it raises. *)
Definition Workbook : Type := string -> string -> result DataFrame.

(** What a path names: a workbook, a JSON document written in full,
    the text left by a write that did not finish ([FPartial], empty
    just after [open(path, "w")]), something else, or something that
    cannot be opened ([FNoAccess e], where [e] is the [OSError] that
    [open] raises: a directory, a file without the rights). *)
Inductive file : Type :=
| FExcel (wb : Workbook)
| FJson (doc : value)
| FOther
| FPartial
| FNoAccess (e : exn).

Record World : Type := mkWorld {
  stdout : list string;
  files : gmap string file
}.

(** Code with effects: it runs in a world and either returns or raises;
    the world it leaves is kept in both cases. *)
Definition M (A : Type) : Type := World -> World * result A.

Class Monad (m : Type -> Type) : Type := {
  ret : forall {A}, A -> m A;
  bind : forall {A B}, m A -> (A -> m B) -> m B
}.

#[export] Instance result_monad : Monad result := {|
  ret := fun A a => Ok a;
  bind := fun A B r k => match r with Ok a => k a | Raise e => Raise e end
|}.

#[export] Instance M_monad : Monad M := {|
  ret := fun A a w => (w, Ok a);
  bind := fun A B c k w =>
    match c w with
    | (w', Ok a) => k a w'
    | (w', Raise e) => (w', Raise e)
    end
|}.

Declare Scope py_scope.
Delimit Scope py_scope with py.
Notation "x <- c ;; k" := (bind c (fun x => k))
  (at level 100, c at next level, right associativity) : py_scope.
Notation "c ;;; k" := (bind c (fun _ => k))
  (at level 100, right associativity) : py_scope.
Open Scope py_scope.

(** A computation without effects, run inside [M]. *)
Definition lift {A} (r : result A) : M A := fun w => (w, r).

(** [print(line)] *)
Definition print (line : string) : M unit :=
  fun w => (mkWorld (stdout w ++ [line]) (files w), Ok tt).

(** [for x in xs: acc = body(acc, x)] *)
Fixpoint for_each {m} `{Monad m} {A S} (xs : list A) (body : S -> A -> m S) (acc : S) : m S :=
  match xs with
  | [] => ret acc
  | x :: xs' => acc' <- body acc x ;; for_each xs' body acc'
  end.

(** ** Operations of Python objects *)

(** [o[key]] for a string [key]: only a dictionary can be indexed by a
    string; a list or a string asks for an integer index and the other
    values are not subscriptable. *)
Definition getitem (o : value) (key : string) : result value :=
  match o with
  | VDict d => match dict_get key d with Some v => Ok v | None => Raise KeyError end
  | _ => Raise TypeError
  end.

(** [o[key] = v] for a string [key]; the result is [o] after the
    assignment. *)
Definition setitem (o : value) (key : string) (v : value) : result value :=
  match o with
  | VDict d => Ok (VDict (dict_set key v d))
  | _ => Raise TypeError
  end.

(** [o.pop(key)] for a string [key]; the result is [o] after the call
    (the converter drops the value [pop] returns). *)
Definition pop (o : value) (key : string) : result value :=
  match o with
  | VDict d => if dict_mem key d then Ok (VDict (dict_remove key d)) else Raise KeyError
  | VList _ => Raise TypeError
  | _ => Raise AttributeError
  end.

(** [lst.append(x)]; the result is [lst] after the call. *)
Definition append (lst x : value) : result value :=
  match lst with
  | VList l => Ok (VList (l ++ [x]))
  | _ => Raise AttributeError
  end.

Fixpoint chars (s : string) : list value :=
  match s with
  | EmptyString => []
  | String c s' => VStr (String c EmptyString) :: chars s'
  end.

(** What [for item in o] goes through: the elements of a list, the keys
    of a dictionary, the characters of a string. *)
Definition iter (o : value) : result (list value) :=
  match o with
  | VList l => Ok l
  | VDict d => Ok (VStr <$> d.*1)
  | VStr s => Ok (chars s)
  | _ => Raise TypeError
  end.

(** [jsons[0]] *)
Definition first_item {A} (l : list A) : result A :=
  match l with
  | x :: _ => Ok x
  | [] => Raise IndexError
  end.

(** [sys.argv[i]] *)
Definition argv_get (argv : list string) (i : nat) : result string :=
  match argv !! i with
  | Some a => Ok a
  | None => Raise IndexError
  end.

(** Truth value of a string: [not s] holds for the empty string only. *)
Definition truthy (s : string) : bool :=
  match s with EmptyString => false | String _ _ => true end.

(** [c in s] for a one-character string [c]. *)
Fixpoint str_in (c : ascii) (s : string) : bool :=
  match s with
  | EmptyString => false
  | String a s' => Ascii.eqb c a || str_in c s'
  end.

(** ** What the converter imports *)

(** What [ast.literal_eval] returns, as far as the converter looks at
    it: a list, or a value of another type. *)
Inductive literal : Type :=
| LitList (items : list value)
| LitOther.

(** The library functions the converter calls on cell contents and on
    the tree. *)
Class PyLib : Type := {
  (** [ast.literal_eval(s)], raising on a malformed literal *)
  literal_eval : string -> result literal;
  (** [Timestamp.isoformat()] *)
  isoformat : Timestamp -> string;
  (** The exception [json.dump(doc, f, indent = 2)] ends with, if any:
      an object it cannot encode, a write that fails *)
  json_error : value -> option exn
}.

(** The templates of [JSON_templates.py], one dictionary per entity. *)
Class JSON_templates : Type := {
  Domain : dict;
  Classification : dict;
  ClassificationRelation : dict;
  AllowedValue : dict;
  ClassificationProperty : dict;
  Property : dict;
  PropertyRelation : dict;
  Material : dict
}.

(** The dictionary of frames [load_excel] returns. *)
Record Excel : Type := mkExcel {
  domain : DataFrame;
  classification : DataFrame;
  material : DataFrame;
  property : DataFrame;
  classificationproperty : DataFrame;
  classificationrelation : DataFrame;
  propertyvalue : DataFrame;
  propertyrelation : DataFrame
}.

(** ** load_excel *)

(** [pd.ExcelFile(path)] *)
Definition ExcelFile (path : string) : M Workbook :=
  fun w => (w, match files w !! path with
               | Some (FExcel wb) => Ok wb
               | Some (FNoAccess e) => Raise e
               | Some _ => Raise ValueError
               | None => Raise FileNotFoundError
               end).

Definition load_excel (EXCEL_PATH : string) : M Excel :=
  xls <- ExcelFile EXCEL_PATH ;;
  d <- lift (xls "Domain" "C:Q") ;;
  c <- lift (xls "Classification" "C:AA") ;;
  m <- lift (xls "Material" "C:AA") ;;
  p <- lift (xls "Property" "C:AT") ;;
  cp <- lift (xls "ClassificationProperty" "C:T") ;;
  cr <- lift (xls "ClassificationRelation" "C:G") ;;
  pv <- lift (xls "PropertyValue" "C:AT") ;;
  pr <- lift (xls "PropertyRelation" "C:AT") ;;
  ret (mkExcel d c m p cp cr pv pr).

(** ** jsonify *)

(** A cell once the frame is cast to [object] and NaN is replaced:
    [None], a [bool], an [int], a [str] or a [Timestamp]. *)
Inductive pobject : Type :=
| PNone
| PBool (b : bool)
| PInt (n : Z)
| PStr (s : string)
| PTimestamp (t : Timestamp).

(** [dataframe.astype(object).replace(np.nan, None)], cell by cell *)
Definition replace_nan (c : cell) : pobject :=
  match c with
  | CNaN => PNone
  | CBool b => PBool b
  | CInt n => PInt n
  | CStr s => PStr s
  | CTimestamp t => PTimestamp t
  end.

(** [dataframe.iterrows()] with [row.items()]: every row as the list of
    its (column name, cell) pairs, in column order.  The cells are
    those of the frame: the dtype pandas infers anew for the row, which
    turns the blanks of a row of timestamps into [NaT], is not
    modelled. *)
Definition iterrows (dataframe : DataFrame) : list (list (string * pobject)) :=
  (fun r => zip (columns dataframe) (replace_nan <$> r)) <$> rows dataframe.

(** [copy.deepcopy] of a value is the value. *)
Definition deepcopy (d : dict) : dict := d.

Definition no_such_property (column_name : string) : string :=
  ("No such property as '" +:+ column_name +:+ "' in the JSON")%string.

Section Converter.
Context `{PyLib} `{JSON_templates}.

(** Lines 67-73: what is stored for a cell of a recognised column. *)
Definition convert (column_data : pobject) : result value :=
  match column_data with
  | PTimestamp t => Ok (VStr (isoformat t))
  | PStr s =>
      if str_in "[" s && str_in "]" s then
        content <- literal_eval s ;;
        match content with
        | LitList l => ret (VList l)
        | LitOther => ret (VStr s)
        end
      else Ok (VStr s)
  | PNone => Ok VNone
  | PBool b => Ok (VBool b)
  | PInt n => Ok (VInt n)
  end.

(** Lines 65-76: the body of the loop over the columns of a row. *)
Definition set_column (new_part : dict) (col : string * pobject) : M dict :=
  if dict_mem col.1 new_part then
    column_data <- lift (convert col.2) ;;
    ret (dict_set col.1 column_data new_part)
  else
    print (no_such_property col.1) ;;;
    ret new_part.

(** Lines 63-77: the body of the loop over the rows. *)
Definition jsonify_row (json_part : dict) (jsons : list value)
    (row : list (string * pobject)) : M (list value) :=
  new_part <- for_each row set_column (deepcopy json_part) ;;
  ret (jsons ++ [VDict new_part]).

Definition jsonify (dataframe : DataFrame) (json_part : dict) : M (list value) :=
  for_each (iterrows dataframe) (jsonify_row json_part) [].

End Converter.

(** ** clean_nones *)

Fixpoint clean_nones (v : value) : value :=
  match v with
  | VList l =>
      VList ((fix comprehension (l : list value) : list value :=
                match l with
                | [] => []
                | x :: l' =>
                    if is_none x then comprehension l'
                    else clean_nones x :: comprehension l'
                end) l)
  | VDict d =>
      VDict ((fix comprehension (d : list (string * value)) : list (string * value) :=
                match d with
                | [] => []
                | (key, val) :: d' =>
                    if is_none val then comprehension d'
                    else (key, clean_nones val) :: comprehension d'
                end) d)
  | _ => v
  end.

(** ** excel2bsdd *)

(** [next(item for item in items if item["Code"] == related)]: the
    first match and its position.  The test is run on every item up to
    the match, so an item before it that has no ["Code"] raises. *)
Fixpoint next_code (items : list value) (related : value) : result (nat * value) :=
  match items with
  | [] => Raise StopIteration
  | item :: rest =>
      code <- getitem item "Code" ;;
      if py_eq code related then Ok (0, item)
      else found <- next_code rest related ;; ret (S found.1, found.2)
  end.

(** The container with the object at position [i] as it is after a
    mutation.  Only the elements of a list are objects that can be
    mutated; the keys of a dictionary and the characters of a string
    are strings. *)
Definition store_item (container : value) (i : nat) (item : value) : value :=
  match container with
  | VList l => VList (<[i := item]> l)
  | _ => container
  end.

(** A dictionary with the value under [k] as it is after a mutation. *)
Definition set_field (o : value) (k : string) (v : value) : value :=
  match o with
  | VDict d => VDict (dict_set k v d)
  | _ => o
  end.

(** [next(item for item in container if item["Code"] == related)[L].append(child)];
    the result is [container] after the statement. *)
Definition append_to_match (container : value) (L : string) (related child : value)
    : result value :=
  items <- iter container ;;
  found <- next_code items related ;;
  lst <- getitem found.2 L ;;
  lst' <- append lst child ;;
  ret (store_item container found.1 (set_field found.2 L lst')).

(** Lines 114, 120, 126 and 134, with [container = bsdd_data[P]]; the
    result is [bsdd_data] after the statement. *)
Definition link_child (P L : string) (bsdd_data related child : value) : result value :=
  parents <- getitem bsdd_data P ;;
  parents' <- append_to_match parents L related child ;;
  ret (set_field bsdd_data P parents').

(** Lines 112-114, 118-120 and 132-134: the three loop bodies differ in
    the origin field [okey], the parent collection [P] and the child
    list [L] only. *)
Definition link_row (okey P L : string) (bsdd_data child : value) : result value :=
  related <- getitem child okey ;;
  child <- pop child okey ;;
  link_child P L bsdd_data related child.

Definition link_rows (okey P L : string) (children : list value) (bsdd_data : value)
    : result value :=
  for_each children (link_row okey P L) bsdd_data.

Definition origin_value : string :=
  "(Origin Property Code OR ClassificationProperty Code)".

(** Lines 127-128: the loop over the classifications in the body of the
    loop over the allowed values. *)
Definition link_value_cls (related prop_val : value) (clss : value)
    (jcls : nat * value) : result value :=
  cls' <- append_to_match jcls.2 "AllowedValues" related prop_val ;;
  ret (store_item clss jcls.1 cls').

(** Lines 124-128 *)
Definition link_value (bsdd_data prop_val : value) : result value :=
  related <- getitem prop_val origin_value ;;
  prop_val <- pop prop_val origin_value ;;
  bsdd_data <- link_child "Properties" "AllowedValues" bsdd_data related prop_val ;;
  clss <- getitem bsdd_data "Classifications" ;;
  items <- iter clss ;;
  clss' <- for_each (zip (seq 0 (length items)) items)
             (link_value_cls related prop_val) clss ;;
  ret (set_field bsdd_data "Classifications" clss').

Section Pipeline.
Context `{PyLib} `{JSON_templates}.

Definition excel2bsdd (excel : Excel) : M value :=
  doms <- jsonify (domain excel) Domain ;;
  bsdd_data <- lift (first_item doms) ;;
  cls <- jsonify (classification excel) Classification ;;
  bsdd_data <- lift (setitem bsdd_data "Classifications" (VList cls)) ;;
  mats <- jsonify (material excel) Material ;;
  bsdd_data <- lift (setitem bsdd_data "Materials" (VList mats)) ;;
  props <- jsonify (property excel) Property ;;
  bsdd_data <- lift (setitem bsdd_data "Properties" (VList props)) ;;
  cls_props <- jsonify (classificationproperty excel) ClassificationProperty ;;
  bsdd_data <- lift (link_rows "(Origin Classification Code)" "Classifications"
                       "ClassificationProperties" cls_props bsdd_data) ;;
  cls_rels <- jsonify (classificationrelation excel) ClassificationRelation ;;
  bsdd_data <- lift (link_rows "(Origin Classification Code)" "Classifications"
                       "ClassificationRelations" cls_rels bsdd_data) ;;
  prop_vals <- jsonify (propertyvalue excel) AllowedValue ;;
  bsdd_data <- lift (for_each prop_vals link_value bsdd_data) ;;
  prop_rels <- jsonify (propertyrelation excel) PropertyRelation ;;
  bsdd_data <- lift (link_rows "(Origin Property)" "Properties"
                       "PropertyRelations" prop_rels bsdd_data) ;;
  ret bsdd_data.

(** ** The script *)

(** Line 149, [open(path, "w")]: the empty path and a path that cannot
    be opened raise; otherwise the file is created or cut to nothing. *)
Definition open_w (path : string) : M unit :=
  fun w =>
    if String.eqb path "" then (w, Raise FileNotFoundError)
    else match files w !! path with
         | Some (FNoAccess e) => (w, Raise e)
         | _ => (mkWorld (stdout w) (<[path := FPartial]> (files w)), Ok tt)
         end.

(** Lines 150-151, [json.dump(doc, f, indent = 2)] and [f.close()]:
    when [json.dump] raises, the file keeps the text written so far. *)
Definition json_dump (doc : value) (path : string) : M unit :=
  fun w =>
    match json_error doc with
    | Some e => (w, Raise e)
    | None => (mkWorld (stdout w) (<[path := FJson doc]> (files w)), Ok tt)
    end.

(** Lines 149-151 *)
Definition dump (path : string) (doc : value) : M unit :=
  open_w path ;;; json_dump doc path.

(** Lines 140-151; [argv] is [sys.argv]. *)
Definition main (argv : list string) : M unit :=
  EXCEL_PATH <- lift (argv_get argv 0) ;;
  JSON_PATH <- lift (argv_get argv 1) ;;
  WITH_NULLS <- lift (argv_get argv 2) ;;
  excel <- load_excel EXCEL_PATH ;;
  bsdd_data <- excel2bsdd excel ;;
  let bsdd_data := if negb (truthy WITH_NULLS) then clean_nones bsdd_data else bsdd_data in
  dump JSON_PATH bsdd_data.

End Pipeline.


(* ================================================================== *)
(** * A reference library and reference templates                      *)
(* ================================================================== *)

(** The theorems below hold for every [PyLib] and, where they need
    templates, every [JSON_templates].  Concrete runs need an instance
    of each. *)

(** ** literal_eval on a fragment of the literals

    Lists, integers, [None], [True], [False] and quoted strings without
    escapes, separated by blanks.  A literal outside this fragment is
    reported as malformed. *)

Definition is_blank (c : ascii) : bool :=
  Ascii.eqb c " " || Ascii.eqb c "009".

Fixpoint skip_blanks (cs : list ascii) : list ascii :=
  match cs with
  | c :: cs' => if is_blank c then skip_blanks cs' else cs
  | [] => []
  end.

Definition digit_of (c : ascii) : option Z :=
  let n := nat_of_ascii c in
  if (48 <=? n)%nat && (n <=? 57)%nat then Some (Z.of_nat (n - 48)) else None.

Definition is_ident_char (c : ascii) : bool :=
  let n := nat_of_ascii c in
  ((48 <=? n)%nat && (n <=? 57)%nat) || ((65 <=? n)%nat && (n <=? 90)%nat)
  || ((97 <=? n)%nat && (n <=? 122)%nat) || (n =? 95)%nat || (n =? 46)%nat.

(** The digits at the head of [cs], most significant first. *)
Fixpoint read_digits (cs : list ascii) : list Z * list ascii :=
  match cs with
  | c :: cs' =>
      match digit_of c with
      | Some d => let r := read_digits cs' in (d :: r.1, r.2)
      | None => ([], cs)
      end
  | [] => ([], [])
  end.

(** A decimal integer: no leading zero unless every digit is zero, and
    no identifier character or point right after it. *)
Definition read_int (cs : list ascii) : option (Z * list ascii) :=
  let r := read_digits cs in
  match r.1 with
  | [] => None
  | d :: ds =>
      if (Z.eqb d 0 && negb (forallb (Z.eqb 0) ds))
         || match r.2 with c :: _ => is_ident_char c | [] => false end
      then None
      else Some (fold_left (fun acc x => 10 * acc + x)%Z r.1 0%Z, r.2)
  end.

(** The characters up to the closing quote [q]. *)
Fixpoint read_quoted (q : ascii) (cs : list ascii) : option (string * list ascii) :=
  match cs with
  | [] => None
  | c :: cs' =>
      if Ascii.eqb c q then Some (EmptyString, cs')
      else if Ascii.eqb c "092" || Ascii.eqb c "010" || Ascii.eqb c "013" then None
      else match read_quoted q cs' with
           | Some r => Some (String c r.1, r.2)
           | None => None
           end
  end.

Definition read_keyword (cs : list ascii) : option (value * list ascii) :=
  let ends (rest : list ascii) :=
    match rest with c :: _ => negb (is_ident_char c) | [] => true end in
  match cs with
  | "N" :: "o" :: "n" :: "e" :: rest => if ends rest then Some (VNone, rest) else None
  | "T" :: "r" :: "u" :: "e" :: rest => if ends rest then Some (VBool true, rest) else None
  | "F" :: "a" :: "l" :: "s" :: "e" :: rest => if ends rest then Some (VBool false, rest) else None
  | _ => None
  end%char.

Fixpoint parse_value (fuel : nat) (cs : list ascii) : option (value * list ascii) :=
  match fuel with
  | O => None
  | S fuel' =>
      match skip_blanks cs with
      | "[" :: rest =>
          (fix parse_items (n : nat) (cs : list ascii) : option (value * list ascii) :=
             match n with
             | O => None
             | S n' =>
                 match skip_blanks cs with
                 | "]" :: rest' => Some (VList [], rest')
                 | _ =>
                     match parse_value fuel' cs with
                     | Some (v, rest') =>
                         match skip_blanks rest' with
                         | "," :: rest'' =>
                             match parse_items n' rest'' with
                             | Some (VList vs, rest3) => Some (VList (v :: vs), rest3)
                             | _ => None
                             end
                         | "]" :: rest'' => Some (VList [v], rest'')
                         | _ => None
                         end
                     | None => None
                     end
                 end
             end) (S (length rest)) rest
      | "'" :: rest =>
          match read_quoted "'" rest with
          | Some (s, rest') => Some (VStr s, rest')
          | None => None
          end
      | "034" :: rest =>
          match read_quoted "034" rest with
          | Some (s, rest') => Some (VStr s, rest')
          | None => None
          end
      | "-" :: rest =>
          match read_int (skip_blanks rest) with
          | Some (n, rest') => Some (VInt (- n), rest')
          | None => None
          end
      | cs' =>
          match read_int cs' with
          | Some (n, rest') => Some (VInt n, rest')
          | None => read_keyword cs'
          end
      end%char
  end.

Definition literal_eval_fragment (s : string) : result literal :=
  let cs := list_ascii_of_string s in
  match parse_value (S (length cs)) cs with
  | Some (v, rest) =>
      match skip_blanks rest with
      | [] => Ok (match v with VList l => LitList l | _ => LitOther end)
      | _ :: _ => Raise MalformedLiteral
      end
  | None => Raise MalformedLiteral
  end.

(** ** isoformat *)

(** [n] in [width] decimal digits. *)
Fixpoint decimal (width : nat) (n : Z) : string :=
  match width with
  | O => EmptyString
  | S w => decimal w (n / 10) +:+ String (ascii_of_nat (48 + Z.to_nat (n mod 10))) EmptyString
  end.

(** The civil date of a day number counted from 1970-01-01. *)
Definition civil_from_days (days : Z) : Z * Z * Z :=
  let z := (days + 719468)%Z in
  let era := (z / 146097)%Z in
  let doe := (z - era * 146097)%Z in
  let yoe := ((doe - doe / 1460 + doe / 36524 - doe / 146096) / 365)%Z in
  let doy := (doe - (365 * yoe + yoe / 4 - yoe / 100))%Z in
  let mp := ((5 * doy + 2) / 153)%Z in
  let d := (doy - (153 * mp + 2) / 5 + 1)%Z in
  let m := (if mp <? 10 then mp + 3 else mp - 9)%Z in
  let y := (yoe + era * 400 + (if m <=? 2 then 1 else 0))%Z in
  (y, m, d).

Definition isoformat_reference (t : Timestamp) : string :=
  let offset := default 0%Z (ts_utcoffset t) in
  let ns := (ts_nanos t + offset * 60000000000)%Z in
  let '(y, m, d) := civil_from_days (ns / 86400000000000) in
  let tod := (ns mod 86400000000000)%Z in
  let secs := (tod / 1000000000)%Z in
  let frac := (tod mod 1000000000)%Z in
  let fraction :=
    if (frac =? 0)%Z then EmptyString
    else if (frac mod 1000 =? 0)%Z then "." +:+ decimal 6 (frac / 1000)
    else "." +:+ decimal 9 frac in
  let zone :=
    match ts_utcoffset t with
    | None => EmptyString
    | Some o =>
        (if (o <? 0)%Z then "-" else "+") +:+ decimal 2 (Z.abs o / 60)
        +:+ ":" +:+ decimal 2 (Z.abs o mod 60)
    end in
  decimal 4 y +:+ "-" +:+ decimal 2 m +:+ "-" +:+ decimal 2 d +:+ "T"
  +:+ decimal 2 (secs / 3600) +:+ ":" +:+ decimal 2 (secs / 60 mod 60) +:+ ":"
  +:+ decimal 2 (secs mod 60) +:+ fraction +:+ zone.

Definition reference_lib : PyLib := {|
  literal_eval := literal_eval_fragment;
  isoformat := isoformat_reference;
  json_error := fun _ => None
|}.

(** Modelled from the spec: [JSON_templates.py] is not among the
    sources.  Section 3 of the specification names, per entity, the
    [Code] field, the origin field of a child and the child lists a
    parent owns; these templates have those fields and a [Name], with
    [None] and the empty list as defaults. *)
Definition reference_templates : JSON_templates := {|
  Domain := [("Name", VNone)];
  Classification :=
    [("Code", VNone); ("Name", VNone); ("ClassificationProperties", VList []);
     ("ClassificationRelations", VList []); ("AllowedValues", VList [])];
  ClassificationRelation := [("(Origin Classification Code)", VNone); ("Name", VNone)];
  AllowedValue :=
    [("(Origin Property Code OR ClassificationProperty Code)", VNone); ("Code", VNone);
     ("Name", VNone)];
  ClassificationProperty :=
    [("(Origin Classification Code)", VNone); ("Code", VNone); ("Name", VNone)];
  Property :=
    [("Code", VNone); ("Name", VNone); ("AllowedValues", VList []);
     ("PropertyRelations", VList [])];
  PropertyRelation := [("(Origin Property)", VNone); ("Name", VNone)];
  Material := [("Code", VNone); ("Name", VNone)]
|}.

(* ================================================================== *)
(** * Part II: the store-level model of jsonify                        *)
(* ================================================================== *)

(** ** The heap *)

(** A reference is an immutable object, which is identified with its
    value, or the address of a list or of a dictionary. *)
Inductive ref : Type :=
| RNone
| RBool (b : bool)
| RInt (n : Z)
| RStr (s : string)
| RLoc (l : nat).

(** A mutable object holds references. *)
Inductive hobj : Type :=
| HList (items : list ref)
| HDict (entries : list (string * ref)).

(** The heap is the list of the objects allocated so far; an address
    is a position in it, and a new object goes to the end. *)
Abbreviation heap := (list hobj).

(** Store-level code runs on a heap in a world.  [None] stands for a
    state that is no state of a Python run: a reference to an address
    that holds nothing, or a template that is no dictionary. *)
Definition HM (A : Type) : Type := heap -> World -> option (heap * World * result A).

#[export] Instance HM_monad : Monad HM := {|
  ret := fun A a h w => Some (h, w, Ok a);
  bind := fun A B c k h w =>
    match c h w with
    | Some (h', w', Ok a) => k a h' w'
    | Some (h', w', Raise e) => Some (h', w', Raise e)
    | None => None
    end
|}.

(** [lst.append(a)] for the list at address [y] *)
Definition heap_append (y : nat) (a : ref) (h : heap) : heap :=
  match h !! y with
  | Some (HList l) => <[y := HList (l ++ [a])]> h
  | _ => h
  end.

(** [d[k] = a] for the dictionary at address [y] *)
Definition heap_setitem (y : nat) (k : string) (a : ref) (h : heap) : heap :=
  match h !! y with
  | Some (HDict d) => <[y := HDict (dict_set k a d)]> h
  | _ => h
  end.

(** ** copy.deepcopy *)

(** The loops of [_deepcopy_list] and [_deepcopy_dict]: every element
    is copied, with the memo as it is by then, and stored in the new
    object. *)
Fixpoint copy_each {K} (copy : ref -> gmap nat nat -> heap -> option (ref * gmap nat nat * heap))
    (store : K -> ref -> heap -> heap) (items : list (K * ref))
    (memo : gmap nat nat) (h : heap) : option (gmap nat nat * heap) :=
  match items with
  | [] => Some (memo, h)
  | (k, a) :: items' =>
      match copy a memo h with
      | Some (a', memo', h') => copy_each copy store items' memo' (store k a' h')
      | None => None
      end
  end.

(** [deepcopy(x, memo)].  An object found in the memo is returned from
    it; an immutable object is returned as it is; for a list or a
    dictionary the empty copy is allocated and entered in the memo
    before the elements are copied into it.  [fuel] bounds the depth of
    the recursion. *)
Fixpoint deepcopy_at (fuel : nat) (x : ref) (memo : gmap nat nat) (h : heap)
    : option (ref * gmap nat nat * heap) :=
  match x with
  | RLoc l =>
      match memo !! l with
      | Some y => Some (RLoc y, memo, h)
      | None =>
          match fuel with
          | O => None
          | S fuel' =>
              let y := length h in
              match h !! l with
              | Some (HList items) =>
                  match copy_each (deepcopy_at fuel') (fun _ : unit => heap_append y)
                          ((fun a => (tt, a)) <$> items) (<[l := y]> memo) (h ++ [HList []]) with
                  | Some (memo', h') => Some (RLoc y, memo', h')
                  | None => None
                  end
              | Some (HDict entries) =>
                  match copy_each (deepcopy_at fuel') (heap_setitem y)
                          entries (<[l := y]> memo) (h ++ [HDict []]) with
                  | Some (memo', h') => Some (RLoc y, memo', h')
                  | None => None
                  end
              | None => None
              end
          end
      end
  | _ => Some (x, memo, h)
  end.

(** [deepcopy(x)]: a fresh memo, and fuel for one level per object of
    the heap. *)
Definition deepcopy_h (x : ref) : HM ref :=
  fun h w =>
    match deepcopy_at (S (length h)) x ∅ h with
    | Some (y, _, h') => Some (h', w, Ok y)
    | None => None
    end.

(** ** jsonify on the heap *)

(** The objects of a literal are built from the inside out. *)
Fixpoint alloc_value (v : value) (h : heap) : ref * heap :=
  match v with
  | VNone => (RNone, h)
  | VBool b => (RBool b, h)
  | VInt n => (RInt n, h)
  | VStr s => (RStr s, h)
  | VList l =>
      let r := (fix alloc_items (l : list value) (h : heap) : list ref * heap :=
                  match l with
                  | [] => ([], h)
                  | x :: l' =>
                      let a := alloc_value x h in
                      let r := alloc_items l' a.2 in
                      (a.1 :: r.1, r.2)
                  end) l h in
      (RLoc (length r.2), r.2 ++ [HList r.1])
  | VDict d =>
      let r := (fix alloc_entries (d : list (string * value)) (h : heap)
                  : list (string * ref) * heap :=
                  match d with
                  | [] => ([], h)
                  | kv :: d' =>
                      let a := alloc_value kv.2 h in
                      let r := alloc_entries d' a.2 in
                      ((kv.1, a.1) :: r.1, r.2)
                  end) d h in
      (RLoc (length r.2), r.2 ++ [HDict r.1])
  end.

Definition hprint (line : string) : HM unit :=
  fun h w => Some (h, mkWorld (stdout w ++ [line]) (files w), Ok tt).

Section ConverterOnHeap.
Context `{PyLib}.

(** Lines 67-73 *)
Definition convert_h (column_data : pobject) : HM ref :=
  fun h w =>
    match column_data with
    | PTimestamp t => Some (h, w, Ok (RStr (isoformat t)))
    | PStr s =>
        if str_in "[" s && str_in "]" s then
          match literal_eval s with
          | Ok (LitList l) => let a := alloc_value (VList l) h in Some (a.2, w, Ok a.1)
          | Ok LitOther => Some (h, w, Ok (RStr s))
          | Raise e => Some (h, w, Raise e)
          end
        else Some (h, w, Ok (RStr s))
    | PNone => Some (h, w, Ok RNone)
    | PBool b => Some (h, w, Ok (RBool b))
    | PInt n => Some (h, w, Ok (RInt n))
    end.

(** Lines 65-76, for the dictionary at address [new_part]. *)
Definition set_column_h (new_part : nat) (_ : unit) (col : string * pobject) : HM unit :=
  fun h w =>
    match h !! new_part with
    | Some (HDict d) =>
        if dict_mem col.1 d then
          (column_data <- convert_h col.2 ;;
           fun h w => Some (heap_setitem new_part col.1 column_data h, w, Ok tt)) h w
        else hprint (no_such_property col.1) h w
    | _ => None
    end.

(** Lines 63-77; [json_part] is the address of the template and
    [jsons] holds the references appended to the result so far. *)
Definition jsonify_row_h (json_part : nat) (jsons : list ref)
    (row : list (string * pobject)) : HM (list ref) :=
  new_part <- deepcopy_h (RLoc json_part) ;;
  match new_part with
  | RLoc y => for_each row (set_column_h y) tt ;;; ret (jsons ++ [RLoc y])
  | _ => fun _ _ => None
  end.

Definition jsonify_h (dataframe : DataFrame) (json_part : nat) : HM (list ref) :=
  for_each (iterrows dataframe) (jsonify_row_h json_part) [].

End ConverterOnHeap.

(** ** Vocabulary of the store-level statements *)

Definition refs_of (o : hobj) : list ref :=
  match o with
  | HList items => items
  | HDict entries => entries.*2
  end.

(** The address [l] can be reached from the reference [r]. *)
Inductive reach (h : heap) : ref -> nat -> Prop :=
| reach_here (l : nat) : reach h (RLoc l) l
| reach_step (l : nat) (o : hobj) (r : ref) (l' : nat) :
    h !! l = Some o -> r ∈ refs_of o -> reach h r l' -> reach h (RLoc l) l'.

(** A reference into the addresses from [lo] up to [hi], or an
    immutable object. *)
Definition in_range (lo hi : nat) (r : ref) : Prop :=
  match r with
  | RLoc l => lo <= l < hi
  | _ => True
  end.

(** No object of the heap refers to an address that holds nothing. *)
Definition heap_closed (h : heap) : Prop :=
  Forall (fun o => Forall (in_range 0 (length h)) (refs_of o)) h.

(** The heap, as a tree: the value a reference stands for. *)
Fixpoint denotes (h : heap) (r : ref) (v : value) {struct v} : Prop :=
  match v with
  | VNone => r = RNone
  | VBool b => r = RBool b
  | VInt n => r = RInt n
  | VStr s => r = RStr s
  | VList vs =>
      exists l items, r = RLoc l /\ h !! l = Some (HList items)
        /\ (fix all2 (items : list ref) (vs : list value) {struct vs} : Prop :=
              match items, vs with
              | [], [] => True
              | r' :: items', v' :: vs' => denotes h r' v' /\ all2 items' vs'
              | _, _ => False
              end) items vs
  | VDict d =>
      exists l entries, r = RLoc l /\ h !! l = Some (HDict entries)
        /\ (fix all2 (entries : list (string * ref)) (d : list (string * value))
                {struct d} : Prop :=
              match entries, d with
              | [], [] => True
              | e :: entries', kv :: d' =>
                  e.1 = kv.1 /\ denotes h e.2 kv.2 /\ all2 entries' d'
              | _, _ => False
              end) entries d
  end.

(** The keys of every dictionary of the heap are distinct. *)
Definition heap_keys_distinct (h : heap) : Prop :=
  Forall (fun o => match o with HDict d => NoDup d.*1 | HList _ => True end) h.

(** A well-formed heap. *)
Definition heap_wf (h : heap) : Prop := heap_closed h /\ heap_keys_distinct h.

(** The addresses from [lo] up to [hi] refer to one another only. *)
Definition owned (h : heap) (lo hi : nat) : Prop :=
  forall l o, lo <= l < hi -> h !! l = Some o -> Forall (in_range lo hi) (refs_of o).

(** The heap [h'] has every object of [h], unchanged, at its address. *)
Definition preserves (h h' : heap) : Prop := h `prefix_of` h'.

(** The copy of a reference under a memo, and of an object. *)
Definition copy_ref (memo : gmap nat nat) (r r' : ref) : Prop :=
  match r with
  | RLoc l => exists y, memo !! l = Some y /\ r' = RLoc y
  | _ => r' = r
  end.

Definition copy_obj (memo : gmap nat nat) (o o' : hobj) : Prop :=
  match o, o' with
  | HList a, HList b => Forall2 (copy_ref memo) a b
  | HDict a, HDict b => Forall2 (fun e e' => e.1 = e'.1 /\ copy_ref memo e.2 e'.2) a b
  | _, _ => False
  end.

(** What holds of the memo and the heap while [deepcopy] copies
    objects of the heap [h0] to addresses from [base] on: the objects
    of [h0] are unchanged, the memo maps addresses of [h0] to new
    addresses, one to one, the copy of an object that is not one of
    the lists and dictionaries being copied ([anc]) is complete, and
    the new objects refer to new addresses only. *)
Record copy_inv (h0 : heap) (base : nat) (anc : list nat) (memo : gmap nat nat)
    (h : heap) : Prop := {
  ci_prefix : h0 `prefix_of` h;
  ci_base : length h0 <= base <= length h;
  ci_memo : forall l y, memo !! l = Some y -> l < length h0 /\ base <= y < length h;
  ci_inj : forall l1 l2 y, memo !! l1 = Some y -> memo !! l2 = Some y -> l1 = l2;
  ci_done : forall l y, memo !! l = Some y -> l ∉ anc ->
            exists o o', h0 !! l = Some o /\ h !! y = Some o' /\ copy_obj memo o o';
  ci_new : forall y o, base <= y -> h !! y = Some o ->
           Forall (in_range base (length h)) (refs_of o)
}.

(** What a call of [deepcopy_at] with [fuel] does, in any state that
    satisfies [copy_inv], when the fuel outweighs the addresses of
    [h0] that the memo does not yet hold. *)
Definition copies_ok (h0 : heap) (base : nat) (fuel : nat) : Prop :=
  forall x anc memo h,
    copy_inv h0 base anc memo h ->
    in_range 0 (length h0) x ->
    length h0 < fuel + size memo ->
    exists x' memo' h',
      deepcopy_at fuel x memo h = Some (x', memo', h')
      /\ copy_inv h0 base anc memo' h'
      /\ memo ⊆ memo'
      /\ h `prefix_of` h'
      /\ copy_ref memo' x x'
      /\ (forall l y, memo' !! l = Some y -> memo !! l = Some y \/ length h <= y).

(** The references of the elements of a literal list, allocated one
    after the other. *)
Fixpoint alloc_items (l : list value) (h : heap) : list ref * heap :=
  match l with
  | [] => ([], h)
  | x :: l' =>
      let a := alloc_value x h in
      let r := alloc_items l' a.2 in
      (a.1 :: r.1, r.2)
  end.

Fixpoint alloc_entries (d : list (string * value)) (h : heap) : list (string * ref) * heap :=
  match d with
  | [] => ([], h)
  | kv :: d' =>
      let a := alloc_value kv.2 h in
      let r := alloc_entries d' a.2 in
      ((kv.1, a.1) :: r.1, r.2)
  end.

Fixpoint value_size (v : value) : nat :=
  match v with
  | VList l => S (list_sum (value_size <$> l))
  | VDict d => S (list_sum ((fun kv => value_size kv.2) <$> d))
  | _ => 1
  end.

(** The rows mapped so far own consecutive stretches of the heap, from
    [lo] to [hi], each closed under reference. *)
Fixpoint regions (h : heap) (lo : nat) (jsons : list ref) (hi : nat) : Prop :=
  match jsons with
  | [] => lo = hi
  | x :: rest =>
      exists mid y, x = RLoc y /\ lo <= y < mid /\ mid <= hi
                    /\ owned h lo mid /\ regions h mid rest hi
  end.

(** A row of the result: a dictionary with the keys of the template. *)
Definition row_object (h : heap) (T : list (string * ref)) (x : ref) : Prop :=
  exists y e, x = RLoc y /\ h !! y = Some (HDict e) /\ e.*1 = T.*1.

(** What allocating a value does: the heap is extended by a stretch
    that is closed under reference, and the reference returned stands
    for the value. *)
Definition allocates (v : value) : Prop :=
  forall h,
    h `prefix_of` (alloc_value v h).2
    /\ in_range (length h) (length (alloc_value v h).2) (alloc_value v h).1
    /\ owned (alloc_value v h).2 (length h) (length (alloc_value v h).2)
    /\ denotes (alloc_value v h).2 (alloc_value v h).1 v.


(* ================================================================== *)
(** * Vocabulary of the statements                                     *)
(* ================================================================== *)

(** ** Induction on values *)

Section value_induction.
Variable P : value -> Prop.
Hypothesis HNone : P VNone.
Hypothesis HBool : forall b, P (VBool b).
Hypothesis HInt : forall n, P (VInt n).
Hypothesis HStr : forall s, P (VStr s).
Hypothesis HList : forall l, Forall P l -> P (VList l).
Hypothesis HDict : forall d, Forall (fun kv => P kv.2) d -> P (VDict d).

Fixpoint value_ind (v : value) : P v :=
  match v with
  | VNone => HNone
  | VBool b => HBool b
  | VInt n => HInt n
  | VStr s => HStr s
  | VList l =>
      HList l ((fix go (l : list value) : Forall P l :=
                  match l with
                  | [] => List.Forall_nil P
                  | x :: l' => @List.Forall_cons _ P x l' (value_ind x) (go l')
                  end) l)
  | VDict d =>
      HDict d ((fix go (d : list (string * value)) : Forall (fun kv => P kv.2) d :=
                  match d with
                  | [] => List.Forall_nil _
                  | kv :: d' => @List.Forall_cons _ (fun kv => P kv.2) kv d' (value_ind kv.2) (go d')
                  end) d)
  end.
End value_induction.

(** ** clean_nones *)

(** No [None] is an element of a list or a value of a dictionary,
    anywhere in the tree. *)
Fixpoint null_free (v : value) : bool :=
  match v with
  | VList l => forallb (fun x => negb (is_none x) && null_free x) l
  | VDict d => forallb (fun kv => negb (is_none kv.2) && null_free kv.2) d
  | _ => true
  end.

Definition clean_item (kv : string * value) : string * value :=
  (kv.1, clean_nones kv.2).


(** ** jsonify *)

(** A column of the frame is recognised by a template when its name is
    a key of the template. *)
Definition recognised {A} (T : dict) (col : string * A) : Prop :=
  dict_mem col.1 T = true.

#[export] Instance recognised_dec {A} (T : dict) (col : string * A) :
  Decision (recognised T col) := decide (dict_mem col.1 T = true).

(** The diagnostics of a row: one line per column that is not
    recognised, in column order. *)
Definition diagnostics_row (T : dict) (row : list (string * pobject)) : list string :=
  row ≫= fun col => if dict_mem col.1 T then [] else [no_such_property col.1].

Definition diagnostics (T : dict) (dataframe : DataFrame) : list string :=
  iterrows dataframe ≫= diagnostics_row T.


(** An object with exactly the keys of the template, in its order. *)
Definition shaped (T : dict) (o : value) : Prop :=
  exists d : dict, o = VDict d /\ d.*1 = T.*1.

(** What [jsonify] returns, read off without the world: the effect of
    a recognised column, of a row and of the rows of a frame. *)
Section Readings.
Context `{PyLib}.

Definition map_column (new_part : dict) (col : string * pobject) : result dict :=
  if dict_mem col.1 new_part then
    column_data <- convert col.2 ;; ret (dict_set col.1 column_data new_part)
  else ret new_part.

Definition map_row (json_part : dict) (row : list (string * pobject)) : result dict :=
  for_each row map_column (deepcopy json_part).

Definition map_rows (json_part : dict) (rws : list (list (string * pobject)))
    (jsons : list value) : result (list value) :=
  for_each rws (fun jsons row => d <- map_row json_part row ;; ret (jsons ++ [VDict d])) jsons.

End Readings.

(** Whether a string, blanks at both ends aside, opens with a square
    bracket and closes with one. *)
Definition is_space (c : ascii) : bool :=
  let n := nat_of_ascii c in (n =? 32)%nat || ((9 <=? n)%nat && (n <=? 13)%nat).

Fixpoint lstrip (cs : list ascii) : list ascii :=
  match cs with
  | c :: cs' => if is_space c then lstrip cs' else cs
  | [] => []
  end.

Definition strip (cs : list ascii) : list ascii :=
  reverse (lstrip (reverse (lstrip cs))).

Definition enclosed_in_brackets (s : string) : bool :=
  let cs := strip (list_ascii_of_string s) in
  match cs, reverse cs with
  | a :: _, b :: _ => Ascii.eqb a "[" && Ascii.eqb b "]"
  | _, _ => false
  end.

(** ** The linker *)

(** Two objects with the same [Code], or both without. *)
Definition same_code (p q : value) : Prop := getitem p "Code" = getitem q "Code".

(** The parent's [Code] equals the origin value. *)
Definition code_matches (related : value) (parent : value) : bool :=
  match getitem parent "Code" with
  | Ok code => py_eq code related
  | Raise _ => false
  end.

(** Parent number [i] is the first, in row order, whose [Code] equals
    the origin value. *)
Definition is_first_match (parents : list value) (related : value) (i : nat) : bool :=
  forallb (fun p => negb (code_matches related p)) (take i parents)
  && match parents !! i with
     | Some p => code_matches related p
     | None => false
     end.

(** A child as it is attached: without its origin field. *)
Definition stripped (okey : string) (child : value) : value :=
  match child with
  | VDict d => VDict (dict_remove okey d)
  | _ => child
  end.

(** The children whose origin value selects parent number [i], in row
    order and without their origin field. *)
Definition selects (okey : string) (parents : list value) (i : nat) (child : value) : bool :=
  match getitem child okey with
  | Ok related => is_first_match parents related i
  | Raise _ => false
  end.

Definition kids_of (okey : string) (parents children : list value) (i : nat) : list value :=
  stripped okey <$> filter (fun child => selects okey parents i child = true) children.

(** The tree before the linker runs: the first Domain object with the
    three top-level lists. *)
Definition before_linking (d0 : dict) (cls mats props : list value) : dict :=
  dict_set "Properties" (VList props)
    (dict_set "Materials" (VList mats)
       (dict_set "Classifications" (VList cls) d0)).

(** ** Sample inputs *)

Definition empty_world : World := mkWorld [] ∅.

Definition no_rows : DataFrame := mkDataFrame [] [].

(** A workbook with one classification [A1] and two classification
    properties whose origin is [A1]. *)
Definition excel_A1 : Excel := {|
  domain := mkDataFrame ["Name"] [[CStr "demo"]];
  classification := mkDataFrame ["Code"; "Name"] [[CStr "A1"; CStr "Wall"]];
  material := no_rows;
  property := no_rows;
  classificationproperty :=
    mkDataFrame ["(Origin Classification Code)"; "Code"]
      [[CStr "A1"; CStr "height"]; [CStr "A1"; CStr "width"]];
  classificationrelation := no_rows;
  propertyvalue := no_rows;
  propertyrelation := no_rows
|}.

(** ** The pipeline read off without the world *)

(** A computation reads as a result when, in every world, it returns
    or raises that result, leaves the files alone and only adds lines
    to the standard output. *)
Definition reads_as {A} (c : M A) (r : result A) : Prop :=
  forall w, (c w).2 = r /\ files (c w).1 = files w /\ stdout w `prefix_of` stdout (c w).1.

Section PipelineReading.
Context `{PyLib} `{JSON_templates}.

Definition mapped (dataframe : DataFrame) (json_part : dict) : result (list value) :=
  map_rows json_part (iterrows dataframe) [].

Definition excel2bsdd_reading (excel : Excel) : result value :=
  doms <- mapped (domain excel) Domain ;;
  bsdd_data <- first_item doms ;;
  cls <- mapped (classification excel) Classification ;;
  bsdd_data <- setitem bsdd_data "Classifications" (VList cls) ;;
  mats <- mapped (material excel) Material ;;
  bsdd_data <- setitem bsdd_data "Materials" (VList mats) ;;
  props <- mapped (property excel) Property ;;
  bsdd_data <- setitem bsdd_data "Properties" (VList props) ;;
  cls_props <- mapped (classificationproperty excel) ClassificationProperty ;;
  bsdd_data <- link_rows "(Origin Classification Code)" "Classifications"
                 "ClassificationProperties" cls_props bsdd_data ;;
  cls_rels <- mapped (classificationrelation excel) ClassificationRelation ;;
  bsdd_data <- link_rows "(Origin Classification Code)" "Classifications"
                 "ClassificationRelations" cls_rels bsdd_data ;;
  prop_vals <- mapped (propertyvalue excel) AllowedValue ;;
  bsdd_data <- for_each prop_vals link_value bsdd_data ;;
  prop_rels <- mapped (propertyrelation excel) PropertyRelation ;;
  bsdd_data <- link_rows "(Origin Property)" "Properties"
                 "PropertyRelations" prop_rels bsdd_data ;;
  ret bsdd_data.

(** What [load_excel] returns for the files of a world. *)
Definition load_excel_reading (fs : gmap string file) (path : string) : result Excel :=
  xls <- match fs !! path with
         | Some (FExcel wb) => Ok wb
         | Some (FNoAccess e) => Raise e
         | Some _ => Raise ValueError
         | None => Raise FileNotFoundError
         end ;;
  d <- xls "Domain" "C:Q" ;;
  c <- xls "Classification" "C:AA" ;;
  m <- xls "Material" "C:AA" ;;
  p <- xls "Property" "C:AT" ;;
  cp <- xls "ClassificationProperty" "C:T" ;;
  cr <- xls "ClassificationRelation" "C:G" ;;
  pv <- xls "PropertyValue" "C:AT" ;;
  pr <- xls "PropertyRelation" "C:AT" ;;
  ret (mkExcel d c m p cp cr pv pr).

(** The path and the document the script hands to [dump] at line 149,
    or the exception it ends with before. *)
Definition main_reading (argv : list string) (fs : gmap string file)
    : result (string * value) :=
  EXCEL_PATH <- argv_get argv 0 ;;
  JSON_PATH <- argv_get argv 1 ;;
  WITH_NULLS <- argv_get argv 2 ;;
  excel <- load_excel_reading fs EXCEL_PATH ;;
  bsdd_data <- excel2bsdd_reading excel ;;
  ret (JSON_PATH, if negb (truthy WITH_NULLS) then clean_nones bsdd_data else bsdd_data).

End PipelineReading.

(** Two Domain rows. *)
Definition excel_two_domains : Excel := {|
  domain := mkDataFrame ["Name"] [[CStr "first"]; [CStr "second"]];
  classification := no_rows;
  material := no_rows;
  property := no_rows;
  classificationproperty := no_rows;
  classificationrelation := no_rows;
  propertyvalue := no_rows;
  propertyrelation := no_rows
|}.

(** Two classifications with the same [Code] and one classification
    property that names it. *)
Definition excel_duplicate_code : Excel := {|
  domain := mkDataFrame ["Name"] [[CStr "demo"]];
  classification :=
    mkDataFrame ["Code"; "Name"] [[CStr "A1"; CStr "Wall"]; [CStr "A1"; CStr "Slab"]];
  material := no_rows;
  property := no_rows;
  classificationproperty :=
    mkDataFrame ["(Origin Classification Code)"; "Code"] [[CStr "A1"; CStr "height"]];
  classificationrelation := no_rows;
  propertyvalue := no_rows;
  propertyrelation := no_rows
|}.

(** A classification property whose origin is the [Code] of no
    classification. *)
Definition excel_unmatched : Excel := {|
  domain := mkDataFrame ["Name"] [[CStr "demo"]];
  classification := mkDataFrame ["Code"; "Name"] [[CStr "A1"; CStr "Wall"]];
  material := no_rows;
  property := no_rows;
  classificationproperty :=
    mkDataFrame ["(Origin Classification Code)"; "Code"] [[CStr "B7"; CStr "height"]];
  classificationrelation := no_rows;
  propertyvalue := no_rows;
  propertyrelation := no_rows
|}.

(** One classification, one property [P1] and one allowed value whose
    origin is [P1]. *)
Definition excel_allowed_value : Excel := {|
  domain := mkDataFrame ["Name"] [[CStr "demo"]];
  classification := mkDataFrame ["Code"; "Name"] [[CStr "A1"; CStr "Wall"]];
  material := no_rows;
  property := mkDataFrame ["Code"; "Name"] [[CStr "P1"; CStr "Colour"]];
  classificationproperty := no_rows;
  classificationrelation := no_rows;
  propertyvalue :=
    mkDataFrame ["(Origin Property Code OR ClassificationProperty Code)"; "Code"]
      [[CStr "P1"; CStr "red"]];
  propertyrelation := no_rows
|}.

(** The workbook whose sheets parse to the frames of [excel]. *)
Definition workbook_of (excel : Excel) : Workbook :=
  fun sheet _ =>
    if String.eqb sheet "Domain" then Ok (domain excel)
    else if String.eqb sheet "Classification" then Ok (classification excel)
    else if String.eqb sheet "Material" then Ok (material excel)
    else if String.eqb sheet "Property" then Ok (property excel)
    else if String.eqb sheet "ClassificationProperty" then Ok (classificationproperty excel)
    else if String.eqb sheet "ClassificationRelation" then Ok (classificationrelation excel)
    else if String.eqb sheet "PropertyValue" then Ok (propertyvalue excel)
    else if String.eqb sheet "PropertyRelation" then Ok (propertyrelation excel)
    else Raise ValueError.

(** A world with the script, a workbook [in.xlsx] and nothing printed. *)
Definition world_with (excel : Excel) : World :=
  mkWorld [] (<["in.xlsx" := FExcel (workbook_of excel)]>
                (<["Excel2bSDD_converter.py" := FOther]> ∅)).

(** A template with a nested list, on the heap: the list at address 0,
    the template at address 1. *)
Definition template_entries : list (string * ref) := [("Code", RNone); ("Tags", RLoc 0)].

Definition template_heap : heap := [HList [RStr "x"]; HDict template_entries].

Definition two_rows : DataFrame := mkDataFrame ["Code"] [[CStr "A"]; [CStr "B"]].

(** ** The tree [excel2bsdd] returns *)

Definition is_dict (v : value) : Prop := exists d : dict, v = VDict d.

(** The lists the linker appends to. *)
Definition child_lists : list string :=
  ["ClassificationProperties"; "ClassificationRelations"; "AllowedValues";
   "PropertyRelations"].

(** The object [p'] is [p] but for its child lists. *)
Definition same_fields (p p' : value) : Prop :=
  forall k, k ∉ child_lists -> getitem p' k = getitem p k.

(** The sheets [load_excel] reads and the columns it keeps of each, in
    the order of lines 39-46. *)
Definition sheets : list (string * string) :=
  [("Domain", "C:Q"); ("Classification", "C:AA"); ("Material", "C:AA");
   ("Property", "C:AT"); ("ClassificationProperty", "C:T");
   ("ClassificationRelation", "C:G"); ("PropertyValue", "C:AT");
   ("PropertyRelation", "C:AT")].

(** A workbook without classifications: one property [P1] with an
    allowed value, and a column the Property template does not know. *)
Definition excel_property_values : Excel := {|
  domain := mkDataFrame ["Name"] [[CStr "demo"]];
  classification := no_rows;
  material := mkDataFrame ["Code"; "Name"] [[CStr "M1"; CNaN]];
  property := mkDataFrame ["Code"; "Colour"] [[CStr "P1"; CStr "grey"]];
  classificationproperty := no_rows;
  classificationrelation := no_rows;
  propertyvalue :=
    mkDataFrame ["(Origin Property Code OR ClassificationProperty Code)"; "Code"]
      [[CStr "P1"; CStr "red"]];
  propertyrelation := no_rows
|}.

(** ** What the linker needs *)

(** A parent the linker can use: an object with a [Code] and with the
    child list [L]. *)
Definition parent_ok (L : string) (p : value) : Prop :=
  exists (d : dict) c kids,
    p = VDict d /\ dict_get "Code" d = Some c /\ dict_get L d = Some (VList kids).

(** A child whose origin value is the [Code] of a parent, of one or of
    several. *)
Definition has_parent (okey : string) (parents : list value) (child : value) : Prop :=
  exists (cd : dict) related p,
    child = VDict cd /\ dict_get okey cd = Some related
    /\ p ∈ parents /\ code_matches related p = true.
(* ================================================================== *)
(** * Part III: properties of the value-level model                    *)
(* ================================================================== *)

(** ** clean_nones *)

Lemma clean_nones_list (l : list value) :
  clean_nones (VList l) = VList (clean_nones <$> filter (fun x => is_none x = false) l).
Proof.
  cbn [clean_nones]. f_equal. induction l as [|x l IH]; [done|].
  destruct (is_none x) eqn:E.
  - rewrite filter_cons_False by (by rewrite E). exact IH.
  - rewrite filter_cons_True by done. rewrite fmap_cons. by rewrite IH.
Qed.

Lemma clean_nones_dict (d : dict) :
  clean_nones (VDict d) = VDict (clean_item <$> filter (fun kv => is_none kv.2 = false) d).
Proof.
  cbn [clean_nones]. f_equal. induction d as [|[k x] d IH]; [done|].
  destruct (is_none x) eqn:E.
  - rewrite filter_cons_False by (simpl; by rewrite E). exact IH.
  - rewrite filter_cons_True by done. rewrite fmap_cons. by rewrite IH.
Qed.

Lemma clean_nones_not_none (v : value) : is_none v = false -> is_none (clean_nones v) = false.
Proof. by destruct v. Qed.

Lemma null_free_clean_nones (v : value) : null_free (clean_nones v) = true.
Proof.
  induction v as [| | | |l IH|d IH] using value_ind; try done.
  - rewrite clean_nones_list. simpl. apply forallb_forall. intros y Hy.
    apply list_elem_of_In, list_elem_of_fmap in Hy as (x & -> & Hx).
    apply list_elem_of_filter in Hx as [Hn Hx].
    rewrite Forall_forall in IH. rewrite (IH x Hx), clean_nones_not_none; done.
  - rewrite clean_nones_dict. simpl. apply forallb_forall. intros y Hy.
    apply list_elem_of_In, list_elem_of_fmap in Hy as (x & -> & Hx).
    apply list_elem_of_filter in Hx as [Hn Hx].
    rewrite Forall_forall in IH. simpl. rewrite (IH x Hx), clean_nones_not_none; done.
Qed.

Lemma clean_nones_idem (v : value) : clean_nones (clean_nones v) = clean_nones v.
Proof.
  induction v as [| | | |l IH|d IH] using value_ind; try done.
  - rewrite !clean_nones_list. f_equal.
    induction IH as [|x l Hx _ IHl]; [done|].
    destruct (is_none x) eqn:E.
    + rewrite filter_cons_False by (by rewrite E). exact IHl.
    + rewrite filter_cons_True by done. rewrite fmap_cons.
      rewrite filter_cons_True by (by apply clean_nones_not_none).
      rewrite fmap_cons, Hx. by rewrite IHl.
  - rewrite !clean_nones_dict. f_equal.
    induction IH as [|[k x] d Hx _ IHd]; [done|].
    simpl in Hx. destruct (is_none x) eqn:E.
    + rewrite filter_cons_False by (simpl; by rewrite E). exact IHd.
    + rewrite filter_cons_True by done. rewrite fmap_cons.
      rewrite filter_cons_True by (by apply clean_nones_not_none).
      rewrite fmap_cons. unfold clean_item at 1. simpl. rewrite Hx. by rewrite IHd.
Qed.

(** C7.  [clean_nones] leaves no [None] as an element of a list or as
    the value of a key, at any depth; a list becomes the list of its
    pruned elements other than [None], a dictionary keeps the keys
    whose value is not [None] with the value pruned, and a scalar is
    returned as it is.  A container that pruning empties stays in
    place as an empty container.  The object
    [{"A": None, "B": [1, None, 2]}] is pruned to [{"B": [1, 2]}]. *)
Theorem clean_nones_prunes (v : value) (l : list value) (d : dict) :
  null_free (clean_nones v) = true
  /\ clean_nones (VList l) = VList (clean_nones <$> filter (fun x => is_none x = false) l)
  /\ clean_nones (VDict d) = VDict (clean_item <$> filter (fun kv => is_none kv.2 = false) d)
  /\ match v with VList _ | VDict _ => True | _ => clean_nones v = v end
  /\ clean_nones (VList [VNone; VList [VNone]; VDict [("k", VNone)]]) = VList [VList []; VDict []]
  /\ clean_nones (VDict [("A", VNone); ("B", VList [VInt 1; VNone; VInt 2])])
     = VDict [("B", VList [VInt 1; VInt 2])].
Proof.
  split; [apply null_free_clean_nones|].
  split; [apply clean_nones_list|].
  split; [apply clean_nones_dict|].
  split; [by destruct v|].
  split; reflexivity.
Qed.

(** C8.  Pruning twice is pruning once, and the entries that survive
    keep their relative order: the elements kept from a list are a
    subsequence of the list, the items kept from a dictionary are a
    subsequence of its items, and the result lists their pruned forms
    in that order. *)
Theorem clean_nones_idempotent_ordered (v : value) (l : list value) (d : dict) :
  clean_nones (clean_nones v) = clean_nones v
  /\ (filter (fun x => is_none x = false) l `sublist_of` l
      /\ clean_nones (VList l) = VList (clean_nones <$> filter (fun x => is_none x = false) l))
  /\ (filter (fun kv => is_none kv.2 = false) d `sublist_of` d
      /\ clean_nones (VDict d)
         = VDict (clean_item <$> filter (fun kv => is_none kv.2 = false) d)).
Proof.
  split; [apply clean_nones_idem|].
  split; (split; [apply sublist_filter|]).
  - apply clean_nones_list.
  - apply clean_nones_dict.
Qed.

(** ** Dictionaries *)

#[local] Arguments dict_mem : simpl never.

Lemma dict_mem_true {V} (k : string) (d : list (string * V)) :
  dict_mem k d = true <-> k ∈ d.*1.
Proof.
  unfold dict_mem. rewrite existsb_exists. split.
  - intros (kv & Hin & Heq). apply String.eqb_eq in Heq as ->.
    apply list_elem_of_fmap. exists kv. split; [done|]. by apply list_elem_of_In.
  - intros (kv & -> & Hin)%list_elem_of_fmap. exists kv. split.
    + by apply list_elem_of_In.
    + apply String.eqb_refl.
Qed.

Lemma dict_mem_false {V} (k : string) (d : list (string * V)) :
  dict_mem k d = false <-> k ∉ d.*1.
Proof.
  rewrite <- dict_mem_true. destruct (dict_mem k d); naive_solver.
Qed.

Lemma dict_mem_cons {V} (k k' : string) (v : V) (d : list (string * V)) :
  dict_mem k ((k', v) :: d) = String.eqb k k' || dict_mem k d.
Proof. done. Qed.

Lemma dict_get_is_Some {V} (k : string) (d : list (string * V)) :
  is_Some (dict_get k d) <-> dict_mem k d = true.
Proof.
  induction d as [|[k' v] d IH]; simpl.
  - split; [by intros [? ?]|done].
  - rewrite dict_mem_cons. destruct (String.eqb k k'); simpl; [|done].
    split; [done|]. by eexists.
Qed.

Lemma dict_get_None {V} (k : string) (d : list (string * V)) :
  dict_get k d = None <-> dict_mem k d = false.
Proof.
  rewrite eq_None_not_Some, dict_get_is_Some. by destruct (dict_mem k d).
Qed.

Lemma dict_get_set_eq {V} (k : string) (v : V) (d : list (string * V)) :
  dict_get k (dict_set k v d) = Some v.
Proof.
  induction d as [|[k' v'] d IH]; simpl.
  - by rewrite String.eqb_refl.
  - destruct (String.eqb k k') eqn:E; simpl.
    + by rewrite String.eqb_refl.
    + by rewrite E.
Qed.

Lemma dict_get_set_ne {V} (k k' : string) (v : V) (d : list (string * V)) :
  k <> k' -> dict_get k' (dict_set k v d) = dict_get k' d.
Proof.
  intros Hne. induction d as [|[k0 v0] d IH]; simpl.
  - destruct (String.eqb_spec k' k); congruence.
  - destruct (String.eqb_spec k k0) as [->|]; simpl.
    + destruct (String.eqb_spec k' k0); congruence.
    + by rewrite IH.
Qed.

Lemma dict_set_keys {V} (k : string) (v : V) (d : list (string * V)) :
  dict_mem k d = true -> (dict_set k v d).*1 = d.*1.
Proof.
  induction d as [|[k' v'] d IH]; [done|].
  rewrite dict_mem_cons. cbn [dict_set].
  destruct (String.eqb_spec k k') as [->|]; [done|].
  intros Hm. rewrite !fmap_cons, IH; done.
Qed.

Lemma dict_set_keys_new {V} (k : string) (v : V) (d : list (string * V)) :
  dict_mem k d = false -> dict_set k v d = d ++ [(k, v)].
Proof.
  induction d as [|[k' v'] d IH]; [done|].
  rewrite dict_mem_cons. cbn [dict_set].
  destruct (String.eqb_spec k k') as [->|]; [done|].
  intros Hm. rewrite IH; done.
Qed.

Lemma dict_mem_set {V} (k k' : string) (v : V) (d : list (string * V)) :
  dict_mem k' (dict_set k v d) = String.eqb k' k || dict_mem k' d.
Proof.
  induction d as [|[k0 v0] d IH]; [done|]. cbn [dict_set].
  destruct (String.eqb_spec k k0) as [<-|]; rewrite !dict_mem_cons.
  - by destruct (String.eqb k' k).
  - rewrite IH. by destruct (String.eqb k' k), (String.eqb k' k0).
Qed.

Lemma dict_set_set {V} (k : string) (v v' : V) (d : list (string * V)) :
  dict_set k v' (dict_set k v d) = dict_set k v' d.
Proof.
  induction d as [|[k0 v0] d IH]; simpl.
  - by rewrite String.eqb_refl.
  - destruct (String.eqb k k0) eqn:E; simpl.
    + by rewrite String.eqb_refl.
    + by rewrite E, IH.
Qed.


Lemma dict_get_remove_ne {V} (k k' : string) (d : list (string * V)) :
  k <> k' -> dict_get k' (dict_remove k d) = dict_get k' d.
Proof.
  intros Hne. unfold dict_remove. induction d as [|[k0 v0] d IH]; [done|].
  destruct (decide (k0 = k)) as [->|Hne0].
  - rewrite filter_cons_False by (simpl; auto). simpl.
    destruct (String.eqb_spec k' k); congruence.
  - rewrite filter_cons_True by done. simpl. by rewrite IH.
Qed.

(** ** The monads *)

Lemma bind_run {A B} (c : M A) (k : A -> M B) (w : World) :
  (x <- c ;; k x) w =
    match c w with
    | (w', Ok a) => k a w'
    | (w', Raise e) => (w', Raise e)
    end.
Proof. done. Qed.

Lemma bind_lift {A B} (r : result A) (k : A -> M B) (w : World) :
  (x <- lift r ;; k x) w = match r with Ok a => k a w | Raise e => (w, Raise e) end.
Proof. by destruct r. Qed.


Lemma dict_mem_keys {V W} (k : string) (d : list (string * V)) (d' : list (string * W)) :
  d.*1 = d'.*1 -> dict_mem k d = dict_mem k d'.
Proof.
  intros Hk. destruct (dict_mem k d') eqn:E.
  - apply dict_mem_true. rewrite Hk. by apply dict_mem_true.
  - apply dict_mem_false. rewrite Hk. by apply dict_mem_false.
Qed.

(** ** jsonify *)

Section jsonify_facts.
Context `{PyLib}.

Lemma set_column_run (d : dict) (col : string * pobject) (w : World) :
  set_column d col w =
    if dict_mem col.1 d then (w, map_column d col)
    else (mkWorld (stdout w ++ [no_such_property col.1]) (files w), Ok d).
Proof.
  unfold set_column, map_column. destruct (dict_mem col.1 d); [|done].
  simpl. unfold lift. by destruct (convert col.2).
Qed.

Lemma map_column_keys (T d d' : dict) (col : string * pobject) :
  d.*1 = T.*1 -> map_column d col = Ok d' -> d'.*1 = T.*1.
Proof.
  intros Hk. unfold map_column. destruct (dict_mem col.1 d) eqn:E; simpl.
  - destruct (convert col.2); [|done]. intros [= <-]. by rewrite dict_set_keys.
  - by intros [= <-].
Qed.

Lemma world_eta (w : World) : mkWorld (stdout w) (files w) = w.
Proof. by destruct w. Qed.

(** The loop over the columns of a row: the world it leaves and the
    dictionary it returns. *)
Lemma columns_run (T : dict) (row : list (string * pobject)) (d : dict) (w : World) :
  d.*1 = T.*1 ->
  exists D : list string,
    (for_each row set_column d w).1 = mkWorld (stdout w ++ D) (files w)
    /\ D `prefix_of` diagnostics_row T row
    /\ (for_each row set_column d w).2 = for_each row map_column d
    /\ match for_each row map_column d with
       | Ok d' => d'.*1 = T.*1 /\ D = diagnostics_row T row
       | Raise _ => True
       end.
Proof.
  revert d w. induction row as [|col row IH]; intros d w Hk.
  - exists []. simpl. rewrite app_nil_r, world_eta. done.
  - cbn [for_each]. unfold diagnostics_row. cbn [mbind list_bind]. fold (diagnostics_row T row).
    rewrite <- (dict_mem_keys col.1 d T Hk).
    rewrite bind_run, set_column_run. destruct (dict_mem col.1 d) eqn:E.
    + destruct (map_column d col) as [d1|e] eqn:Em; cbn [bind result_monad].
      * destruct (IH d1 w) as (D & H1 & H2 & H3 & H4).
        { by eapply map_column_keys. }
        exists D. done.
      * exists []. rewrite app_nil_r, world_eta. split; [done|]. split; [apply prefix_nil|done].
    + assert (map_column d col = Ok d) as -> by (unfold map_column; by rewrite E).
      cbn [bind result_monad].
      destruct (IH d (mkWorld (stdout w ++ [no_such_property col.1]) (files w)) Hk)
        as (D & H1 & H2 & H3 & H4).
      exists (no_such_property col.1 :: D). simpl in H1. rewrite H1, <- app_assoc.
      split; [done|]. split; [by apply prefix_cons|]. split; [done|].
      destruct (for_each row map_column d); [|done]. destruct H4 as [? ->]. done.
Qed.

(** The loop over the rows. *)
Lemma rows_run (T : dict) (rws : list (list (string * pobject))) (jsons : list value)
    (w : World) :
  exists D : list string,
    (for_each rws (jsonify_row T) jsons w).1 = mkWorld (stdout w ++ D) (files w)
    /\ D `prefix_of` (rws ≫= diagnostics_row T)
    /\ (for_each rws (jsonify_row T) jsons w).2 = map_rows T rws jsons
    /\ match map_rows T rws jsons with
       | Ok out =>
           exists news, out = jsons ++ news /\ length news = length rws
                        /\ Forall (shaped T) news /\ D = rws ≫= diagnostics_row T
       | Raise _ => True
       end.
Proof.
  revert jsons w. induction rws as [|row rws IH]; intros jsons w.
  - exists []. simpl. rewrite app_nil_r, world_eta.
    split; [done|]. split; [done|]. split; [done|].
    exists []. by rewrite app_nil_r.
  - unfold map_rows. cbn [for_each mbind list_bind]. fold (map_rows T rws).
    rewrite bind_run. unfold jsonify_row at 1 3. rewrite bind_run.
    destruct (columns_run T row (deepcopy T) w eq_refl) as (D1 & H1 & H2 & H3 & H4).
    destruct (for_each row set_column (deepcopy T) w) as [w1 r1]. simpl in H1, H3.
    subst w1 r1. unfold map_row at 1 2.
    destruct (for_each row map_column (deepcopy T)) as [d|e]; cbn [bind result_monad M_monad ret].
    + destruct H4 as [Hd ->].
      destruct (IH (jsons ++ [VDict d]) (mkWorld (stdout w ++ diagnostics_row T row) (files w)))
        as (D & G1 & G2 & G3 & G4).
      exists (diagnostics_row T row ++ D). simpl in G1. rewrite G1, <- app_assoc.
      split; [done|]. split; [by apply prefix_app|]. split; [done|].
      destruct (map_rows T rws (jsons ++ [VDict d])) as [out|]; [|done].
      destruct G4 as (news & -> & Hlen & Hall & ->).
      exists (VDict d :: news). rewrite <- app_assoc. split; [done|].
      split; [simpl; by rewrite Hlen|]. split; [|done].
      constructor; [|done]. by exists d.
    + exists D1. split; [done|]. split; [|done]. by apply prefix_app_r.
Qed.






Lemma jsonify_reading (dataframe : DataFrame) (json_part : dict) (w : World) :
  (jsonify dataframe json_part w).2 = map_rows json_part (iterrows dataframe) [].
Proof.
  unfold jsonify. by destruct (rows_run json_part (iterrows dataframe) [] w) as (D & _ & _ & -> & _).
Qed.

End jsonify_facts.


(** ** The linker *)

Lemma bind_Ok {A B} (r : result A) (k : A -> result B) (b : B) :
  (x <- r ;; k x) = Ok b -> exists a, r = Ok a /\ k a = Ok b.
Proof. destruct r as [a|e]; [|done]. intros Hk. by exists a. Qed.

Lemma bind_Raise {A B} (r : result A) (k : A -> result B) :
  (exists e, r = Raise e) -> exists e, (x <- r ;; k x) = Raise e.
Proof. intros [e ->]. by exists e. Qed.

Ltac bind_inv H :=
  let a := fresh "a" in
  let Ha := fresh "H" a in
  apply bind_Ok in H as (a & Ha & H).

Lemma getitem_Ok (o : value) (k : string) (v : value) :
  getitem o k = Ok v <-> exists d, o = VDict d /\ dict_get k d = Some v.
Proof.
  split.
  - destruct o as [| | | | |d]; try done. simpl.
    destruct (dict_get k d) eqn:E; [|done]. intros [= ->]. by exists d.
  - intros (d & -> & Hd). simpl. by rewrite Hd.
Qed.

Lemma is_first_match_cons (p : value) (ps : list value) (related : value) (i : nat) :
  is_first_match (p :: ps) related (S i)
  = negb (code_matches related p) && is_first_match ps related i.
Proof. unfold is_first_match. simpl. by rewrite andb_assoc. Qed.

Lemma is_first_match_0 (p : value) (ps : list value) (related : value) :
  is_first_match (p :: ps) related 0 = code_matches related p.
Proof. done. Qed.

Lemma is_first_match_unique (ps : list value) (related : value) (i j : nat) :
  is_first_match ps related i = true -> is_first_match ps related j = true -> i = j.
Proof.
  revert i j. induction ps as [|p ps IH]; intros i j.
  - unfold is_first_match. rewrite lookup_nil, andb_false_r. done.
  - destruct i as [|i], j as [|j]; rewrite ?is_first_match_cons, ?is_first_match_0; try done.
    + intros ->. done.
    + intros Hi Hp. by rewrite Hp in Hi.
    + intros [_ Hi]%andb_prop [_ Hj]%andb_prop. f_equal. by apply IH.
Qed.

Lemma is_first_match_lookup (ps : list value) (related : value) (i : nat) :
  is_first_match ps related i = true ->
  exists p, ps !! i = Some p /\ code_matches related p = true.
Proof.
  unfold is_first_match. intros [_ Hp]%andb_prop.
  destruct (ps !! i) as [p|]; [|done]. by exists p.
Qed.

(** The look-up depends on the [Code] of the parents only. *)
Lemma is_first_match_codes (ps qs : list value) (related : value) (i : nat) :
  Forall2 (fun p q => getitem p "Code" = getitem q "Code") ps qs ->
  is_first_match ps related i = is_first_match qs related i.
Proof.
  intros Hpq. revert i. induction Hpq as [|p q ps qs Hc _ IH]; intros i; [done|].
  assert (code_matches related p = code_matches related q) as Hm.
  { unfold code_matches. by rewrite Hc. }
  destruct i as [|i]; rewrite ?is_first_match_cons, ?is_first_match_0; [done|].
  by rewrite Hm, IH.
Qed.

Lemma next_code_Ok (items : list value) (related : value) (i : nat) (p : value) :
  next_code items related = Ok (i, p) ->
  items !! i = Some p /\ is_first_match items related i = true.
Proof.
  revert i. induction items as [|item rest IH]; intros i; [done|].
  cbn [next_code]. intros Hn. bind_inv Hn.
  destruct (py_eq a related) eqn:E.
  - injection Hn as <- <-. split; [done|].
    rewrite is_first_match_0. unfold code_matches. by rewrite Ha.
  - bind_inv Hn. destruct a0 as [i' p']. injection Hn as <- <-.
    destruct (IH i' Ha0) as [Hl Hf]. split; [done|].
    rewrite is_first_match_cons, Hf. unfold code_matches. by rewrite Ha, E.
Qed.

Lemma next_code_unmatched (items : list value) (related : value) :
  (forall p, p ∈ items -> code_matches related p = false) ->
  exists e, next_code items related = Raise e.
Proof.
  induction items as [|item rest IH]; intros Hno; [by eexists|].
  cbn [next_code]. pose proof (Hno item (list_elem_of_here _ _)) as Hitem.
  unfold code_matches in Hitem. destruct (getitem item "Code") as [c|e]; [|by eexists].
  cbn [bind result_monad]. rewrite Hitem.
  destruct IH as [e ->]; [|by eexists].
  intros p Hp. apply Hno. by apply list_elem_of_further.
Qed.

(** A matching parent that is a dictionary with a list under [L], all
    parents before it having a [Code]: the look-up finds it. *)
Lemma next_code_found (items : list value) (related : value) (i : nat) :
  is_first_match items related i = true ->
  Forall (fun p => is_ok (getitem p "Code") = true) (take i items) ->
  exists p, items !! i = Some p /\ next_code items related = Ok (i, p).
Proof.
  revert i. induction items as [|item rest IH]; intros i.
  - unfold is_first_match. by rewrite lookup_nil, andb_false_r.
  - destruct i as [|i].
    + rewrite is_first_match_0. unfold code_matches. intros Hm _. exists item.
      split; [done|]. cbn [next_code].
      destruct (getitem item "Code") as [c|]; [|done]. cbn [bind result_monad]. by rewrite Hm.
    + rewrite is_first_match_cons. intros [Hn Hf]%andb_prop.
      rewrite firstn_cons. intros [Hc Hall]%Forall_cons.
      destruct (IH i Hf Hall) as (p & Hp & Hnext). exists p. split; [done|].
      cbn [next_code]. unfold code_matches in Hn.
      destruct (getitem item "Code") as [c|]; [|done]. cbn [bind result_monad].
      apply negb_true_iff in Hn. rewrite Hn, Hnext. done.
Qed.

Lemma append_to_match_Ok (container : value) (L : string) (related child c' : value) :
  append_to_match container L related child = Ok c' ->
  exists items i d kids,
    container = VList items
    /\ items !! i = Some (VDict d)
    /\ is_first_match items related i = true
    /\ dict_get L d = Some (VList kids)
    /\ c' = VList (<[i := VDict (dict_set L (VList (kids ++ [child])) d)]> items).
Proof.
  unfold append_to_match. intros Hc. bind_inv Hc. bind_inv Hc. bind_inv Hc. bind_inv Hc.
  destruct a0 as [i p]. apply next_code_Ok in Ha0 as [Hi Hf].
  cbn [fst snd] in *. apply getitem_Ok in Ha1 as (d & -> & Hd).
  destruct a1 as [| | | |kids|]; try done. injection Ha2 as <-.
  injection Hc as <-.
  destruct container as [| | |s|items|dc]; try done.
  - (* a string: its characters are strings, which have no ["Code"] *)
    exfalso. injection Ha as <-. clear -Hi. revert i Hi.
    induction s as [|c s IH]; intros [|i]; try done. apply IH.
  - injection Ha as <-. by exists items, i, d, kids.
  - (* a dictionary: its keys are strings *)
    exfalso. injection Ha as <-. rewrite list_lookup_fmap in Hi.
    by destruct (dc.*1 !! i).
Qed.

Lemma dict_set_same {V} (k : string) (v : V) (d : list (string * V)) :
  dict_get k d = Some v -> dict_set k v d = d.
Proof.
  induction d as [|[k' v'] d IH]; [done|]. simpl.
  destruct (String.eqb_spec k k') as [->|]; [by intros [= ->]|].
  intros Hd. by rewrite IH.
Qed.

Lemma pop_Ok (o : value) (k : string) (o' : value) :
  pop o k = Ok o' -> exists d, o = VDict d /\ dict_mem k d = true /\ o' = VDict (dict_remove k d).
Proof.
  destruct o as [| | | | |d]; try done. simpl.
  destruct (dict_mem k d) eqn:E; [|done]. intros [= <-]. by exists d.
Qed.

Lemma link_row_Ok (okey P L : string) (bsdd child bsdd' : value) :
  link_row okey P L bsdd child = Ok bsdd' ->
  exists (B cd : dict) related parents i d kids,
    bsdd = VDict B /\ child = VDict cd
    /\ dict_get okey cd = Some related
    /\ dict_get P B = Some (VList parents)
    /\ parents !! i = Some (VDict d)
    /\ is_first_match parents related i = true
    /\ dict_get L d = Some (VList kids)
    /\ bsdd' = VDict (dict_set P
                 (VList (<[i := VDict (dict_set L (VList (kids ++ [stripped okey child])) d)]>
                           parents)) B).
Proof.
  unfold link_row, link_child. intros Hl. bind_inv Hl. bind_inv Hl. bind_inv Hl. bind_inv Hl.
  apply getitem_Ok in Ha as (cd & -> & Hrel).
  apply pop_Ok in Ha0 as (cd' & [= <-] & _ & ->).
  apply getitem_Ok in Ha1 as (B & -> & HP).
  apply append_to_match_Ok in Ha2 as (parents & i & d & kids & -> & Hi & Hf & HL & ->).
  injection Hl as <-. by exists B, cd, a, parents, i, d, kids.
Qed.

Lemma kids_of_cons (okey : string) (parents : list value) (child : value)
    (children : list value) (i : nat) :
  kids_of okey parents (child :: children) i
  = (if selects okey parents i child then [stripped okey child] else [])
    ++ kids_of okey parents children i.
Proof.
  unfold kids_of. destruct (selects okey parents i child) eqn:E.
  - by rewrite filter_cons_True.
  - rewrite filter_cons_False; [done|]. by rewrite E.
Qed.

Lemma kids_of_codes (okey : string) (ps qs children : list value) (i : nat) :
  Forall2 (fun p q => getitem p "Code" = getitem q "Code") ps qs ->
  kids_of okey ps children i = kids_of okey qs children i.
Proof.
  intros Hpq. unfold kids_of. f_equal. apply list_filter_iff. intros child.
  unfold selects. destruct (getitem child okey); [|done].
  by rewrite (is_first_match_codes ps qs).
Qed.


Lemma selects_codes (okey : string) (ps qs : list value) (i : nat) (child : value) :
  Forall2 (fun p q => getitem p "Code" = getitem q "Code") ps qs ->
  selects okey ps i child = selects okey qs i child.
Proof.
  intros Hpq. unfold selects. destruct (getitem child okey); [|done].
  by apply is_first_match_codes.
Qed.

(** The loop of the linker, children taken in row order. *)
Lemma link_rows_Ok (okey P L : string) (children : list value) :
  L <> "Code" ->
  forall (B : dict) (parents : list value) (bsdd' : value),
  dict_get P B = Some (VList parents) ->
  link_rows okey P L children (VDict B) = Ok bsdd' ->
  exists parents',
    bsdd' = VDict (dict_set P (VList parents') B)
    /\ length parents' = length parents
    /\ Forall (fun child => exists i, selects okey parents i child = true) children
    /\ forall i p, parents !! i = Some p ->
       exists p', parents' !! i = Some p'
         /\ (forall k, k <> L -> getitem p' k = getitem p k)
         /\ (kids_of okey parents children i = [] -> p' = p)
         /\ (forall l0, getitem p L = Ok (VList l0) ->
             getitem p' L = Ok (VList (l0 ++ kids_of okey parents children i)))
         /\ (forall d, p = VDict d -> exists d', p' = VDict d').
Proof.
  intros HL. induction children as [|child children IH]; intros B parents bsdd' HP.
  - intros [= <-]. exists parents. rewrite dict_set_same by done.
    split; [done|]. split; [done|]. split; [done|]. intros i p Hp. exists p.
    split; [done|]. split; [done|]. split; [done|]. split; [|by eauto].
    intros l0 ->. unfold kids_of. by rewrite filter_nil, app_nil_r.
  - unfold link_rows. cbn [for_each]. intros Hl. bind_inv Hl.
    apply link_row_Ok in Ha
      as (B0 & cd & related & ps & i & d & kids & [= <-] & -> & Hrel & HP' & Hi & Hf & Hk & ->).
    rewrite HP in HP'. injection HP' as <-.
    set (p1 := VDict (dict_set L (VList (kids ++ [stripped okey (VDict cd)])) d)) in *.
    assert (Forall2 (fun p q => getitem p "Code" = getitem q "Code")
              parents (<[i := p1]> parents)) as Hcodes.
    { rewrite <- (list_insert_id parents i (VDict d)) at 1 by done.
      apply Forall2_insert; [by apply Forall_Forall2_diag, Forall_true|].
      subst p1. simpl. by rewrite dict_get_set_ne. }
    apply (IH _ (<[i := p1]> parents)) in Hl as (parents' & -> & Hlen & Hsel & Hall);
      [|by rewrite dict_get_set_eq].
    exists parents'. rewrite dict_set_set. split; [done|].
    split; [by rewrite Hlen, length_insert|].
    assert (forall j, selects okey parents j (VDict cd) = bool_decide (j = i)) as Hhead.
    { intros j. unfold selects. simpl. rewrite Hrel. case_bool_decide as Hj; [by subst j|].
      destruct (is_first_match parents related j) eqn:Ej; [|done].
      destruct Hj. by eapply is_first_match_unique. }
    split.
    { constructor.
      - exists i. rewrite Hhead. by apply bool_decide_eq_true.
      - eapply Forall_impl; [exact Hsel|]. intros child [j Hj]. exists j.
        by rewrite (selects_codes okey parents (<[i := p1]> parents)). }
    intros j p Hp. rewrite kids_of_cons, Hhead.
    case_bool_decide as Hj.
    + subst j. rewrite Hi in Hp. injection Hp as <-.
      destruct (Hall i p1) as (p' & Hp' & Hframe & _ & Hlist & Hdict).
      { apply list_lookup_insert_eq. by eapply lookup_lt_Some. }
      exists p'. split; [done|]. split; [|split; [done|split]].
      * intros k Hk'. rewrite Hframe by done. subst p1. simpl. by rewrite dict_get_set_ne.
      * intros l0 Hl0. simpl in Hl0. rewrite Hk in Hl0. injection Hl0 as <-.
        rewrite (Hlist (kids ++ [stripped okey (VDict cd)])).
        -- by rewrite <- (kids_of_codes okey parents), <- app_assoc.
        -- subst p1. simpl. by rewrite dict_get_set_eq.
      * intros _ _. by eapply Hdict.
    + destruct (Hall j p) as (p' & Hp' & Hframe & Hnone & Hlist & Hdict).
      { by rewrite list_lookup_insert_ne. }
      rewrite <- (kids_of_codes okey parents) in Hnone, Hlist by done.
      exists p'. done.
Qed.



(** *** No parent, or several *)

Lemma unmatched_codes (ps qs : list value) (related : value) :
  Forall2 same_code ps qs ->
  (forall p, p ∈ ps -> code_matches related p = false) ->
  forall q, q ∈ qs -> code_matches related q = false.
Proof.
  intros Hpq Hno q Hq. apply list_elem_of_lookup in Hq as [i Hi].
  destruct (Forall2_lookup_r _ _ _ _ _ Hpq Hi) as (p & Hp & Hc).
  unfold code_matches. rewrite <- Hc. apply Hno. by eapply list_elem_of_lookup_2.
Qed.

Lemma same_code_insert (L : string) (parents : list value) (i : nat) (d : dict) (v : value) :
  L <> "Code" -> parents !! i = Some (VDict d) ->
  Forall2 same_code parents (<[i := VDict (dict_set L v d)]> parents).
Proof.
  intros HL Hi. rewrite <- (list_insert_id parents i (VDict d)) at 1 by done.
  apply Forall2_insert; [by apply Forall_Forall2_diag, Forall_true|].
  unfold same_code. simpl. by rewrite dict_get_set_ne.
Qed.

Lemma link_child_Ok (P L : string) (bsdd related child bsdd' : value) :
  link_child P L bsdd related child = Ok bsdd' ->
  exists (B : dict) parents i d kids,
    bsdd = VDict B
    /\ dict_get P B = Some (VList parents)
    /\ parents !! i = Some (VDict d)
    /\ is_first_match parents related i = true
    /\ dict_get L d = Some (VList kids)
    /\ bsdd' = VDict (dict_set P
                 (VList (<[i := VDict (dict_set L (VList (kids ++ [child])) d)]> parents)) B).
Proof.
  unfold link_child. intros Hl. bind_inv Hl. bind_inv Hl.
  apply getitem_Ok in Ha as (B & -> & HP).
  apply append_to_match_Ok in Ha0 as (parents & i & d & kids & -> & Hi & Hf & HL & ->).
  injection Hl as <-. by exists B, parents, i, d, kids.
Qed.

(** A child whose origin value is the [Code] of no parent stops the
    loop with an exception. *)
Lemma link_rows_unmatched (okey P L : string) (children : list value) :
  L <> "Code" ->
  forall (B : dict) (parents : list value) (child related : value),
  dict_get P B = Some (VList parents) ->
  child ∈ children ->
  getitem child okey = Ok related ->
  (forall p, p ∈ parents -> code_matches related p = false) ->
  exists e, link_rows okey P L children (VDict B) = Raise e.
Proof.
  intros HL. induction children as [|c children IH]; intros B parents child related HP Hin Hrel Hno.
  - by apply elem_of_nil in Hin.
  - unfold link_rows. cbn [for_each].
    destruct (link_row okey P L (VDict B) c) as [b1|e] eqn:Hrow; [|by exists e].
    cbn [bind result_monad].
    apply link_row_Ok in Hrow
      as (B0 & cd & rel0 & ps & i & d & kids & [= <-] & -> & Hrel0 & HP' & Hi & Hf & Hk & ->).
    rewrite HP in HP'. injection HP' as <-.
    apply elem_of_cons in Hin as [->|Hin].
    + exfalso. simpl in Hrel. rewrite Hrel0 in Hrel. injection Hrel as ->.
      apply is_first_match_lookup in Hf as (p & Hp & Hm).
      rewrite Hno in Hm; [done|]. by eapply list_elem_of_lookup_2.
    + eapply (IH _ _ child related); [by rewrite dict_get_set_eq|done|done|].
      eapply unmatched_codes; [|done]. by apply same_code_insert.
Qed.

(** The statement of line 128 raises on a classification: what it
    iterates over are the keys of the dictionary. *)
Lemma link_value_cls_dict (related prop_val clss : value) (j : nat) (dc : dict) :
  exists e, link_value_cls related prop_val clss (j, VDict dc) = Raise e.
Proof.
  unfold link_value_cls. cbn [snd].
  destruct (append_to_match (VDict dc) "AllowedValues" related prop_val) as [c'|e] eqn:E;
    [|by exists e].
  by apply append_to_match_Ok in E as (items & ? & ? & ? & ? & _).
Qed.

Lemma link_value_raises (B : dict) (prop_val : value) (dc : dict) (rest : list value) :
  dict_get "Classifications" B = Some (VList (VDict dc :: rest)) ->
  exists e, link_value (VDict B) prop_val = Raise e.
Proof.
  intros Hc. unfold link_value.
  destruct (getitem prop_val origin_value) as [related|e]; [|by exists e]. cbn [bind result_monad].
  destruct (pop prop_val origin_value) as [pv|e]; [|by exists e]. cbn [bind result_monad].
  destruct (link_child "Properties" "AllowedValues" (VDict B) related pv) as [b1|e] eqn:E;
    [|by exists e].
  cbn [bind result_monad].
  apply link_child_Ok in E as (B0 & props & i & d & kids & [= <-] & HP & _ & _ & _ & ->).
  simpl. rewrite dict_get_set_ne, Hc by done. simpl.
  destruct (link_value_cls_dict related pv
              (VList (VDict dc :: rest)) 0 dc) as [e ->].
  by exists e.
Qed.

Lemma link_value_Ok (bsdd prop_val bsdd' : value) :
  link_value bsdd prop_val = Ok bsdd' ->
  exists (B : dict) props i d kids child clss',
    bsdd = VDict B
    /\ dict_get "Properties" B = Some (VList props)
    /\ props !! i = Some (VDict d)
    /\ bsdd' = VDict (dict_set "Classifications" clss'
                 (dict_set "Properties"
                    (VList (<[i := VDict (dict_set "AllowedValues"
                                            (VList (kids ++ [child])) d)]> props)) B)).
Proof.
  unfold link_value. intros Hl. do 6 bind_inv Hl.
  apply link_child_Ok in Ha1 as (B & props & i & d & kids & -> & HP & Hi & _ & _ & ->).
  injection Hl as <-. simpl. by exists B, props, i, d, kids, a0, a4.
Qed.

(** The loop over the allowed values, when it returns, has touched the
    properties and the classifications only, and no [Code]. *)
Lemma link_values_Ok (prop_vals : list value) (B : dict) (bsdd' : value) :
  for_each prop_vals link_value (VDict B) = Ok bsdd' ->
  exists B' : dict,
    bsdd' = VDict B'
    /\ (forall k, k <> "Properties" -> k <> "Classifications" -> dict_get k B' = dict_get k B)
    /\ (forall props, dict_get "Properties" B = Some (VList props) ->
        exists props', dict_get "Properties" B' = Some (VList props')
                       /\ Forall2 same_code props props').
Proof.
  revert B. induction prop_vals as [|pv pvs IH]; intros B.
  - intros [= <-]. exists B. split; [done|]. split; [done|].
    intros props Hp. exists props. split; [done|]. by apply Forall_Forall2_diag, Forall_true.
  - cbn [for_each]. intros Hl. bind_inv Hl.
    apply link_value_Ok in Ha
      as (B0 & props & i & d & kids & child & clss' & [= <-] & HP & Hi & ->).
    apply IH in Hl as (B' & -> & Hframe & Hprops). exists B'. split; [done|]. split.
    + intros k Hk1 Hk2. rewrite Hframe by done. by rewrite !dict_get_set_ne.
    + intros props0 Hp0. rewrite HP in Hp0. injection Hp0 as <-.
      destruct (Hprops (<[i := VDict (dict_set "AllowedValues" (VList (kids ++ [child])) d)]>
                          props)) as (props' & Hp' & Hcodes).
      { rewrite dict_get_set_ne by done. by rewrite dict_get_set_eq. }
      exists props'. split; [done|].
      eapply Forall2_trans; [|by apply (same_code_insert "AllowedValues")|exact Hcodes].
      unfold same_code. congruence.
Qed.

(** ** The pipeline *)

Lemma reads_as_ret {A} (a : A) : reads_as (ret a : M A) (Ok a).
Proof. intros w. done. Qed.

Lemma reads_as_lift {A} (r : result A) : reads_as (lift r) r.
Proof. intros w. done. Qed.

Lemma reads_as_bind {A B} (c : M A) (r : result A) (k : A -> M B) (k' : A -> result B) :
  reads_as c r -> (forall a, reads_as (k a) (k' a)) ->
  reads_as (x <- c ;; k x) (x <- r ;; k' x).
Proof.
  intros Hc Hk w. rewrite bind_run. destruct (Hc w) as (Hr & Hf & Hs).
  destruct (c w) as [w1 [a|e]]; simpl in Hr, Hf, Hs; subst r; cbn [bind result_monad].
  - destruct (Hk a w1) as (Hr' & Hf' & Hs'). rewrite Hr', Hf', Hf.
    split; [done|]. split; [done|]. by etrans.
  - done.
Qed.

Section pipeline_facts.
Context `{PyLib} `{JSON_templates}.

Lemma reads_as_jsonify (dataframe : DataFrame) (json_part : dict) :
  reads_as (jsonify dataframe json_part) (mapped dataframe json_part).
Proof.
  intros w. unfold jsonify.
  destruct (rows_run json_part (iterrows dataframe) [] w) as (D & Hw & _ & Hr & _).
  rewrite Hw, Hr. split; [done|]. split; [done|]. by apply prefix_app_r.
Qed.

Lemma reads_as_excel2bsdd (excel : Excel) :
  reads_as (excel2bsdd excel) (excel2bsdd_reading excel).
Proof.
  unfold excel2bsdd, excel2bsdd_reading.
  repeat first
    [ apply reads_as_bind; [first [apply reads_as_jsonify | apply reads_as_lift]|intros ?]
    | apply reads_as_ret ].
Qed.

Lemma load_excel_run (path : string) (w : World) :
  load_excel path w = (w, load_excel_reading (files w) path).
Proof.
  unfold load_excel, load_excel_reading, ExcelFile. rewrite bind_run.
  destruct (files w !! path) as [[wb| | | |e]|]; try done. cbn [bind result_monad].
  repeat (rewrite bind_lift;
          match goal with |- context [wb ?s ?c] => destruct (wb s c); [|done] end;
          cbn [bind result_monad]).
  done.
Qed.

(** The script opens its one file after everything else: up to line
    148 it writes nothing, and what it does from line 149 on is [dump]. *)
Lemma main_run (argv : list string) (w : World) :
  match main_reading argv (files w) with
  | Ok (path, doc) =>
      exists w', files w' = files w /\ main argv w = dump path doc w'
  | Raise e =>
      (main argv w).2 = Raise e /\ files (main argv w).1 = files w
  end.
Proof.
  unfold main, main_reading.
  rewrite bind_lift. destruct (argv_get argv 0) as [a0|]; [|done]. cbn [bind result_monad].
  rewrite bind_lift. destruct (argv_get argv 1) as [a1|]; [|done]. cbn [bind result_monad].
  rewrite bind_lift. destruct (argv_get argv 2) as [a2|]; [|done]. cbn [bind result_monad].
  rewrite bind_run, load_excel_run.
  destruct (load_excel_reading (files w) a0) as [excel|]; [|done]. cbn [bind result_monad].
  rewrite bind_run. destruct (reads_as_excel2bsdd excel w) as (Hr & Hf & _).
  destruct (excel2bsdd excel w) as [w1 r]. simpl in Hr, Hf. subst r.
  destruct (excel2bsdd_reading excel) as [bsdd|]; [|done]. cbn [bind result_monad ret].
  by exists w1.
Qed.

Lemma mapped_Ok (dataframe : DataFrame) (json_part : dict) (jsons : list value) :
  mapped dataframe json_part = Ok jsons ->
  Forall (shaped json_part) jsons /\ length jsons = length (rows dataframe).
Proof.
  intros Hm. destruct (rows_run json_part (iterrows dataframe) [] empty_world)
    as (D & _ & _ & _ & Hok).
  fold (mapped dataframe json_part) in Hok. rewrite Hm in Hok.
  destruct Hok as (news & -> & Hlen & Hall & _). split; [done|].
  simpl. rewrite Hlen. unfold iterrows. by rewrite length_fmap.
Qed.

Lemma mapped_no_rows (dataframe : DataFrame) (json_part : dict) :
  rows dataframe = [] -> mapped dataframe json_part = Ok [].
Proof. intros Hr. unfold mapped, iterrows. by rewrite Hr. Qed.

Lemma before_linking_classifications (d0 : dict) (cls mats props : list value) :
  dict_get "Classifications" (before_linking d0 cls mats props) = Some (VList cls).
Proof. unfold before_linking. rewrite !dict_get_set_ne by done. apply dict_get_set_eq. Qed.

Lemma before_linking_properties (d0 : dict) (cls mats props : list value) :
  dict_get "Properties" (before_linking d0 cls mats props) = Some (VList props).
Proof. apply dict_get_set_eq. Qed.

Lemma before_linking_other (d0 : dict) (cls mats props : list value) (k : string) :
  k <> "Classifications" -> k <> "Materials" -> k <> "Properties" ->
  dict_get k (before_linking d0 cls mats props) = dict_get k d0.
Proof. intros. unfold before_linking. by rewrite !dict_get_set_ne. Qed.

(** A run that returns has gone through every stage. *)
Lemma excel2bsdd_reading_Ok (excel : Excel) (root : value) :
  excel2bsdd_reading excel = Ok root ->
  exists d0 rest cls mats props cps crs pvs prs b4 b5 b6,
    mapped (domain excel) Domain = Ok (VDict d0 :: rest)
    /\ d0.*1 = Domain.*1
    /\ mapped (classification excel) Classification = Ok cls
    /\ mapped (material excel) Material = Ok mats
    /\ mapped (property excel) Property = Ok props
    /\ mapped (classificationproperty excel) ClassificationProperty = Ok cps
    /\ mapped (classificationrelation excel) ClassificationRelation = Ok crs
    /\ mapped (propertyvalue excel) AllowedValue = Ok pvs
    /\ mapped (propertyrelation excel) PropertyRelation = Ok prs
    /\ link_rows "(Origin Classification Code)" "Classifications" "ClassificationProperties"
         cps (VDict (before_linking d0 cls mats props)) = Ok b4
    /\ link_rows "(Origin Classification Code)" "Classifications" "ClassificationRelations"
         crs b4 = Ok b5
    /\ for_each pvs link_value b5 = Ok b6
    /\ link_rows "(Origin Property)" "Properties" "PropertyRelations" prs b6 = Ok root.
Proof.
  unfold excel2bsdd_reading. intros Hr. do 16 bind_inv Hr. injection Hr as <-.
  destruct a as [|b0 rest]; [done|]. injection Ha0 as <-.
  destruct (mapped_Ok _ _ _ Ha) as [[(d0 & -> & Hd0) _]%Forall_cons _].
  injection Ha2 as <-. injection Ha4 as <-. injection Ha6 as <-.
  by exists d0, rest, a1, a3, a5, a7, a9, a11, a13, a8, a10, a12.
Qed.

End pipeline_facts.

(** *** The Domain rows *)

Section domain_rows.
Context `{PyLib} `{JSON_templates}.

Lemma excel2bsdd_result (excel : Excel) (w : World) :
  (excel2bsdd excel w).2 = excel2bsdd_reading excel.
Proof. apply reads_as_excel2bsdd. Qed.

Lemma jsonify_result (dataframe : DataFrame) (json_part : dict) (w : World) :
  (jsonify dataframe json_part w).2 = mapped dataframe json_part.
Proof. apply jsonify_reading. Qed.

Lemma no_domain_row (excel : Excel) :
  rows (domain excel) = [] -> excel2bsdd_reading excel = Raise IndexError.
Proof. intros Hr. unfold excel2bsdd_reading. by rewrite mapped_no_rows. Qed.

Lemma root_is_first_domain_row (excel : Excel) (root : value) :
  excel2bsdd_reading excel = Ok root ->
  exists (d0 : dict) rest (B : dict),
    mapped (domain excel) Domain = Ok (VDict d0 :: rest)
    /\ root = VDict B
    /\ forall k, k <> "Classifications" -> k <> "Materials" -> k <> "Properties" ->
       dict_get k B = dict_get k d0.
Proof.
  intros Hr. apply excel2bsdd_reading_Ok in Hr
    as (d0 & rest & cls & mats & props & cps & crs & pvs & prs & b4 & b5 & b6
        & Hd & _ & _ & _ & _ & _ & _ & _ & _ & H4 & H5 & H6 & H7).
  eapply link_rows_Ok in H4 as (cls4 & -> & _); [|done|apply before_linking_classifications].
  eapply link_rows_Ok in H5 as (cls5 & -> & _); [|done|by rewrite dict_get_set_eq].
  apply link_values_Ok in H6 as (B6 & -> & Hframe6 & Hprops6).
  destruct (Hprops6 props) as (props6 & Hp6 & _).
  { rewrite !dict_get_set_ne by done. apply before_linking_properties. }
  eapply link_rows_Ok in H7 as (props7 & -> & _); [|done|exact Hp6].
  exists d0, rest, (dict_set "Properties" (VList props7) B6).
  split; [done|]. split; [done|]. intros k Hk1 Hk2 Hk3.
  rewrite dict_get_set_ne, Hframe6, !dict_get_set_ne by done.
  by apply before_linking_other.
Qed.

End domain_rows.

(** C6, as amended.  A Domain frame without rows ends the run with an
    [IndexError].  A run that returns has taken the first Domain row
    as the root of the tree: the root has the fields of the object
    mapped from that row, with the three lists [Classifications],
    [Materials] and [Properties] set on top.  Domain rows after the
    first are mapped and dropped. *)
Theorem domain_first_row `{PyLib} `{JSON_templates} (excel : Excel) (w : World) :
  (rows (domain excel) = [] -> (excel2bsdd excel w).2 = Raise IndexError)
  /\ (forall root, (excel2bsdd excel w).2 = Ok root ->
      exists (d0 : dict) rest (B : dict),
        (jsonify (domain excel) Domain w).2 = Ok (VDict d0 :: rest)
        /\ root = VDict B
        /\ forall k, k <> "Classifications" -> k <> "Materials" -> k <> "Properties" ->
           dict_get k B = dict_get k d0).
Proof.
  rewrite excel2bsdd_result, jsonify_result. split.
  - apply no_domain_row.
  - apply root_is_first_domain_row.
Qed.

(** A frame with two Domain rows: the run returns, with the first row
    as the root. *)
Lemma two_domain_rows_accepted :
  length (rows (domain excel_two_domains)) = 2
  /\ (@excel2bsdd reference_lib reference_templates excel_two_domains empty_world).2
     = Ok (VDict [("Name", VStr "first"); ("Classifications", VList []);
                  ("Materials", VList []); ("Properties", VList [])]).
Proof. split; reflexivity. Qed.

Lemma domain_first_row_witness :
  (@excel2bsdd reference_lib reference_templates
     (mkExcel no_rows no_rows no_rows no_rows no_rows no_rows no_rows no_rows) empty_world).2
  = Raise IndexError
  /\ exists (d0 : dict) rest (B : dict),
      (@jsonify reference_lib (domain excel_A1) (@Domain reference_templates) empty_world).2
      = Ok (VDict d0 :: rest)
      /\ dict_get "Name" B = dict_get "Name" d0.
Proof.
  split.
  - by apply (@domain_first_row reference_lib reference_templates).
  - destruct (proj2 (@domain_first_row reference_lib reference_templates excel_A1 empty_world)
                _ eq_refl) as (d0 & rest & B & Hd & _ & Hk).
    exists d0, rest, B. split; [exact Hd|]. by apply Hk.
Defined.

(** *** A child without a parent *)

Lemma py_eq_str (a b : string) : py_eq (VStr a) (VStr b) = true <-> a = b.
Proof. apply String.eqb_eq. Qed.

Lemma setitem_Ok (o : value) (k : string) (v o' : value) :
  setitem o k v = Ok o' -> exists d, o = VDict d /\ o' = VDict (dict_set k v d).
Proof. destruct o as [| | | | |d]; try done. intros [= <-]. by exists d. Qed.

Tactic Notation "stage" "as" ident(x) ident(E) :=
  cbn [bind result_monad];
  match goal with
  | |- exists e, match ?r with Ok _ => _ | Raise _ => _ end = Raise e =>
      destruct r as [x|] eqn:E; [|by eexists]
  end.

Lemma link_value_unmatched (B : dict) (props : list value) (prop_val related : value) :
  dict_get "Properties" B = Some (VList props) ->
  getitem prop_val origin_value = Ok related ->
  (forall p, p ∈ props -> code_matches related p = false) ->
  exists e, link_value (VDict B) prop_val = Raise e.
Proof.
  intros HP Hrel Hno. unfold link_value. rewrite Hrel. cbn [bind result_monad].
  stage as pv Epop. stage as b1 Elink. exfalso.
  apply link_child_Ok in Elink as (B0 & ps & i & d & kids & [= <-] & HP' & _ & Hf & _).
  rewrite HP in HP'. injection HP' as <-.
  apply is_first_match_lookup in Hf as (p & Hp & Hm).
  rewrite Hno in Hm; [done|]. by eapply list_elem_of_lookup_2.
Qed.

Section unmatched.
Context `{PyLib} `{JSON_templates}.

Lemma unmatched_classification_property (excel : Excel) (cls cps : list value)
    (cp related : value) :
  mapped (classification excel) Classification = Ok cls ->
  mapped (classificationproperty excel) ClassificationProperty = Ok cps ->
  cp ∈ cps ->
  getitem cp "(Origin Classification Code)" = Ok related ->
  (forall p, p ∈ cls -> code_matches related p = false) ->
  exists e, excel2bsdd_reading excel = Raise e.
Proof.
  intros Hcls Hcps Hin Hrel Hno. unfold excel2bsdd_reading.
  stage as doms Edoms. stage as b0 Eb0. rewrite Hcls. stage as b1 Eb1.
  apply setitem_Ok in Eb1 as (d0 & -> & ->). stage as mats Emats. cbn [setitem].
  stage as props Eprops. cbn [setitem]. rewrite Hcps. cbn [bind result_monad].
  destruct (link_rows_unmatched "(Origin Classification Code)" "Classifications"
              "ClassificationProperties" cps ltac:(done)
              (before_linking d0 cls mats props) cls cp related) as [e He]; try done.
  { apply before_linking_classifications. }
  unfold before_linking in He. rewrite He. by exists e.
Qed.

(** A script whose [excel2bsdd] raises ends with an exception and has
    written no file. *)
Lemma main_raises (argv : list string) (w : World) (path : string) (excel : Excel) (e : exn) :
  argv_get argv 0 = Ok path ->
  load_excel_reading (files w) path = Ok excel ->
  excel2bsdd_reading excel = Raise e ->
  exists e', (main argv w).2 = Raise e' /\ files (main argv w).1 = files w.
Proof.
  intros Ha Hl He. pose proof (main_run argv w) as Hrun.
  unfold main_reading in Hrun. rewrite Ha in Hrun. cbn [bind result_monad] in Hrun.
  destruct (argv_get argv 1); cbn [bind result_monad] in Hrun; [|destruct Hrun; by eexists].
  destruct (argv_get argv 2); cbn [bind result_monad] in Hrun; [|destruct Hrun; by eexists].
  rewrite Hl in Hrun. cbn [bind result_monad] in Hrun. rewrite He in Hrun.
  destruct Hrun. by eexists.
Qed.

(** A child whose origin value is the [Code] of a parent is linked:
    the first such parent gets it, whatever comes after. *)
Lemma link_row_found (okey P L : string) (B cd : dict) (related : value)
    (parents : list value) (i : nat) (d : dict) (kids : list value) :
  dict_get okey cd = Some related ->
  dict_get P B = Some (VList parents) ->
  is_first_match parents related i = true ->
  Forall (fun p => is_ok (getitem p "Code") = true) (take i parents) ->
  parents !! i = Some (VDict d) ->
  dict_get L d = Some (VList kids) ->
  link_row okey P L (VDict B) (VDict cd)
  = Ok (VDict (dict_set P
                 (VList (<[i := VDict (dict_set L
                                        (VList (kids ++ [stripped okey (VDict cd)])) d)]>
                           parents)) B)).
Proof.
  intros Hrel HP Hfirst Hcodes Hi HL.
  destruct (next_code_found parents related i Hfirst Hcodes) as (p & Hp & Hnext).
  rewrite Hi in Hp. injection Hp as <-.
  unfold link_row, link_child, append_to_match. cbn [getitem pop stripped].
  rewrite Hrel. cbn [bind result_monad].
  assert (dict_mem okey cd = true) as ->.
  { apply dict_get_is_Some. by rewrite Hrel. }
  cbn [bind result_monad]. rewrite HP. cbn [bind result_monad iter].
  rewrite Hnext. cbn [bind result_monad getitem snd fst]. rewrite HL. done.
Qed.

End unmatched.

Lemma first_match_exists (parents : list value) (related : value) :
  (exists p, p ∈ parents /\ code_matches related p = true) ->
  exists i, is_first_match parents related i = true.
Proof.
  induction parents as [|p0 ps IH]; intros (p & Hin & Hp).
  { by apply elem_of_nil in Hin. }
  destruct (code_matches related p0) eqn:E0.
  - exists 0. by rewrite is_first_match_0.
  - apply elem_of_cons in Hin as [->|Hin]; [congruence|].
    destruct IH as [i Hi]; [by exists p|]. exists (S i).
    by rewrite is_first_match_cons, E0.
Qed.

Lemma code_matches_same_code (related p q : value) :
  same_code p q -> code_matches related p = code_matches related q.
Proof. unfold same_code, code_matches. by intros ->. Qed.

Lemma has_parent_same_codes (okey : string) (ps qs : list value) (child : value) :
  Forall2 same_code ps qs -> has_parent okey ps child -> has_parent okey qs child.
Proof.
  intros Hcodes (cd & related & p & -> & Hrel & Hin & Hp).
  apply list_elem_of_lookup in Hin as [j Hj].
  destruct (Forall2_lookup_l _ _ _ _ _ Hcodes Hj) as (q & Hq & Hpq).
  exists cd, related, q. split; [done|]. split; [done|].
  split; [by eapply list_elem_of_lookup_2|]. by rewrite <- (code_matches_same_code _ p q).
Qed.

Lemma parent_ok_code (L : string) (p : value) :
  parent_ok L p -> is_ok (getitem p "Code") = true.
Proof. intros (d & c & kids & -> & Hc & _). simpl. by rewrite Hc. Qed.

(** The loop of the linker returns when every parent has its [Code]
    and its child list and every child names the [Code] of a parent. *)
Lemma link_rows_found (okey P L : string) (children : list value) :
  L <> "Code" ->
  forall (B : dict) (parents : list value),
  dict_get P B = Some (VList parents) ->
  Forall (parent_ok L) parents ->
  Forall (has_parent okey parents) children ->
  is_ok (link_rows okey P L children (VDict B)) = true.
Proof.
  intros HL. unfold link_rows.
  induction children as [|child children IH]; intros B parents HP Hps Hcs; [done|].
  apply Forall_cons in Hcs as [(cd & related & p & -> & Hrel & Hin & Hp) Hcs].
  destruct (first_match_exists parents related) as [i Hi]; [by exists p|].
  destruct (is_first_match_lookup parents related i Hi) as (pi & Hpi & _).
  pose proof (Forall_lookup_1 _ _ _ _ Hps Hpi) as (d & c & kids & -> & Hc & Hkids).
  cbn [for_each].
  rewrite (link_row_found okey P L B cd related parents i d kids); try done.
  2: { apply Forall_take. eapply Forall_impl; [exact Hps|]. apply parent_ok_code. }
  cbn [bind result_monad].
  pose proof (same_code_insert L parents i d
                (VList (kids ++ [stripped okey (VDict cd)])) HL Hpi) as Hcodes.
  eapply IH.
  - apply dict_get_set_eq.
  - apply Forall_insert; [done|].
    exists (dict_set L (VList (kids ++ [stripped okey (VDict cd)])) d), c,
      (kids ++ [stripped okey (VDict cd)]).
    split; [done|]. split; [|apply dict_get_set_eq].
    rewrite dict_get_set_ne; [done|]. done.
  - eapply Forall_impl; [exact Hcs|]. intros child. by apply has_parent_same_codes.
Qed.

(** C2, as amended.  The look-up compares the [Code] of the parents
    with the origin value by [==] (on strings: the same string) and
    takes the first parent in row order that matches: a row that is
    linked has gone, without its origin field, to the end of the child
    list of that parent and nowhere else; and a row whose origin value
    is the [Code] of one parent or of several is linked, to the first
    of them, so that the loop returns when every child names the
    [Code] of a parent.  When no parent matches, the loop raises; so
    does the statement that attaches an allowed value to its property.
    A classification property whose origin is the [Code] of no
    classification makes [excel2bsdd] raise; the script then ends with
    an exception before it opens its output, and has written no
    file. *)
Theorem lookup_first_match_or_fatal `{PyLib} `{JSON_templates} :
  (forall a b, py_eq (VStr a) (VStr b) = true <-> a = b)
  /\ (forall okey P L bsdd child bsdd',
       link_row okey P L bsdd child = Ok bsdd' ->
       exists (B cd : dict) related parents i d kids,
         bsdd = VDict B /\ child = VDict cd
         /\ dict_get okey cd = Some related
         /\ dict_get P B = Some (VList parents)
         /\ parents !! i = Some (VDict d)
         /\ is_first_match parents related i = true
         /\ dict_get L d = Some (VList kids)
         /\ bsdd' = VDict (dict_set P
                      (VList (<[i := VDict (dict_set L
                                             (VList (kids ++ [stripped okey child])) d)]>
                                parents)) B))
  /\ (forall okey P L (B cd : dict) related parents i d kids,
       dict_get okey cd = Some related ->
       dict_get P B = Some (VList parents) ->
       is_first_match parents related i = true ->
       Forall (fun p => is_ok (getitem p "Code") = true) (take i parents) ->
       parents !! i = Some (VDict d) ->
       dict_get L d = Some (VList kids) ->
       link_row okey P L (VDict B) (VDict cd)
       = Ok (VDict (dict_set P
                      (VList (<[i := VDict (dict_set L
                                             (VList (kids ++ [stripped okey (VDict cd)]))
                                             d)]>
                                parents)) B)))
  /\ (forall okey P L children (B : dict) parents,
       L <> "Code" ->
       dict_get P B = Some (VList parents) ->
       Forall (parent_ok L) parents ->
       Forall (has_parent okey parents) children ->
       is_ok (link_rows okey P L children (VDict B)) = true)
  /\ (forall okey P L children (B : dict) parents child related,
       L <> "Code" ->
       dict_get P B = Some (VList parents) ->
       child ∈ children ->
       getitem child okey = Ok related ->
       (forall p, p ∈ parents -> code_matches related p = false) ->
       exists e, link_rows okey P L children (VDict B) = Raise e)
  /\ (forall (B : dict) props prop_val related,
       dict_get "Properties" B = Some (VList props) ->
       getitem prop_val origin_value = Ok related ->
       (forall p, p ∈ props -> code_matches related p = false) ->
       exists e, link_value (VDict B) prop_val = Raise e)
  /\ (forall excel w cls cps cp related,
       (jsonify (classification excel) Classification w).2 = Ok cls ->
       (jsonify (classificationproperty excel) ClassificationProperty w).2 = Ok cps ->
       cp ∈ cps ->
       getitem cp "(Origin Classification Code)" = Ok related ->
       (forall p, p ∈ cls -> code_matches related p = false) ->
       exists e, (excel2bsdd excel w).2 = Raise e)
  /\ (forall argv w path excel e,
       argv_get argv 0 = Ok path ->
       (load_excel path w).2 = Ok excel ->
       (excel2bsdd excel w).2 = Raise e ->
       exists e', (main argv w).2 = Raise e' /\ files (main argv w).1 = files w).
Proof.
  split; [apply py_eq_str|].
  split; [apply link_row_Ok|].
  split; [apply link_row_found|].
  split.
  { intros okey P L children B parents HL. by apply link_rows_found. }
  split.
  { intros okey P L children B parents child related HL. by apply link_rows_unmatched. }
  split; [apply link_value_unmatched|].
  split.
  { intros excel w cls cps cp related. rewrite !jsonify_result, excel2bsdd_result.
    apply unmatched_classification_property. }
  intros argv w path excel e Ha. rewrite load_excel_run, excel2bsdd_result. simpl.
  by apply (main_raises argv w path).
Qed.

(** Two classifications share the [Code] that a classification
    property names: the run returns, the first has the child. *)
Lemma duplicate_code_accepted :
  (@excel2bsdd reference_lib reference_templates excel_duplicate_code empty_world).2
  = Ok (VDict
          [("Name", VStr "demo");
           ("Classifications",
            VList
              [VDict
                 [("Code", VStr "A1"); ("Name", VStr "Wall");
                  ("ClassificationProperties",
                   VList [VDict [("Code", VStr "height"); ("Name", VNone)]]);
                  ("ClassificationRelations", VList []);
                  ("AllowedValues", VList [])];
               VDict
                 [("Code", VStr "A1"); ("Name", VStr "Slab");
                  ("ClassificationProperties", VList []);
                  ("ClassificationRelations", VList []);
                  ("AllowedValues", VList [])]]);
           ("Materials", VList []); ("Properties", VList [])]).
Proof. reflexivity. Qed.

Lemma lookup_first_match_or_fatal_witness :
  (let okey := "(Origin Classification Code)" in
   let wall := [("Code", VStr "A0"); ("ClassificationProperties", VList [])] in
   let slab := [("Code", VStr "A1"); ("ClassificationProperties", VList [])] in
   let roof := [("Code", VStr "A1"); ("ClassificationProperties", VList [VInt 7])] in
   link_row okey "Classifications" "ClassificationProperties"
     (VDict [("Classifications", VList [VDict wall; VDict slab; VDict roof])])
     (VDict [(okey, VStr "A1"); ("Code", VStr "height")])
   = Ok (VDict [("Classifications",
                 VList [VDict wall;
                        VDict [("Code", VStr "A1");
                               ("ClassificationProperties",
                                VList [VDict [("Code", VStr "height")]])];
                        VDict roof])]))
  /\ (exists e, (@excel2bsdd reference_lib reference_templates excel_unmatched
                   (world_with excel_unmatched)).2 = Raise e)
  /\ (exists e, (@main reference_lib reference_templates ["in.xlsx"; "out.json"; ""]
                  (world_with excel_unmatched)).2 = Raise e)
  /\ files (@main reference_lib reference_templates ["in.xlsx"; "out.json"; ""]
              (world_with excel_unmatched)).1
     = files (world_with excel_unmatched).
Proof.
  destruct (@lookup_first_match_or_fatal reference_lib reference_templates)
    as (_ & _ & Hfound & _ & _ & _ & Hrun & Hmain).
  split.
  { intros okey wall slab roof.
    apply (Hfound okey "Classifications" "ClassificationProperties"
             [("Classifications", VList [VDict wall; VDict slab; VDict roof])]
             [(okey, VStr "A1"); ("Code", VStr "height")] (VStr "A1")
             [VDict wall; VDict slab; VDict roof] 1 slab []); try reflexivity.
    repeat constructor. }
  assert (exists e, (@excel2bsdd reference_lib reference_templates excel_unmatched
                       (world_with excel_unmatched)).2 = Raise e) as [e He].
  { apply (Hrun excel_unmatched (world_with excel_unmatched)
             [VDict [("Code", VStr "A1"); ("Name", VStr "Wall");
                     ("ClassificationProperties", VList []);
                     ("ClassificationRelations", VList []); ("AllowedValues", VList [])]]
             [VDict [("(Origin Classification Code)", VStr "B7"); ("Code", VStr "height");
                     ("Name", VNone)]]
             (VDict [("(Origin Classification Code)", VStr "B7"); ("Code", VStr "height");
                     ("Name", VNone)])
             (VStr "B7")).
    - reflexivity.
    - reflexivity.
    - apply list_elem_of_here.
    - reflexivity.
    - intros p Hp. apply list_elem_of_singleton in Hp. rewrite Hp. reflexivity. }
  destruct (Hmain ["in.xlsx"; "out.json"; ""] (world_with excel_unmatched) "in.xlsx"
              excel_unmatched e eq_refl eq_refl He) as (e' & He' & Hfiles).
  split; [by exists e|]. split; [by exists e'|]. exact Hfiles.
Defined.


(** The scenario of the specification, through the whole pipeline: one
    classification [A1] and two classification properties whose origin
    is [A1] give a classification with two classification properties,
    neither with an origin field. *)
Example excel2bsdd_A1 :
  exists root cls a1 cps,
    (@excel2bsdd reference_lib reference_templates excel_A1 empty_world).2 = Ok root
    /\ getitem root "Classifications" = Ok (VList cls)
    /\ cls = [a1]
    /\ getitem a1 "Code" = Ok (VStr "A1")
    /\ getitem a1 "ClassificationProperties" = Ok (VList cps)
    /\ length cps = 2
    /\ Forall (fun cp => getitem cp "(Origin Classification Code)" = Raise KeyError) cps.
Proof.
  do 4 eexists. split; [reflexivity|]. split; [reflexivity|]. split; [reflexivity|].
  split; [reflexivity|]. split; [reflexivity|]. split; [reflexivity|].
  repeat constructor.
Qed.

(** *** Allowed values *)

Section allowed_values.
Context `{PyLib} `{JSON_templates}.

(** With a classification and an allowed value in the workbook, the
    run raises in the loop of lines 127-128 at the latest. *)
Lemma allowed_values_abort (excel : Excel) :
  rows (classification excel) <> [] ->
  rows (propertyvalue excel) <> [] ->
  exists e, excel2bsdd_reading excel = Raise e.
Proof.
  intros Hc Hv. destruct (excel2bsdd_reading excel) as [root|e] eqn:E; [exfalso|by exists e].
  apply excel2bsdd_reading_Ok in E
    as (d0 & rest & cls & mats & props & cps & crs & pvs & prs & b4 & b5 & b6
        & _ & _ & Hcls & _ & _ & _ & _ & Hpvs & _ & H4 & H5 & H6 & _).
  destruct (mapped_Ok _ _ _ Hcls) as [Hshape Hlen].
  destruct (mapped_Ok _ _ _ Hpvs) as [_ Hlenv].
  destruct cls as [|c cls]; [by destruct (rows (classification excel))|].
  destruct pvs as [|pv pvs]; [by destruct (rows (propertyvalue excel))|].
  apply Forall_cons in Hshape as [(dc & -> & _) _].
  eapply link_rows_Ok in H4 as (cls4 & -> & _ & _ & Hall4);
    [|done|apply before_linking_classifications].
  destruct (Hall4 0 (VDict dc) eq_refl) as (c4 & Hc4 & _ & _ & _ & Hd4).
  destruct (Hd4 dc eq_refl) as [dc4 ->].
  eapply link_rows_Ok in H5 as (cls5 & -> & _ & _ & Hall5); [|done|by rewrite dict_get_set_eq].
  destruct (Hall5 0 (VDict dc4) Hc4) as (c5 & Hc5 & _ & _ & _ & Hd5).
  destruct (Hd5 dc4 eq_refl) as [dc5 ->].
  destruct cls5 as [|c5' cls5]; [done|]. injection Hc5 as ->.
  cbn [for_each] in H6. bind_inv H6.
  destruct (link_value_raises
              (dict_set "Classifications" (VList (VDict dc5 :: cls5))
                 (dict_set "Classifications" (VList cls4)
                    (before_linking d0 (VDict dc :: cls) mats props)))
              pv dc5 cls5) as [e He].
  { by rewrite dict_get_set_eq. }
  by rewrite He in Ha.
Qed.

(** The positions of [sys.argv] the script reads. *)
Lemma main_positions (a0 a1 a2 : string) (rest : list string) (fs : gmap string file) :
  main_reading (a0 :: a1 :: a2 :: rest) fs
  = (excel <- load_excel_reading fs a0 ;;
     bsdd_data <- excel2bsdd_reading excel ;;
     ret (a1, if negb (truthy a2) then clean_nones bsdd_data else bsdd_data)).
Proof. done. Qed.

End allowed_values.

(** C3 at the failing input: a workbook with the classification [A1],
    the property [P1] and one allowed value whose origin is [P1].  The
    allowed value is attached to [P1], then line 128 indexes a key of
    the classification, a string, with ["Code"]: the run ends with a
    [TypeError].  The same holds for every workbook with a row in the
    Classification sheet and a row in the PropertyValue sheet: the run
    raises. *)
Theorem allowed_value_run_raises `{PyLib} `{JSON_templates} (excel : Excel) (w : World) :
  (@excel2bsdd reference_lib reference_templates excel_allowed_value empty_world).2
  = Raise TypeError
  /\ (rows (classification excel) <> [] ->
      rows (propertyvalue excel) <> [] ->
      exists e, (excel2bsdd excel w).2 = Raise e).
Proof.
  split; [reflexivity|]. rewrite excel2bsdd_result. apply allowed_values_abort.
Qed.

(** C9 at the failing input: the script called with the workbook, the
    destination and the flag after its own name.  [sys.argv[0]] is the
    name of the script, which is what the script opens as the
    workbook: it raises and writes nothing.  Only with the workbook in
    [sys.argv[0]] does it write, to [sys.argv[1]]. *)
Theorem script_reads_argv0 :
  let argv := ["Excel2bSDD_converter.py"; "in.xlsx"; "out.json"; ""] in
  let w := world_with excel_A1 in
  (@main reference_lib reference_templates argv w).2 = Raise ValueError
  /\ files (@main reference_lib reference_templates argv w).1 = files w
  /\ exists doc, @main_reading reference_lib reference_templates (drop 1 argv) (files w)
                 = Ok ("out.json", doc).
Proof.
  intros argv w.
  pose proof (@main_run reference_lib reference_templates argv w) as Hrun.
  assert (@main_reading reference_lib reference_templates argv (files w) = Raise ValueError)
    as Hread by (vm_compute; reflexivity).
  rewrite Hread in Hrun. destruct Hrun as [-> ->]. split; [done|]. split; [done|].
  eexists. vm_compute. reflexivity.
Qed.

(** *** String cells *)

(** C4, as amended.  For a string cell of a recognised column the
    test is whether the string contains an opening and a closing
    square bracket, anywhere.  If it does, the string goes to
    [literal_eval]: when that raises, so does the row mapper; when it
    returns a list, the list is stored; when it returns another
    literal, the string is stored as it is.  A string without one of
    the two brackets is stored as it is.  Nothing is printed and the
    other fields are left alone. *)
Theorem string_cell_conversion `{PyLib} (new_part : dict) (column_name s : string)
    (w : World) :
  dict_mem column_name new_part = true ->
  let out := set_column new_part (column_name, PStr s) w in
  out.1 = w
  /\ match (if str_in "[" s && str_in "]" s then literal_eval s else Ok LitOther) with
     | Raise e => out.2 = Raise e
     | Ok content =>
         exists d : dict,
           out.2 = Ok d
           /\ d.*1 = new_part.*1
           /\ dict_get column_name d
              = Some (match content with LitList l => VList l | LitOther => VStr s end)
           /\ forall k, k <> column_name -> dict_get k d = dict_get k new_part
     end.
Proof.
  intros Hmem out. subst out. rewrite set_column_run. cbn [fst snd]. rewrite Hmem.
  split; [done|]. unfold map_column. cbn [fst snd convert]. rewrite Hmem.
  destruct (str_in "[" s && str_in "]" s).
  - destruct (literal_eval s) as [[l|]|e]; cbn [bind result_monad ret snd]; [| |done].
    + eexists. split; [done|]. split; [by apply dict_set_keys|].
      split; [apply dict_get_set_eq|]. intros k Hk. by apply dict_get_set_ne.
    + eexists. split; [done|]. split; [by apply dict_set_keys|].
      split; [apply dict_get_set_eq|]. intros k Hk. by apply dict_get_set_ne.
  - cbn [bind result_monad ret snd].
    eexists. split; [done|]. split; [by apply dict_set_keys|].
    split; [apply dict_get_set_eq|]. intros k Hk. by apply dict_get_set_ne.
Qed.

Lemma string_cell_conversion_witness :
  dict_mem "Code" [("Code", VNone)] = true
  /\ exists d : dict,
      (@set_column reference_lib [("Code", VNone)] ("Code", PStr "[1,2,3]")
         empty_world).2 = Ok d
      /\ dict_get "Code" d = Some (VList [VInt 1; VInt 2; VInt 3]).
Proof.
  split; [reflexivity|].
  destruct (@string_cell_conversion reference_lib [("Code", VNone)] "Code" "[1,2,3]"
              empty_world eq_refl) as [_ (d & Hd & _ & Hget & _)].
  exists d. split; [exact Hd|exact Hget].
Defined.

(** A string with brackets inside, not around it: the row mapper
    raises instead of passing the string on. *)
Lemma bracket_inside_text_raises :
  enclosed_in_brackets "a[0]" = false
  /\ (@jsonify reference_lib (mkDataFrame ["Code"] [[CStr "a[0]"]]) [("Code", VNone)]
        empty_world).2
     = Raise MalformedLiteral.
Proof. split; reflexivity. Qed.

(** The cell ["[1,2,3]"] of a recognised column is mapped to the list
    of the three numbers. *)
Example jsonify_list_cell :
  (@jsonify reference_lib (mkDataFrame ["Code"] [[CStr "[1,2,3]"]]) [("Code", VNone)]
     empty_world).2
  = Ok [VDict [("Code", VList [VInt 1; VInt 2; VInt 3])]].
Proof. reflexivity. Qed.

(* ================================================================== *)
(** * Part IV: properties of the store-level model                     *)
(* ================================================================== *)

(** ** The heap *)

Lemma prefix_lookup_Some {A} (l1 l2 : list A) (i : nat) (x : A) :
  l1 `prefix_of` l2 -> l1 !! i = Some x -> l2 !! i = Some x.
Proof. intros [k ->] Hi. by apply lookup_app_l_Some. Qed.

Lemma prefix_lookup_lt {A} (l1 l2 : list A) (i : nat) :
  l1 `prefix_of` l2 -> i < length l1 -> l2 !! i = l1 !! i.
Proof. intros [k ->] Hi. by apply lookup_app_l. Qed.

Lemma prefix_insert_ge {A} (l1 l2 : list A) (i : nat) (x : A) :
  l1 `prefix_of` l2 -> length l1 <= i -> l1 `prefix_of` <[i := x]> l2.
Proof.
  intros [k ->] Hi. exists (<[i - length l1 := x]> k).
  rewrite insert_app_r_alt by done. done.
Qed.

Lemma in_range_mono (lo hi hi' : nat) (r : ref) :
  hi <= hi' -> in_range lo hi r -> in_range lo hi' r.
Proof. destruct r; simpl; lia. Qed.

Lemma heap_append_length (y : nat) (a : ref) (h : heap) :
  length (heap_append y a h) = length h.
Proof. unfold heap_append. destruct (h !! y) as [[|]|]; by rewrite ?length_insert. Qed.

Lemma heap_setitem_length (y : nat) (k : string) (a : ref) (h : heap) :
  length (heap_setitem y k a h) = length h.
Proof. unfold heap_setitem. destruct (h !! y) as [[|]|]; by rewrite ?length_insert. Qed.

Lemma copy_ref_mono (m m' : gmap nat nat) (r r' : ref) :
  m ⊆ m' -> copy_ref m r r' -> copy_ref m' r r'.
Proof.
  intros Hm. destruct r; try done. intros (y & Hy & ->). exists y. split; [|done].
  by eapply lookup_weaken.
Qed.

Lemma copy_obj_mono (m m' : gmap nat nat) (o o' : hobj) :
  m ⊆ m' -> copy_obj m o o' -> copy_obj m' o o'.
Proof.
  intros Hm. destruct o, o'; try done; simpl; intros Hc.
  - eapply Forall2_impl; [exact Hc|]. intros. by eapply copy_ref_mono.
  - eapply Forall2_impl; [exact Hc|]. intros ? ? [? ?]. split; [done|]. by eapply copy_ref_mono.
Qed.

(** A memo whose keys are addresses below [n] has at most [n] entries. *)
Lemma memo_size_bound (m : gmap nat nat) (n : nat) :
  (forall l, is_Some (m !! l) -> l < n) -> size m <= n.
Proof.
  intros Hdom. rewrite <- size_dom, <- (size_set_seq 0 n (C := gset nat)).
  apply subseteq_size. intros l Hl. apply elem_of_dom in Hl. apply elem_of_set_seq.
  specialize (Hdom l Hl). lia.
Qed.

Lemma memo_size_lt (m : gmap nat nat) (n l : nat) :
  (forall l, is_Some (m !! l) -> l < n) -> m !! l = None -> l < n -> size m < n.
Proof.
  intros Hdom Hl Hn.
  assert (size (<[l := 0]> m) <= n) as Hs.
  { apply memo_size_bound. intros l' [y Hy]. destruct (decide (l = l')) as [<-|Hne]; [done|].
    rewrite lookup_insert_ne in Hy by done. apply Hdom. by eexists. }
  rewrite map_size_insert_None in Hs by done. lia.
Qed.

Lemma prefix_of_lookup {A} (l1 l2 : list A) :
  length l1 <= length l2 ->
  (forall i, i < length l1 -> l2 !! i = l1 !! i) ->
  l1 `prefix_of` l2.
Proof.
  intros Hlen Hl. exists (drop (length l1) l2).
  rewrite <- (take_drop (length l1) l2) at 1. f_equal.
  apply list_eq. intros i. destruct (decide (i < length l1)) as [Hi|Hi].
  - rewrite lookup_take_lt by done. by apply Hl.
  - rewrite lookup_take_ge by lia. symmetry. apply lookup_ge_None. lia.
Qed.

(** ** deepcopy *)

(** Storing into an object that is still being copied keeps the
    invariant. *)
Lemma copy_inv_store (h0 : heap) (base : nat) (anc : list nat) (m : gmap nat nat)
    (h : heap) (y : nat) (o' : hobj) :
  copy_inv h0 base anc m h ->
  base <= y ->
  (forall l, m !! l = Some y -> l ∈ anc) ->
  Forall (in_range base (length h)) (refs_of o') ->
  copy_inv h0 base anc m (<[y := o']> h).
Proof.
  intros [Hp Hb Hm Hi Hd Hn] Hy Hanc Hrefs. split.
  - apply prefix_insert_ge; [done|lia].
  - by rewrite length_insert.
  - intros l y' Hl. rewrite length_insert. by apply Hm.
  - done.
  - intros l y' Hl Hnot. destruct (Hd l y' Hl Hnot) as (o & o2 & Ho & Ho2 & Hc).
    exists o, o2. split; [done|]. split; [|done].
    rewrite list_lookup_insert_ne; [done|]. intros <-. by apply Hnot, Hanc.
  - intros y' o Hy' Ho. rewrite length_insert.
    destruct (decide (y = y')) as [<-|Hne].
    + assert (y < length h) as Hlt.
      { apply lookup_lt_Some in Ho. by rewrite length_insert in Ho. }
      rewrite list_lookup_insert_eq in Ho by done. by injection Ho as <-.
    + rewrite list_lookup_insert_ne in Ho by done. by eapply Hn.
Qed.

Section copy_loop.
Context {K : Type} (h0 : heap) (base : nat) (fuel : nat) (IH : copies_ok h0 base fuel).
Context (mk : list (K * ref) -> hobj) (store : K -> ref -> heap -> heap).
Context (fresh_key : list K -> K -> Prop) (y : nat) (anc : list nat).
Hypothesis Hrefs : forall items, refs_of (mk items) = items.*2.
Hypothesis Hstore : forall done k a h,
  h !! y = Some (mk done) -> fresh_key done.*1 k ->
  store k a h = <[y := mk (done ++ [(k, a)])]> h.
Hypothesis Hy : base <= y.

Lemma copy_each_ok (post : list (K * ref)) :
  forall (pre pre' : list (K * ref)) (m : gmap nat nat) (h : heap),
  copy_inv h0 base anc m h ->
  h !! y = Some (mk pre') ->
  (forall l, m !! l = Some y -> l ∈ anc) ->
  pre'.*1 = pre.*1 ->
  Forall2 (copy_ref m) pre.*2 pre'.*2 ->
  (forall pre2 k a post2, post = pre2 ++ (k, a) :: post2 -> fresh_key (pre.*1 ++ pre2.*1) k) ->
  Forall (in_range 0 (length h0)) post.*2 ->
  length h0 < fuel + size m ->
  exists m' h' post',
    copy_each (deepcopy_at fuel) store post m h = Some (m', h')
    /\ copy_inv h0 base anc m' h'
    /\ m ⊆ m'
    /\ length h <= length h'
    /\ (forall i, i < length h -> i <> y -> h' !! i = h !! i)
    /\ h' !! y = Some (mk (pre' ++ post'))
    /\ post'.*1 = post.*1
    /\ Forall2 (copy_ref m') (pre ++ post).*2 (pre' ++ post').*2
    /\ (forall l y', m' !! l = Some y' -> m !! l = Some y' \/ length h <= y').
Proof.
  induction post as [|[k a] post IHpost]; intros pre pre' m h Hinv Hobj Hanc Hkeys Hcopied Hfresh Hold Hfuel.
  - exists m, h, []. rewrite !app_nil_r. do 8 (split; [done|]). intros; by left.
  - apply Forall_cons in Hold as [Ha Hold]. cbn [copy_each].
    destruct (IH a anc m h Hinv Ha Hfuel) as (a' & m1 & h1 & -> & Hinv1 & Hm1 & Hp1 & Hca & Hnew1).
    assert (y < length h) as Hylt by (by eapply lookup_lt_Some).
    assert (h1 !! y = Some (mk pre')) as Hobj1 by (by eapply prefix_lookup_Some).
    assert (length h <= length h1) as Hlen1 by (by apply prefix_length).
    rewrite (Hstore pre' k a' h1 Hobj1);
      [|rewrite Hkeys, <- (app_nil_r (pre.*1)); by apply (Hfresh [] k a post)].
    assert (forall l, m1 !! l = Some y -> l ∈ anc) as Hanc1.
    { intros l Hl. destruct (Hnew1 l y Hl) as [Hl'|Hge]; [by apply Hanc|lia]. }
    assert (copy_inv h0 base anc m1 (<[y := mk (pre' ++ [(k, a')])]> h1)) as Hinv2.
    { apply copy_inv_store; try done. rewrite Hrefs, fmap_app. apply Forall_app. split.
      - rewrite <- Hrefs. eapply (ci_new _ _ _ _ _ Hinv1); [exact Hy|done].
      - constructor; [|done]. destruct a; simpl in Hca; try (by subst a').
        destruct Hca as (ya & Hya & ->).
        simpl. apply (ci_memo _ _ _ _ _ Hinv1) in Hya. lia. }
    destruct (IHpost (pre ++ [(k, a)]) (pre' ++ [(k, a')]) m1 (<[y := mk (pre' ++ [(k, a')])]> h1))
      as (m' & h' & post' & Hrun & Hinv' & Hm' & Hlen' & Hsame & Hobj' & Hkeys' & Hcopied' & Hnew');
      try done.
    + apply list_lookup_insert_eq. lia.
    + by rewrite !fmap_app, Hkeys.
    + rewrite !fmap_app. apply Forall2_app.
      * eapply Forall2_impl; [exact Hcopied|]. intros. by eapply copy_ref_mono.
      * by constructor.
    + intros pre2 k2 a2 post2 ->. rewrite fmap_app, <- app_assoc.
      by apply (Hfresh ((k, a) :: pre2) k2 a2 post2).
    + pose proof (map_subseteq_size _ _ Hm1). lia.
    + rewrite length_insert in Hlen', Hsame, Hnew'.
      exists m', h', ((k, a') :: post'). rewrite Hrun.
      split; [done|]. split; [done|]. split; [by etrans|]. split; [lia|].
      split; [|split; [|split; [|split]]].
      * intros i Hi1 Hi2. rewrite Hsame by lia. rewrite list_lookup_insert_ne by done.
        by apply prefix_lookup_lt.
      * by rewrite <- app_assoc in Hobj'.
      * by rewrite !fmap_cons, Hkeys'.
      * by rewrite <- !app_assoc in Hcopied'.
      * intros l y' Hl. destruct (Hnew' l y' Hl) as [Hl1|Hge]; [|right; lia].
        destruct (Hnew1 l y' Hl1); [by left|right; lia].
Qed.

End copy_loop.

(** Entering a list or a dictionary: its empty copy is allocated and
    entered in the memo. *)
Lemma copy_inv_enter (h0 : heap) (base : nat) (anc : list nat) (m : gmap nat nat)
    (h : heap) (l : nat) (o : hobj) :
  copy_inv h0 base anc m h ->
  l < length h0 -> m !! l = None -> refs_of o = [] ->
  copy_inv h0 base (l :: anc) (<[l := length h]> m) (h ++ [o]).
Proof.
  intros [Hp Hb Hm Hi Hd Hn] Hl Hnone Ho.
  assert (m ⊆ <[l := length h]> m) as Hsub by (by apply insert_subseteq).
  split.
  - by apply prefix_app_r.
  - rewrite length_app. simpl. lia.
  - intros l' y'. rewrite length_app. simpl. destruct (decide (l = l')) as [<-|Hne].
    + rewrite lookup_insert_eq. intros [= <-]. lia.
    + rewrite lookup_insert_ne by done. intros Hl'. apply Hm in Hl'. lia.
  - intros l1 l2 y'. destruct (decide (l = l1)) as [<-|Hne1], (decide (l = l2)) as [<-|Hne2];
      rewrite ?lookup_insert_eq, ?lookup_insert_ne by done; try done.
    + intros [= <-] H2. apply Hm in H2. lia.
    + intros H1 [= <-]. apply Hm in H1. lia.
    + apply Hi.
  - intros l' y' Hl' Hnot. apply not_elem_of_cons in Hnot as [Hne Hnot].
    rewrite lookup_insert_ne in Hl' by done.
    destruct (Hd l' y' Hl' Hnot) as (o1 & o2 & Ho1 & Ho2 & Hc).
    exists o1, o2. split; [done|]. split; [by apply lookup_app_l_Some|].
    by eapply copy_obj_mono.
  - intros y' o' Hy' Ho'. rewrite length_app. simpl.
    apply lookup_app_Some in Ho' as [Ho'|[Hge Ho']].
    + eapply Forall_impl; [by eapply Hn|]. intros r. apply in_range_mono. lia.
    + apply list_lookup_singleton_Some in Ho' as [_ <-]. by rewrite Ho.
Qed.

(** Leaving it: the copy is complete. *)
Lemma copy_inv_leave (h0 : heap) (base : nat) (anc : list nat) (m : gmap nat nat)
    (h : heap) (l y : nat) (o o' : hobj) :
  copy_inv h0 base (l :: anc) m h ->
  m !! l = Some y -> h0 !! l = Some o -> h !! y = Some o' -> copy_obj m o o' ->
  copy_inv h0 base anc m h.
Proof.
  intros [Hp Hb Hm Hi Hd Hn] Hl Ho Ho' Hc. split; try done.
  intros l' y' Hl' Hnot. destruct (decide (l' = l)) as [->|Hne].
  - rewrite Hl in Hl'. injection Hl' as <-. by exists o, o'.
  - apply Hd; [done|]. by apply not_elem_of_cons.
Qed.

Lemma Forall2_fst_snd {K A B} (R : A -> B -> Prop) (l : list (K * A)) (l' : list (K * B)) :
  l.*1 = l'.*1 -> Forall2 R l.*2 l'.*2 ->
  Forall2 (fun e e' => e.1 = e'.1 /\ R e.2 e'.2) l l'.
Proof.
  revert l'. induction l as [|[k a] l IH]; intros [|[k' b] l']; try done.
  rewrite !fmap_cons. simpl. intros [= -> Hk] [Hab Hl]%Forall2_cons.
  constructor; [done|]. by apply IH.
Qed.

Lemma snd_tagged {A} (items : list A) : ((fun a => (tt, a)) <$> items).*2 = items.
Proof. rewrite <- list_fmap_compose. apply list_fmap_id. Qed.

(** [deepcopy_at] returns, with the invariant kept, whatever the fuel,
    as long as the fuel outweighs what is left to copy. *)
Lemma deepcopy_at_ok (h0 : heap) (base fuel : nat) : heap_wf h0 -> copies_ok h0 base fuel.
Proof.
  intros [Hclosed Hdistinct]. induction fuel as [|fuel IH]; intros x anc m h Hinv Hx Hfuel.
  all: destruct x as [| | | |l];
    try (eexists _, m, h; split; [reflexivity|]; do 4 (split; [done|]); intros; by left).
  all: simpl; destruct (m !! l) as [y|] eqn:Hml;
    [exists (RLoc y), m, h; do 4 (split; [done|]); split; [by exists y|intros; by left]|].
  all: pose proof (ci_memo _ _ _ _ _ Hinv) as Hm; pose proof (ci_prefix _ _ _ _ _ Hinv) as Hp;
    pose proof (ci_base _ _ _ _ _ Hinv) as Hb.
  { exfalso. assert (size m <= length h0); [|lia].
    apply memo_size_bound. intros l' [y' Hy']. by apply Hm in Hy' as [? _]. }
  simpl in Hx. destruct (lookup_lt_is_Some_2 h0 l) as [o Ho]; [lia|].
  assert (h !! l = Some o) as -> by (by eapply prefix_lookup_Some).
  assert (base <= length h) as Hlen by lia.
  assert (Forall (in_range 0 (length h0)) (refs_of o)) as Hold.
  { unfold heap_closed in Hclosed. rewrite Forall_lookup in Hclosed. by eapply Hclosed. }
  assert (length h0 < fuel + size (<[l := length h]> m)) as Hfuel'.
  { rewrite map_size_insert_None by done. lia. }
  assert (forall l2, <[l := length h]> m !! l2 = Some (length h) -> l2 ∈ l :: anc) as Hanc.
  { intros l2. destruct (decide (l = l2)) as [<-|Hne]; [intros _; apply list_elem_of_here|].
    rewrite lookup_insert_ne by done. intros Hl2. apply Hm in Hl2. lia. }
  assert (forall (m' : gmap nat nat) l2 y2,
            (m' !! l2 = Some y2 -> <[l := length h]> m !! l2 = Some y2
                                   \/ length (h ++ [HList []]) <= y2) ->
            m' !! l2 = Some y2 -> m !! l2 = Some y2 \/ length h <= y2) as Hnew.
  { intros m' l2 y2 Hor Hl2. destruct (Hor Hl2) as [Hins|Hge].
    - destruct (decide (l = l2)) as [<-|Hne].
      + rewrite lookup_insert_eq in Hins. injection Hins as <-. by right.
      + rewrite lookup_insert_ne in Hins by done. by left.
    - rewrite length_app in Hge. simpl in Hge. right. lia. }
  destruct o as [items|entries].
  - destruct (copy_each_ok h0 base fuel IH (fun its => HList its.*2) (fun _ : unit => heap_append (length h))
                (fun _ _ => True) (length h) (l :: anc)
                ltac:(done)
                ltac:(intros dn k a h1 H1 _; unfold heap_append; by rewrite H1, fmap_app)
                Hlen ((fun a => (tt, a)) <$> items) [] [] (<[l := length h]> m) (h ++ [HList []]))
      as (m' & h' & post' & -> & Hinv' & Hm' & Hlen' & Hsame & Hobj' & Hkeys' & Hcopied' & Hnew');
      try done.
    + apply copy_inv_enter; [done|lia|done|done].
    + by apply list_lookup_middle.
    + by rewrite snd_tagged.
    + rewrite length_app in Hlen', Hsame. simpl in *. rewrite snd_tagged in Hcopied'.
      exists (RLoc (length h)), m', h'. split; [done|].
      assert (m' !! l = Some (length h)) as Hl'.
      { eapply lookup_weaken; [|exact Hm']. apply lookup_insert_eq. }
      split; [by eapply (copy_inv_leave _ _ _ _ _ l (length h) (HList items) (HList post'.*2))|].
      split; [etrans; [|exact Hm']; by apply insert_subseteq|].
      split.
      { apply prefix_of_lookup; [lia|]. intros i Hi. rewrite Hsame by lia.
        by apply lookup_app_l. }
      split; [by exists (length h)|]. intros l2 y2. by apply Hnew, Hnew'.
  - assert (NoDup entries.*1) as Hnodup.
    { unfold heap_keys_distinct in Hdistinct. rewrite Forall_lookup in Hdistinct.
      by apply (Hdistinct l (HDict entries)). }
    destruct (copy_each_ok h0 base fuel IH HDict (heap_setitem (length h))
                (fun ks k => k ∉ ks) (length h) (l :: anc)
                ltac:(done)
                ltac:(intros dn k a h1 H1 Hk; unfold heap_setitem; rewrite H1;
                      rewrite dict_set_keys_new; [done|by apply dict_mem_false])
                Hlen entries [] [] (<[l := length h]> m) (h ++ [HDict []]))
      as (m' & h' & post' & -> & Hinv' & Hm' & Hlen' & Hsame & Hobj' & Hkeys' & Hcopied' & Hnew');
      try done.
    + apply copy_inv_enter; [done|lia|done|done].
    + by apply list_lookup_middle.
    + intros pre2 k a post2 ->. simpl. rewrite fmap_app, fmap_cons in Hnodup.
      apply NoDup_app in Hnodup as (_ & Hdisj & _). intros Hin.
      apply (Hdisj k Hin). apply list_elem_of_here.
    + rewrite length_app in Hlen', Hsame. simpl in *.
      exists (RLoc (length h)), m', h'. split; [done|].
      assert (m' !! l = Some (length h)) as Hl'.
      { eapply lookup_weaken; [|exact Hm']. apply lookup_insert_eq. }
      split.
      { eapply (copy_inv_leave _ _ _ _ _ l (length h) (HDict entries) (HDict post')); try done.
        simpl. by apply Forall2_fst_snd. }
      split; [etrans; [|exact Hm']; by apply insert_subseteq|].
      split.
      { apply prefix_of_lookup; [lia|]. intros i Hi. rewrite Hsame by lia.
        by apply lookup_app_l. }
      split; [by exists (length h)|]. intros l2 y2. apply Hnew.
      intros Hl2. destruct (Hnew' l2 y2 Hl2) as [?|Hge]; [by left|right].
      rewrite length_app in *. simpl in *. lia.
Qed.

(** [deepcopy] of an object of the well-formed heap [h0], run on a
    heap that extends [h0]. *)
Lemma deepcopy_h_ok (h0 h : heap) (w : World) (t : nat) :
  heap_wf h0 -> h0 `prefix_of` h -> t < length h0 ->
  exists y (m : gmap nat nat) h',
    deepcopy_h (RLoc t) h w = Some (h', w, Ok (RLoc y))
    /\ h `prefix_of` h'
    /\ length h <= y < length h'
    /\ owned h' (length h) (length h')
    /\ m !! t = Some y
    /\ (forall l y', m !! l = Some y' ->
        exists o o', h0 !! l = Some o /\ h' !! y' = Some o' /\ copy_obj m o o').
Proof.
  intros Hwf Hp0 Ht. pose proof (prefix_length _ _ Hp0) as Hlen0.
  destruct (deepcopy_at_ok h0 (length h) (S (length h)) Hwf (RLoc t) [] ∅ h)
    as (x' & m & h' & Hrun & Hinv & _ & Hp & (y & Hy & ->) & _).
  - split; try done.
    intros y o Hy Ho. apply lookup_lt_Some in Ho. lia.
  - simpl. lia.
  - rewrite map_size_empty. lia.
  - exists y, m, h'. unfold deepcopy_h. rewrite Hrun.
    split; [done|]. split; [done|].
    split; [by eapply (ci_memo _ _ _ _ _ Hinv) in Hy as [_ ?]|].
    split.
    { intros l o Hl Ho. apply (ci_new _ _ _ _ _ Hinv l o); [lia|done]. }
    split; [done|].
    intros l y' Hl. apply (ci_done _ _ _ _ _ Hinv l y' Hl). apply not_elem_of_nil.
Qed.

(** ** Values on the heap *)

Lemma denotes_list (h : heap) (r : ref) (vs : list value) :
  denotes h r (VList vs) <->
  exists l items, r = RLoc l /\ h !! l = Some (HList items) /\ Forall2 (denotes h) items vs.
Proof.
  simpl. apply exist_proper; intros l. apply exist_proper; intros items.
  do 2 (apply and_iff_compat_l).
  revert items. induction vs as [|v vs IH]; intros [|r' items]; split;
    try done; try (by inversion 1).
  - intros [Hv Hvs]. constructor; [done|]. by apply IH.
  - intros [Hv Hvs]%Forall2_cons. split; [done|]. by apply IH.
Qed.

Lemma denotes_dict (h : heap) (r : ref) (d : dict) :
  denotes h r (VDict d) <->
  exists l entries, r = RLoc l /\ h !! l = Some (HDict entries)
    /\ Forall2 (fun e kv => e.1 = kv.1 /\ denotes h e.2 kv.2) entries d.
Proof.
  simpl. apply exist_proper; intros l. apply exist_proper; intros entries.
  do 2 (apply and_iff_compat_l).
  revert entries. induction d as [|kv d IH]; intros [|e entries]; split;
    try done; try (by inversion 1).
  - intros (Hk & Hv & Hd). constructor; [done|]. by apply IH.
  - intros [[Hk Hv] Hd]%Forall2_cons. split; [done|]. split; [done|]. by apply IH.
Qed.

#[local] Arguments denotes : simpl never.

Lemma denotes_mono (h h' : heap) (r : ref) (v : value) :
  h `prefix_of` h' -> denotes h r v -> denotes h' r v.
Proof.
  intros Hp. revert r. induction v as [| | | |vs IH|d IH] using value_ind; intros r; try done.
  - rewrite !denotes_list. intros (l & items & -> & Hl & Hall).
    exists l, items. split; [done|]. split; [by eapply prefix_lookup_Some|].
    clear Hl. revert items Hall. induction IH as [|v vs Hv _ IHvs]; intros items Hall.
    + by inversion Hall.
    + inversion Hall as [|r' v' items' vs' Hr Hrest]; subst. constructor; [by apply Hv|].
      by apply IHvs.
  - rewrite !denotes_dict. intros (l & entries & -> & Hl & Hall).
    exists l, entries. split; [done|]. split; [by eapply prefix_lookup_Some|].
    clear Hl. revert entries Hall. induction IH as [|kv d Hv _ IHd]; intros entries Hall.
    + by inversion Hall.
    + inversion Hall as [|e kv' entries' d' [Hk Hr] Hrest]; subst.
      constructor; [by split; [|apply Hv]|]. by apply IHd.
Qed.

(** A reference stands for one value at most. *)
Lemma denotes_fun (h : heap) (v : value) :
  forall r v', denotes h r v -> denotes h r v' -> v = v'.
Proof.
  induction v as [| | | |vs IH|d IH] using value_ind; intros r v'.
  1-4: intros ->; destruct v'; try done;
       try (by intros [= ->]);
       try (by rewrite denotes_list; intros (? & ? & ? & _));
       try (by rewrite denotes_dict; intros (? & ? & ? & _)).
  - rewrite denotes_list. intros (l & items & -> & Hl & Hall).
    destruct v' as [| | | |vs'|d']; try done.
    + rewrite denotes_list. intros (l' & items' & [= <-] & Hl' & Hall').
      rewrite Hl in Hl'. injection Hl' as <-. f_equal.
      clear Hl. revert vs' items Hall Hall'.
      induction IH as [|v vs Hv _ IHvs]; intros vs' items Hall Hall'.
      * inversion Hall; subst. by inversion Hall'.
      * inversion Hall as [|r' ? items' ? Hr Hrest]; subst.
        inversion Hall' as [|? v2 ? vs2 Hr' Hrest']; subst.
        f_equal; [by eapply Hv|by eapply IHvs].
    + rewrite denotes_dict. intros (l' & entries' & [= <-] & Hl' & _).
      by rewrite Hl in Hl'.
  - rewrite denotes_dict. intros (l & entries & -> & Hl & Hall).
    destruct v' as [| | | |vs'|d']; try done.
    + rewrite denotes_list. intros (l' & items' & [= <-] & Hl' & _).
      by rewrite Hl in Hl'.
    + rewrite denotes_dict. intros (l' & entries' & [= <-] & Hl' & Hall').
      rewrite Hl in Hl'. injection Hl' as <-. f_equal.
      clear Hl. revert d' entries Hall Hall'.
      induction IH as [|kv d Hv _ IHd]; intros d' entries Hall Hall'.
      * inversion Hall; subst. by inversion Hall'.
      * inversion Hall as [|e ? entries' ? [Hk Hr] Hrest]; subst.
        inversion Hall' as [|? kv2 ? d2 [Hk' Hr'] Hrest']; subst.
        f_equal; [|by eapply IHd].
        destruct kv as [k v], kv2 as [k2 v2]. simpl in *. f_equal; [congruence|by eapply Hv].
Qed.

(** A complete copy stands for the value the original stands for. *)
Lemma denotes_copy (h0 h' : heap) (m : gmap nat nat) :
  (forall l y, m !! l = Some y ->
     exists o o', h0 !! l = Some o /\ h' !! y = Some o' /\ copy_obj m o o') ->
  forall v r r', denotes h0 r v -> copy_ref m r r' -> denotes h' r' v.
Proof.
  intros Hdone. induction v as [| | | |vs IH|d IH] using value_ind; intros r r'.
  1-4: by intros -> ->.
  - rewrite !denotes_list. intros (l & items & -> & Hl & Hall) (y & Hy & ->).
    destruct (Hdone l y Hy) as (o & o' & Ho & Ho' & Hc).
    rewrite Hl in Ho. injection Ho as <-. destruct o' as [items'|]; [|done]. simpl in Hc.
    exists y, items'. split; [done|]. split; [done|].
    clear Hl Ho'. revert items items' Hall Hc.
    induction IH as [|v vs Hv _ IHvs]; intros items items' Hall Hc.
    + inversion Hall; subst. by inversion Hc.
    + inversion Hall as [|r0 ? items0 ? Hr Hrest]; subst.
      inversion Hc as [|? r1 ? items1 Hcr Hcrest]; subst.
      constructor; [by eapply Hv|by eapply IHvs].
  - rewrite !denotes_dict. intros (l & entries & -> & Hl & Hall) (y & Hy & ->).
    destruct (Hdone l y Hy) as (o & o' & Ho & Ho' & Hc).
    rewrite Hl in Ho. injection Ho as <-. destruct o' as [|entries']; [done|]. simpl in Hc.
    exists y, entries'. split; [done|]. split; [done|].
    clear Hl Ho'. revert entries entries' Hall Hc.
    induction IH as [|kv d Hv _ IHd]; intros entries entries' Hall Hc.
    + inversion Hall; subst. by inversion Hc.
    + inversion Hall as [|e0 ? entries0 ? [Hk Hr] Hrest]; subst.
      inversion Hc as [|? e1 ? entries1 [Hck Hcr] Hcrest]; subst.
      constructor; [|by eapply IHd]. split; [congruence|by eapply Hv].
Qed.

Lemma list_sum_cons (n : nat) (l : list nat) : list_sum (n :: l) = n + list_sum l.
Proof. done. Qed.

Lemma value_size_elem (x : value) (l : list value) :
  x ∈ l -> value_size x < value_size (VList l).
Proof.
  intros Hx. cbn [value_size]. apply Nat.lt_succ_r.
  induction Hx as [x l|x y l _ IH]; rewrite fmap_cons, list_sum_cons; lia.
Qed.

Lemma value_size_entry (kv : string * value) (d : dict) :
  kv ∈ d -> value_size kv.2 < value_size (VDict d).
Proof.
  intros Hx. cbn [value_size]. apply Nat.lt_succ_r.
  induction Hx as [x l|x y l _ IH]; rewrite fmap_cons, list_sum_cons; lia.
Qed.

(** Changing the object at [y] does not change what a reference
    stands for when the value is smaller than any value [y] stands
    for: the object at [y] is then no part of it. *)
Lemma denotes_insert_small (h : heap) (y : nat) (o : hobj) (v : value) :
  forall r, denotes h r v ->
  (forall w, denotes h (RLoc y) w -> value_size v < value_size w) ->
  denotes (<[y := o]> h) r v.
Proof.
  induction v as [| | | |vs IH|d IH] using value_ind; intros r; try done.
  - intros Hd Hsmall. pose proof Hd as Hd'. apply denotes_list in Hd as (l & items & -> & Hl & Hall).
    assert (l <> y) as Hne.
    { intros ->. specialize (Hsmall _ Hd'). lia. }
    apply denotes_list. exists l, items. split; [done|].
    split; [by rewrite list_lookup_insert_ne|].
    assert (forall v, v ∈ vs -> forall w, denotes h (RLoc y) w -> value_size v < value_size w)
      as Hsmall'.
    { intros v Hv w Hw. pose proof (value_size_elem v vs Hv). specialize (Hsmall w Hw). lia. }
    clear Hl Hd' Hsmall. revert items Hall.
    induction IH as [|v vs Hv _ IHvs]; intros items Hall.
    + by inversion Hall.
    + inversion Hall as [|r0 ? items0 ? Hr Hrest]; subst. constructor.
      * apply Hv; [done|]. apply Hsmall'. apply list_elem_of_here.
      * apply IHvs; [|done]. intros v' Hv'. apply Hsmall'. by apply list_elem_of_further.
  - intros Hd Hsmall. pose proof Hd as Hd'.
    apply denotes_dict in Hd as (l & entries & -> & Hl & Hall).
    assert (l <> y) as Hne.
    { intros ->. specialize (Hsmall _ Hd'). lia. }
    apply denotes_dict. exists l, entries. split; [done|].
    split; [by rewrite list_lookup_insert_ne|].
    assert (forall kv, kv ∈ d -> forall w, denotes h (RLoc y) w -> value_size kv.2 < value_size w)
      as Hsmall'.
    { intros kv Hkv w Hw. pose proof (value_size_entry kv d Hkv). specialize (Hsmall w Hw). lia. }
    clear Hl Hd' Hsmall. revert entries Hall.
    induction IH as [|kv d Hv _ IHd]; intros entries Hall.
    + by inversion Hall.
    + inversion Hall as [|e0 ? entries0 ? [Hk Hr] Hrest]; subst. constructor.
      * split; [done|]. apply Hv; [done|]. apply (Hsmall' kv). apply list_elem_of_here.
      * apply IHd; [|done]. intros kv' Hkv'. apply Hsmall'. by apply list_elem_of_further.
Qed.

(** Nor when the reference lives in a stretch of the heap that is
    closed under reference and does not hold [y]. *)
Lemma denotes_insert_range (h : heap) (lo hi y : nat) (o : hobj) (v : value) :
  owned h lo hi -> ~ (lo <= y < hi) ->
  forall r, in_range lo hi r -> denotes h r v -> denotes (<[y := o]> h) r v.
Proof.
  intros Hown Hy. induction v as [| | | |vs IH|d IH] using value_ind; intros r Hr; try done.
  - rewrite !denotes_list. intros (l & items & -> & Hl & Hall). simpl in Hr.
    exists l, items. split; [done|].
    split; [rewrite list_lookup_insert_ne; [done|]; intros <-; lia|].
    pose proof (Hown l _ Hr Hl) as Hrefs. simpl in Hrefs.
    clear Hl. revert items Hall Hrefs.
    induction IH as [|v vs Hv _ IHvs]; intros items Hall Hrefs.
    + by inversion Hall.
    + inversion Hall as [|r0 ? items0 ? Hr0 Hrest]; subst.
      apply Forall_cons in Hrefs as [? ?]. constructor; [by apply Hv|by apply IHvs].
  - rewrite !denotes_dict. intros (l & entries & -> & Hl & Hall). simpl in Hr.
    exists l, entries. split; [done|].
    split; [rewrite list_lookup_insert_ne; [done|]; intros <-; lia|].
    pose proof (Hown l _ Hr Hl) as Hrefs. simpl in Hrefs.
    clear Hl. revert entries Hall Hrefs.
    induction IH as [|kv d Hv _ IHd]; intros entries Hall Hrefs.
    + by inversion Hall.
    + inversion Hall as [|e0 ? entries0 ? [Hk Hr0] Hrest]; subst.
      rewrite fmap_cons in Hrefs. apply Forall_cons in Hrefs as [? ?].
      constructor; [by split; [|apply Hv]|by apply IHd].
Qed.

(** ** Allocation of a literal *)

Lemma in_range_weaken (lo lo' hi hi' : nat) (r : ref) :
  lo' <= lo -> hi <= hi' -> in_range lo hi r -> in_range lo' hi' r.
Proof. destruct r; simpl; lia. Qed.

Lemma owned_prefix (h h' : heap) (lo hi : nat) :
  owned h lo hi -> h `prefix_of` h' -> hi <= length h -> owned h' lo hi.
Proof.
  intros Hown Hp Hhi l o Hl Ho. apply (Hown l o Hl).
  rewrite <- Ho. symmetry. apply prefix_lookup_lt; [done|lia].
Qed.

Lemma owned_concat (h : heap) (a b c : nat) :
  owned h a b -> owned h b c -> a <= b <= c -> owned h a c.
Proof.
  intros Hab Hbc Habc l o Hl Ho. destruct (decide (l < b)) as [Hlt|Hge].
  - eapply Forall_impl; [apply (Hab l o); [lia|done]|].
    intros r. apply in_range_weaken; lia.
  - eapply Forall_impl; [apply (Hbc l o); [lia|done]|].
    intros r. apply in_range_weaken; lia.
Qed.

Lemma alloc_value_list (l : list value) (h : heap) :
  alloc_value (VList l) h
  = (RLoc (length (alloc_items l h).2), (alloc_items l h).2 ++ [HList (alloc_items l h).1]).
Proof. done. Qed.

Lemma alloc_value_dict (d : dict) (h : heap) :
  alloc_value (VDict d) h
  = (RLoc (length (alloc_entries d h).2), (alloc_entries d h).2 ++ [HDict (alloc_entries d h).1]).
Proof. done. Qed.

Lemma alloc_items_ok (l : list value) :
  Forall allocates l ->
  forall h,
    h `prefix_of` (alloc_items l h).2
    /\ Forall (in_range (length h) (length (alloc_items l h).2)) (alloc_items l h).1
    /\ owned (alloc_items l h).2 (length h) (length (alloc_items l h).2)
    /\ Forall2 (denotes (alloc_items l h).2) (alloc_items l h).1 l.
Proof.
  induction 1 as [|x l Hx _ IH]; intros h.
  - simpl. split; [done|]. split; [done|]. split; [|done]. intros l o Hl. lia.
  - cbn [alloc_items fst snd]. destruct (Hx h) as (Hp1 & Hr1 & Ho1 & Hd1).
    destruct (IH (alloc_value x h).2) as (Hp2 & Hr2 & Ho2 & Hd2).
    set (h1 := (alloc_value x h).2) in *. set (r := alloc_items l h1) in *.
    pose proof (prefix_length _ _ Hp1). pose proof (prefix_length _ _ Hp2).
    split; [by etrans|]. split; [|split].
    + constructor.
      * eapply in_range_weaken; [| |exact Hr1]; lia.
      * eapply Forall_impl; [exact Hr2|]. intros r'. apply in_range_weaken; lia.
    + eapply owned_concat; [|exact Ho2|lia]. by eapply owned_prefix.
    + constructor; [by eapply denotes_mono|done].
Qed.

Lemma alloc_entries_ok (d : dict) :
  Forall (fun kv => allocates kv.2) d ->
  forall h,
    h `prefix_of` (alloc_entries d h).2
    /\ Forall (in_range (length h) (length (alloc_entries d h).2)) (alloc_entries d h).1.*2
    /\ owned (alloc_entries d h).2 (length h) (length (alloc_entries d h).2)
    /\ Forall2 (fun e kv => e.1 = kv.1 /\ denotes (alloc_entries d h).2 e.2 kv.2)
         (alloc_entries d h).1 d.
Proof.
  induction 1 as [|x l Hx _ IH]; intros h.
  - simpl. split; [done|]. split; [done|]. split; [|done]. intros l o Hl. lia.
  - cbn [alloc_entries fst snd]. destruct (Hx h) as (Hp1 & Hr1 & Ho1 & Hd1).
    destruct (IH (alloc_value x.2 h).2) as (Hp2 & Hr2 & Ho2 & Hd2).
    set (h1 := (alloc_value x.2 h).2) in *. set (r := alloc_entries l h1) in *.
    pose proof (prefix_length _ _ Hp1). pose proof (prefix_length _ _ Hp2).
    split; [by etrans|]. split; [|split].
    + rewrite fmap_cons. constructor.
      * eapply in_range_weaken; [| |exact Hr1]; lia.
      * eapply Forall_impl; [exact Hr2|]. intros r'. apply in_range_weaken; lia.
    + eapply owned_concat; [|exact Ho2|lia]. by eapply owned_prefix.
    + constructor; [|done]. split; [done|]. by eapply denotes_mono.
Qed.

Lemma owned_snoc (h : heap) (lo : nat) (o : hobj) :
  owned h lo (length h) -> lo <= length h ->
  Forall (in_range lo (length h)) (refs_of o) ->
  owned (h ++ [o]) lo (S (length h)).
Proof.
  intros Hown Hlo Ho l o' Hl Hl'. apply lookup_app_Some in Hl' as [Hl'|[Hge Hl']].
  - eapply Forall_impl; [apply (Hown l o'); [|done]|].
    + apply lookup_lt_Some in Hl'. lia.
    + intros r. apply in_range_weaken; lia.
  - apply list_lookup_singleton_Some in Hl' as [_ <-].
    eapply Forall_impl; [exact Ho|]. intros r. apply in_range_weaken; lia.
Qed.

Lemma alloc_value_ok (v : value) : allocates v.
Proof.
  induction v as [| | | |l IH|d IH] using value_ind; intros h.
  1-4: simpl; split; [done|]; split; [done|]; split; [|done]; intros l o Hl; lia.
  - rewrite alloc_value_list. cbn [fst snd].
    destruct (alloc_items_ok l IH h) as (Hp & Hr & Ho & Hd).
    set (r := alloc_items l h) in *. pose proof (prefix_length _ _ Hp).
    rewrite length_app. simpl. replace (length r.2 + 1) with (S (length r.2)) by lia.
    split; [by apply prefix_app_r|]. split; [lia|]. split; [by apply owned_snoc|].
    apply denotes_list. exists (length r.2), r.1. split; [done|].
    split; [by apply list_lookup_middle|].
    eapply Forall2_impl; [exact Hd|]. intros r' v'. apply denotes_mono. by apply prefix_app_r.
  - rewrite alloc_value_dict. cbn [fst snd].
    destruct (alloc_entries_ok d IH h) as (Hp & Hr & Ho & Hd).
    set (r := alloc_entries d h) in *. pose proof (prefix_length _ _ Hp).
    rewrite length_app. simpl. replace (length r.2 + 1) with (S (length r.2)) by lia.
    split; [by apply prefix_app_r|]. split; [lia|]. split; [by apply owned_snoc|].
    apply denotes_dict. exists (length r.2), r.1. split; [done|].
    split; [by apply list_lookup_middle|].
    eapply Forall2_impl; [exact Hd|]. intros e kv [? ?]. split; [done|].
    eapply denotes_mono; [|done]. by apply prefix_app_r.
Qed.

(** ** jsonify on the heap *)

Lemma hbind_run {A B} (c : HM A) (k : A -> HM B) (h : heap) (w : World) :
  (x <- c ;; k x) h w =
    match c h w with
    | Some (h', w', Ok a) => k a h' w'
    | Some (h', w', Raise e) => Some (h', w', Raise e)
    | None => None
    end.
Proof. done. Qed.

Lemma Forall_dict_set {V} (P : V -> Prop) (k : string) (v : V) (d : list (string * V)) :
  Forall P d.*2 -> P v -> Forall P (dict_set k v d).*2.
Proof.
  intros Hd Hv. induction d as [|[k' v'] d IH]; simpl.
  - by constructor.
  - rewrite fmap_cons in Hd. apply Forall_cons in Hd as [Hv' Hd].
    destruct (String.eqb k k'); rewrite fmap_cons; constructor; auto.
Qed.

Lemma Forall2_dict_set {V W} (R : string * V -> string * W -> Prop) (k : string)
    (v : V) (w : W) (d : list (string * V)) (d' : list (string * W)) :
  (forall e e', R e e' -> e.1 = e'.1) ->
  Forall2 R d d' -> R (k, v) (k, w) -> Forall2 R (dict_set k v d) (dict_set k w d').
Proof.
  intros Hkey Hd Hvw. induction Hd as [|[k1 v1] [k2 w1] d d' Hr Hd IH]; simpl.
  - by constructor.
  - pose proof (Hkey _ _ Hr) as Hk. simpl in Hk. subst k2.
    destruct (String.eqb k k1); by constructor.
Qed.

Section jsonify_on_heap.
Context `{PyLib}.

(** The conversion of a cell: the heap is extended by the objects of
    a list literal, if any, and the reference stands for the value the
    value-level conversion gives. *)
Lemma convert_h_ok (c : pobject) (h : heap) (w : World) :
  exists h1 r,
    convert_h c h w = Some (h1, w, r)
    /\ h `prefix_of` h1
    /\ owned h1 (length h) (length h1)
    /\ match r with
       | Ok x => in_range (length h) (length h1) x
                 /\ exists v, convert c = Ok v /\ denotes h1 x v
       | Raise ex => convert c = Raise ex
       end.
Proof.
  assert (owned h (length h) (length h)) as Hnone by (intros l o Hl; lia).
  destruct c as [| | |s|t]; simpl.
  1-3: eexists h, _; split; [done|]; split; [done|]; split; [done|]; split; [done|];
       by eexists.
  - destruct (str_in "[" s && str_in "]" s).
    + destruct (literal_eval s) as [[l|]|ex]; simpl.
      * destruct (alloc_value_ok (VList l) h) as (Hp & Hr & Ho & Hd).
        eexists _, _. split; [done|]. split; [done|]. split; [done|]. split; [done|].
        by eexists.
      * eexists h, _. split; [done|]. split; [done|]. split; [done|]. split; [done|].
        by eexists.
      * eexists h, _. split; [done|]. split; [done|]. split; [done|]. done.
    + eexists h, _. split; [done|]. split; [done|]. split; [done|]. split; [done|].
      by eexists.
  - eexists h, _. split; [done|]. split; [done|]. split; [done|]. split; [done|].
    by eexists.
Qed.

Lemma denotes_dict_at (h : heap) (y : nat) (e : list (string * ref)) (d : dict) :
  h !! y = Some (HDict e) ->
  denotes h (RLoc y) (VDict d) <-> Forall2 (fun e kv => e.1 = kv.1 /\ denotes h e.2 kv.2) e d.
Proof.
  intros Hy. rewrite denotes_dict. split.
  - intros (l & e' & [= <-] & Hl & Hall). rewrite Hy in Hl. by injection Hl as <-.
  - intros Hall. by exists y, e.
Qed.

Lemma Forall2_keys {V W} (R : V -> W -> Prop) (e : list (string * V)) (d : list (string * W)) :
  Forall2 (fun e kv => e.1 = kv.1 /\ R e.2 kv.2) e d -> e.*1 = d.*1.
Proof. induction 1 as [|? ? ? ? [? ?]]; [done|]. rewrite !fmap_cons. congruence. Qed.

(** Setting a field of a row object that lies in a stretch closed
    under reference keeps the stretch closed. *)
Lemma owned_setitem (h h1 : heap) (n y : nat) (e : list (string * ref)) (k : string) (x : ref) :
  n <= y -> h !! y = Some (HDict e) -> owned h n (length h) ->
  h `prefix_of` h1 -> owned h1 (length h) (length h1) -> in_range (length h) (length h1) x ->
  owned (<[y := HDict (dict_set k x e)]> h1) n (length h1).
Proof.
  intros Hn Hy Hown Hp Hown1 Hx l o Hl Hlo.
  pose proof (prefix_length _ _ Hp) as Hlen. pose proof (lookup_lt_Some _ _ _ Hy) as Hylt.
  destruct (decide (l = y)) as [->|Hne].
  - rewrite list_lookup_insert_eq in Hlo by lia. injection Hlo as <-. simpl.
    apply Forall_dict_set.
    + eapply Forall_impl; [apply (Hown y (HDict e)); [lia|done]|].
      intros r. apply in_range_weaken; lia.
    + eapply in_range_weaken; [| |exact Hx]; lia.
  - rewrite list_lookup_insert_ne in Hlo by done.
    eapply owned_concat; [by eapply (owned_prefix h h1 n (length h))|exact Hown1|lia|exact Hl|done].
Qed.

(** The body of the loop over the columns, on the heap: what it does
    to the heap and how it matches the value-level body. *)
Lemma set_column_h_ok (n y : nat) (col : string * pobject) (h : heap) (w : World)
    (e : list (string * ref)) :
  n <= y -> h !! y = Some (HDict e) -> owned h n (length h) ->
  exists h' w' r e',
    set_column_h y tt col h w = Some (h', w', r)
    /\ (forall i, i < length h -> i <> y -> h' !! i = h !! i)
    /\ length h <= length h'
    /\ owned h' n (length h')
    /\ h' !! y = Some (HDict e') /\ e'.*1 = e.*1
    /\ forall d, denotes h (RLoc y) (VDict d) ->
       w' = (set_column d col w).1
       /\ match r with
          | Ok _ => exists d', (set_column d col w).2 = Ok d' /\ denotes h' (RLoc y) (VDict d')
          | Raise ex => (set_column d col w).2 = Raise ex
          end.
Proof.
  intros Hn Hy Hown. pose proof (lookup_lt_Some _ _ _ Hy) as Hylt.
  unfold set_column_h. rewrite Hy. destruct (dict_mem col.1 e) eqn:Emem.
  - rewrite hbind_run. destruct (convert_h_ok col.2 h w) as (h1 & r & -> & Hp & Hown1 & Hr).
    pose proof (prefix_length _ _ Hp) as Hlen.
    assert (h1 !! y = Some (HDict e)) as Hy1 by (by eapply prefix_lookup_Some).
    destruct r as [x|ex].
    + destruct Hr as [Hx (v & Hv & Hdv)]. unfold heap_setitem. rewrite Hy1.
      exists (<[y := HDict (dict_set col.1 x e)]> h1), w, (Ok tt), (dict_set col.1 x e).
      split; [done|]. split.
      { intros i Hi Hne. rewrite list_lookup_insert_ne by done. by apply prefix_lookup_lt. }
      rewrite length_insert. split; [done|].
      split; [by apply (owned_setitem h h1 n y e)|].
      split; [apply list_lookup_insert_eq; lia|].
      split; [by apply dict_set_keys|].
      intros d Hd. rewrite set_column_run.
      pose proof (denotes_mono _ _ _ _ Hp Hd) as Hd1.
      apply (denotes_dict_at h y e d Hy) in Hd. pose proof (Forall2_keys _ _ _ Hd) as Hkeys.
      rewrite <- (dict_mem_keys col.1 e d Hkeys), Emem. cbn [fst snd].
      split; [done|]. unfold map_column.
      rewrite <- (dict_mem_keys col.1 e d Hkeys), Emem, Hv. cbn [bind result_monad ret].
      eexists. split; [done|].
      apply (denotes_dict_at _ y (dict_set col.1 x e)); [apply list_lookup_insert_eq; lia|].
      apply Forall2_dict_set; [by intros ? ? [? _]| |].
      * apply Forall2_same_length_lookup. split; [by eapply Forall2_length|].
        intros i e0 kv He0 Hkv.
        destruct (Forall2_lookup_lr _ _ _ _ _ _ Hd He0 Hkv) as [Hk Hden].
        split; [done|]. apply denotes_insert_small; [by eapply denotes_mono|].
        intros w0 Hw0. rewrite <- (denotes_fun _ _ _ _ Hd1 Hw0).
        apply value_size_entry. by eapply list_elem_of_lookup_2.
      * split; [done|]. simpl.
        eapply (denotes_insert_range h1 (length h) (length h1)); [done|lia|done|done].
    + exists h1, w, (Raise ex), e.
      split; [done|]. split; [intros i Hi _; by apply prefix_lookup_lt|].
      split; [done|]. split.
      { eapply owned_concat; [by eapply (owned_prefix h h1 n (length h))|exact Hown1|lia]. }
      split; [done|]. split; [done|].
      intros d Hd. rewrite set_column_run.
      apply (denotes_dict_at h y e d Hy) in Hd. pose proof (Forall2_keys _ _ _ Hd) as Hkeys.
      rewrite <- (dict_mem_keys col.1 e d Hkeys), Emem. cbn [fst snd].
      split; [done|]. unfold map_column.
      by rewrite <- (dict_mem_keys col.1 e d Hkeys), Emem, Hr.
  - exists h, (mkWorld (stdout w ++ [no_such_property col.1]) (files w)), (Ok tt), e.
    split; [done|]. split; [done|]. split; [done|]. split; [done|].
    split; [done|]. split; [done|].
    intros d Hd. rewrite set_column_run.
    pose proof Hd as Hd'. apply (denotes_dict_at h y e d Hy) in Hd'.
    pose proof (Forall2_keys _ _ _ Hd') as Hkeys.
    rewrite <- (dict_mem_keys col.1 e d Hkeys), Emem. cbn [fst snd].
    split; [done|]. by exists d.
Qed.

(** The loop over the columns of a row. *)
Lemma columns_h_ok (n y : nat) (row : list (string * pobject)) :
  forall (h : heap) (w : World) (e : list (string * ref)),
  n <= y -> h !! y = Some (HDict e) -> owned h n (length h) ->
  exists h' w' r e',
    for_each row (set_column_h y) tt h w = Some (h', w', r)
    /\ (forall i, i < n -> h' !! i = h !! i)
    /\ length h <= length h'
    /\ owned h' n (length h')
    /\ h' !! y = Some (HDict e') /\ e'.*1 = e.*1
    /\ forall d, denotes h (RLoc y) (VDict d) ->
       w' = (for_each row set_column d w).1
       /\ match r with
          | Ok _ => exists d', (for_each row set_column d w).2 = Ok d'
                               /\ denotes h' (RLoc y) (VDict d')
          | Raise ex => (for_each row set_column d w).2 = Raise ex
          end.
Proof.
  induction row as [|col row IH]; intros h w e Hn Hy Hown.
  - exists h, w, (Ok tt), e. do 6 (split; [done|]). intros d Hd. split; [done|]. by exists d.
  - cbn [for_each]. rewrite hbind_run.
    destruct (set_column_h_ok n y col h w e Hn Hy Hown)
      as (h1 & w1 & r1 & e1 & -> & Hsame1 & Hlen1 & Hown1 & Hy1 & Hk1 & Href1).
    destruct r1 as [[]|ex].
    + destruct (IH h1 w1 e1 Hn Hy1 Hown1)
        as (h2 & w2 & r2 & e2 & -> & Hsame2 & Hlen2 & Hown2 & Hy2 & Hk2 & Href2).
      exists h2, w2, r2, e2. split; [done|]. split.
      { intros i Hi. rewrite Hsame2 by done. apply Hsame1; [|lia].
        apply lookup_lt_Some in Hy. lia. }
      split; [lia|]. split; [done|]. split; [done|]. split; [congruence|].
      intros d Hd. destruct (Href1 d Hd) as [-> (d1 & Hd1 & Hden1)].
      destruct (Href2 d1 Hden1) as [-> Hr2].
      rewrite bind_run. destruct (set_column d col w) as [w1' r1']. simpl in Hd1. subst r1'.
      done.
    + exists h1, w1, (Raise ex), e1. split; [done|]. split.
      { intros i Hi. apply Hsame1; [|lia]. apply lookup_lt_Some in Hy. lia. }
      do 4 (split; [done|]).
      intros d Hd. destruct (Href1 d Hd) as [-> Hr1].
      rewrite bind_run. destruct (set_column d col w) as [w1' r1']. simpl in Hr1. subst r1'.
      done.
Qed.

(** One row: the template is copied to fresh addresses, the columns
    are set in the copy, and the new stretch of the heap is closed
    under reference. *)
Lemma jsonify_row_h_ok (h0 h : heap) (t : nat) (T : list (string * ref))
    (jsons : list ref) (row : list (string * pobject)) (w : World) :
  heap_wf h0 -> h0 `prefix_of` h -> h0 !! t = Some (HDict T) ->
  exists h' w' r y e,
    jsonify_row_h t jsons row h w = Some (h', w', r)
    /\ h `prefix_of` h'
    /\ length h <= y < length h'
    /\ owned h' (length h) (length h')
    /\ h' !! y = Some (HDict e) /\ e.*1 = T.*1
    /\ match r with Ok js => js = jsons ++ [RLoc y] | Raise _ => True end
    /\ forall Tv, denotes h0 (RLoc t) (VDict Tv) ->
       w' = (for_each row set_column (deepcopy Tv) w).1
       /\ match r with
          | Ok _ => exists d', (for_each row set_column (deepcopy Tv) w).2 = Ok d'
                               /\ denotes h' (RLoc y) (VDict d')
          | Raise ex => (for_each row set_column (deepcopy Tv) w).2 = Raise ex
          end.
Proof.
  intros Hwf Hp0 Ht. unfold jsonify_row_h. rewrite hbind_run.
  destruct (deepcopy_h_ok h0 h w t Hwf Hp0) as (y & m & h1 & -> & Hp1 & Hy & Hown1 & Hmt & Hdone).
  { by eapply lookup_lt_Some. }
  destruct (Hdone t y Hmt) as (o & o' & Ho & Ho' & Hc).
  rewrite Ht in Ho. injection Ho as <-. destruct o' as [|e1]; [done|]. simpl in Hc.
  pose proof (prefix_length _ _ Hp1) as Hlen1.
  destruct (columns_h_ok (length h) y row h1 w e1) as
    (h2 & w2 & r2 & e2 & Hrun & Hsame & Hlen2 & Hown2 & Hy2 & Hk2 & Href); [lia|done|done|].
  rewrite hbind_run, Hrun.
  exists h2, w2, (match r2 with Ok _ => Ok (jsons ++ [RLoc y]) | Raise ex => Raise ex end), y, e2.
  split; [by destruct r2|]. split.
  { apply prefix_of_lookup; [lia|]. intros i Hi. rewrite Hsame by done.
    by apply prefix_lookup_lt. }
  split; [lia|].
  split.
  { intros l o Hl Hlo. apply (Hown2 l o); [lia|done]. }
  split; [done|]. split.
  { rewrite Hk2. symmetry. by eapply Forall2_keys. }
  split; [by destruct r2|].
  intros Tv HTv.
  assert (denotes h1 (RLoc y) (VDict Tv)) as Hden1.
  { eapply (denotes_copy h0 h1 m Hdone); [exact HTv|]. by exists y. }
  destruct (Href Tv Hden1) as [-> Hr]. split; [done|]. by destruct r2.
Qed.

End jsonify_on_heap.

(** ** The stretches of the rows *)

Lemma reach_owned (h : heap) (a b : nat) (r : ref) (l : nat) :
  owned h a b -> reach h r l -> in_range a b r -> a <= l < b.
Proof.
  intros Hown. induction 1 as [l|l o r l' Ho Hr _ IH]; [done|].
  intros Hl. apply IH. pose proof (Hown l o Hl Ho) as Hrefs.
  rewrite Forall_forall in Hrefs. by apply Hrefs.
Qed.

Lemma regions_bounds (h : heap) (lo : nat) (jsons : list ref) (hi : nat) :
  regions h lo jsons hi -> lo <= hi.
Proof.
  revert lo. induction jsons as [|x jsons IH]; intros lo; simpl; [lia|].
  intros (mid & y & _ & Hy & Hmid & _ & Hrest). lia.
Qed.

Lemma regions_prefix (h h' : heap) (lo : nat) (jsons : list ref) (hi : nat) :
  regions h lo jsons hi -> h `prefix_of` h' -> hi <= length h -> regions h' lo jsons hi.
Proof.
  intros Hr Hp Hhi. revert lo Hr. induction jsons as [|x jsons IH]; intros lo; [done|].
  simpl. intros (mid & y & -> & Hy & Hmid & Hown & Hrest).
  exists mid, y. split; [done|]. split; [done|]. split; [done|].
  split; [apply (owned_prefix h h'); [done|done|lia]|]. by apply IH.
Qed.

Lemma regions_snoc (h : heap) (lo mid hi y : nat) (jsons : list ref) :
  regions h lo jsons mid -> owned h mid hi -> mid <= y < hi ->
  regions h lo (jsons ++ [RLoc y]) hi.
Proof.
  revert lo. induction jsons as [|x jsons IH]; intros lo; simpl.
  - intros -> Hown Hy. exists hi, y. split; [done|]. split; [done|]. split; [lia|]. done.
  - intros (mid' & y' & -> & Hy' & Hmid' & Hown' & Hrest) Hown Hy.
    exists mid', y'. split; [done|]. split; [done|]. split; [lia|]. split; [done|].
    by apply IH.
Qed.

(** Whatever is reached from a row lies in the stretches of the rows. *)
Lemma regions_reach (h : heap) (lo : nat) (jsons : list ref) (hi : nat) (i : nat)
    (x : ref) (l : nat) :
  regions h lo jsons hi -> jsons !! i = Some x -> reach h x l -> lo <= l < hi.
Proof.
  revert lo i. induction jsons as [|x0 jsons IH]; intros lo i; [done|].
  simpl. intros (mid & y & -> & Hy & Hmid & Hown & Hrest) Hi Hreach.
  pose proof (regions_bounds _ _ _ _ Hrest). destruct i as [|i].
  - injection Hi as <-. pose proof (reach_owned h lo mid (RLoc y) l Hown Hreach Hy). lia.
  - pose proof (IH mid i Hrest Hi Hreach). lia.
Qed.

(** Two rows reach no address in common. *)
Lemma regions_disjoint (h : heap) (lo : nat) (jsons : list ref) (hi : nat) (i j : nat)
    (x x' : ref) (l : nat) :
  regions h lo jsons hi -> i < j ->
  jsons !! i = Some x -> jsons !! j = Some x' ->
  reach h x l -> reach h x' l -> False.
Proof.
  revert lo i j. induction jsons as [|x0 jsons IH]; intros lo i j; [done|].
  simpl. intros (mid & y & -> & Hy & Hmid & Hown & Hrest) Hij Hi Hj Hr Hr'.
  destruct j as [|j]; [lia|]. destruct i as [|i].
  - injection Hi as <-. pose proof (reach_owned h lo mid (RLoc y) l Hown Hr Hy).
    pose proof (regions_reach h mid jsons hi j x' l Hrest Hj Hr'). lia.
  - apply (IH mid i j Hrest); [lia|done|done|done|done].
Qed.

(** ** The loop over the rows *)

Section rows_on_heap.
Context `{PyLib}.

Lemma row_object_mono (h h' : heap) (T : list (string * ref)) (x : ref) :
  h `prefix_of` h' -> row_object h T x -> row_object h' T x.
Proof.
  intros Hp (y & e & -> & Hy & Hk). exists y, e.
  split; [done|]. split; [by eapply prefix_lookup_Some|done].
Qed.

Lemma rows_h_ok (h0 : heap) (t : nat) (T : list (string * ref))
    (rws : list (list (string * pobject))) :
  heap_wf h0 -> h0 !! t = Some (HDict T) ->
  forall (h : heap) (w : World) (jsons : list ref),
    h0 `prefix_of` h ->
    regions h (length h0) jsons (length h) ->
    Forall (row_object h T) jsons ->
    exists h' w' r,
      for_each rws (jsonify_row_h t) jsons h w = Some (h', w', r)
      /\ h `prefix_of` h'
      /\ match r with
         | Ok js => length js = length jsons + length rws
                    /\ regions h' (length h0) js (length h')
                    /\ Forall (row_object h' T) js
         | Raise _ => True
         end
      /\ forall Tv vjsons,
           denotes h0 (RLoc t) (VDict Tv) -> Forall2 (denotes h) jsons vjsons ->
           w' = (for_each rws (jsonify_row Tv) vjsons w).1
           /\ match r with
              | Ok js => exists vs, (for_each rws (jsonify_row Tv) vjsons w).2 = Ok vs
                                    /\ Forall2 (denotes h') js vs
              | Raise ex => (for_each rws (jsonify_row Tv) vjsons w).2 = Raise ex
              end.
Proof.
  intros Hwf Ht. induction rws as [|row rws IH]; intros h w jsons Hp Hreg Hkeys.
  - exists h, w, (Ok jsons). split; [done|]. split; [done|]. split.
    { split; [simpl; lia|done]. }
    intros Tv vjsons _ Hall. split; [done|]. by exists vjsons.
  - change (for_each (row :: rws) (jsonify_row_h t) jsons h w)
      with ((acc <- jsonify_row_h t jsons row ;; for_each rws (jsonify_row_h t) acc) h w).
    rewrite hbind_run.
    destruct (jsonify_row_h_ok h0 h t T jsons row w Hwf Hp Ht)
      as (h1 & w1 & r1 & y & e & -> & Hp1 & Hy & Hown & Hy1 & Hk & Hr1 & Href).
    pose proof (prefix_length _ _ Hp1) as Hlen1.
    destruct r1 as [js|ex].
    + subst js.
      destruct (IH h1 w1 (jsons ++ [RLoc y])) as (h2 & w2 & r2 & Hrun & Hp2 & Hres & Href2).
      * by etrans.
      * apply (regions_snoc h1 (length h0) (length h) (length h1) y); [|done|done].
        by apply (regions_prefix h h1).
      * apply Forall_app. split.
        -- eapply Forall_impl; [exact Hkeys|]. intros x. by apply row_object_mono.
        -- constructor; [by exists y, e|constructor].
      * exists h2, w2, r2. split; [done|]. split; [by etrans|]. split.
        { destruct r2 as [js|]; [|done]. destruct Hres as (Hlen & Hreg2 & Hk2).
          rewrite length_app in Hlen. simpl in *. split; [lia|done]. }
        intros Tv vjsons HTv Hall.
        destruct (Href Tv HTv) as [Hw1 (d' & Hd' & Hden)].
        assert (for_each (row :: rws) (jsonify_row Tv) vjsons w
                = for_each rws (jsonify_row Tv) (vjsons ++ [VDict d']) w1) as ->.
        { cbn [for_each]. rewrite bind_run. unfold jsonify_row at 1. rewrite bind_run.
          destruct (for_each row set_column (deepcopy Tv) w) as [w' r'].
          simpl in Hw1, Hd'. by subst w1 r'. }
        apply Href2; [done|]. apply Forall2_app.
        -- eapply Forall2_impl; [exact Hall|]. intros r v. by apply denotes_mono.
        -- constructor; [done|constructor].
    + exists h1, w1, (Raise ex). split; [done|]. split; [done|]. split; [done|].
      intros Tv vjsons HTv Hall. destruct (Href Tv HTv) as [Hw1 Hr].
      assert (for_each (row :: rws) (jsonify_row Tv) vjsons w = (w1, Raise ex)) as ->.
      { cbn [for_each]. rewrite bind_run. unfold jsonify_row at 1. rewrite bind_run.
        destruct (for_each row set_column (deepcopy Tv) w) as [w' r'].
        simpl in Hw1, Hr. by subst w1 r'. }
      done.
Qed.

End rows_on_heap.

(** ** The row mapper and its template *)

(** C10. [jsonify] never mutates the template it is given: whatever
    the dataframe and the template, when [jsonify] returns or raises
    every object of the heap it was entered with, the template and all
    it refers to among them, is unchanged at its address; and when it
    returns, the list has one dictionary per row, with the keys of the
    template, everything reached from an element lies at an address
    allocated during the call (so none is shared with the template),
    and no address is reached from two elements.  The run is the run of
    the value-level [jsonify]: same output, same exception, and every
    element stands for the value computed there, the deep copy of the
    template with the columns of the row set. *)
Theorem jsonify_h_fresh `{PyLib} (dataframe : DataFrame) (json_part : nat)
    (T : list (string * ref)) (h : heap) (w : World) :
  heap_wf h -> h !! json_part = Some (HDict T) ->
  exists h' w' r,
    jsonify_h dataframe json_part h w = Some (h', w', r)
    /\ preserves h h'
    /\ match r with
       | Ok jsons =>
           length jsons = length (rows dataframe)
           /\ (forall i x, jsons !! i = Some x -> row_object h' T x)
           /\ (forall i x l, jsons !! i = Some x -> reach h' x l ->
               length h <= l < length h')
           /\ (forall i j x x' l, i <> j -> jsons !! i = Some x -> jsons !! j = Some x' ->
               reach h' x l -> reach h' x' l -> False)
       | Raise _ => True
       end
    /\ forall Tv, denotes h (RLoc json_part) (VDict Tv) ->
       w' = (jsonify dataframe Tv w).1
       /\ match r with
          | Ok jsons => exists vs, (jsonify dataframe Tv w).2 = Ok vs
                                   /\ Forall2 (denotes h') jsons vs
          | Raise ex => (jsonify dataframe Tv w).2 = Raise ex
          end.
Proof.
  intros Hwf Ht. unfold jsonify_h, jsonify, preserves.
  destruct (rows_h_ok h json_part T (iterrows dataframe) Hwf Ht h w [])
    as (h' & w' & r & Hrun & Hp & Hres & Href); [done|done|constructor|].
  exists h', w', r. split; [done|]. split; [done|]. split.
  - destruct r as [jsons|]; [|done]. destruct Hres as (Hlen & Hreg & Hk).
    split; [by rewrite Hlen; unfold iterrows; rewrite length_fmap|].
    split; [intros i x Hi; by eapply Forall_lookup_1|].
    split; [intros i x l Hi Hr; by eapply regions_reach|].
    intros i j x x' l Hij Hi Hj Hr Hr'.
    destruct (decide (i < j)) as [Hlt|Hge].
    + by apply (regions_disjoint h' (length h) jsons (length h') i j x x' l).
    + apply (regions_disjoint h' (length h) jsons (length h') j i x' x l); [done|lia|done..].
  - intros Tv HTv. apply Href; [done|constructor].
Qed.

Lemma template_heap_wf : heap_wf template_heap.
Proof.
  split.
  - repeat constructor; simpl; lia.
  - repeat constructor.
    + rewrite list_elem_of_singleton. discriminate.
    + apply not_elem_of_nil.
Qed.

Lemma jsonify_h_fresh_witness :
  heap_wf template_heap
  /\ template_heap !! 1 = Some (HDict template_entries)
  /\ exists h' w' r,
       @jsonify_h reference_lib two_rows 1 template_heap empty_world = Some (h', w', r)
       /\ preserves template_heap h'.
Proof.
  split; [exact template_heap_wf|]. split; [reflexivity|].
  destruct (@jsonify_h_fresh reference_lib two_rows 1 template_entries template_heap
              empty_world template_heap_wf eq_refl) as (h' & w' & r & Hrun & Hp & _).
  exists h', w', r. split; [exact Hrun|exact Hp].
Defined.

(** The template of two entries and a frame of two rows: each row gets
    its own dictionary and its own copy of the nested list. *)
Example jsonify_h_two_rows :
  @jsonify_h reference_lib two_rows 1 template_heap empty_world
  = Some ([HList [RStr "x"]; HDict template_entries;
           HDict [("Code", RStr "A"); ("Tags", RLoc 3)]; HList [RStr "x"];
           HDict [("Code", RStr "B"); ("Tags", RLoc 5)]; HList [RStr "x"]],
          empty_world, Ok [RLoc 2; RLoc 4]).
Proof. vm_compute. reflexivity. Qed.

(* ================================================================== *)
(** * Part V: further properties of the converter                      *)
(* ================================================================== *)

(** ** clean_nones *)

Lemma clean_nones_null_free (v : value) : null_free v = true -> clean_nones v = v.
Proof.
  induction v as [| | | |l IH|d IH] using value_ind; try done.
  - intros Hl. rewrite clean_nones_list. f_equal.
    induction IH as [|x l Hx _ IHl]; [done|].
    cbn [null_free forallb] in Hl. apply andb_prop in Hl as [Hx' Hl].
    apply andb_prop in Hx' as [Hn Hf]. apply negb_true_iff in Hn.
    rewrite filter_cons_True by done. rewrite fmap_cons, (Hx Hf). f_equal. by apply IHl.
  - intros Hd. rewrite clean_nones_dict. f_equal.
    induction IH as [|[k x] d Hx _ IHd]; [done|].
    cbn [null_free forallb] in Hd. apply andb_prop in Hd as [Hx' Hd].
    apply andb_prop in Hx' as [Hn Hf]. apply negb_true_iff in Hn. simpl in Hn, Hf, Hx.
    rewrite filter_cons_True by done. rewrite fmap_cons. unfold clean_item at 1. simpl.
    rewrite (Hx Hf). f_equal. by apply IHd.
Qed.

(** X1.  The values [clean_nones] returns unchanged are exactly those
    without a [None] inside a list or a dictionary: pruning is the
    identity on a tree that has nothing to prune, and changes every
    other tree. *)
Theorem clean_nones_fixpoint (v : value) :
  clean_nones v = v <-> null_free v = true.
Proof.
  split.
  - intros Hv. rewrite <- Hv. apply null_free_clean_nones.
  - apply clean_nones_null_free.
Qed.

Lemma cleaned_keys (d : dict) (k : string) :
  k ∈ (clean_item <$> filter (fun kv => is_none kv.2 = false) d).*1 -> k ∈ d.*1.
Proof.
  induction d as [|[k' x] d IH]; [done|].
  destruct (is_none x) eqn:Hx.
  - rewrite filter_cons_False by (simpl; congruence). rewrite fmap_cons.
    intros Hk. apply list_elem_of_further. by apply IH.
  - rewrite filter_cons_True by done. rewrite !fmap_cons. simpl.
    rewrite !elem_of_cons. intros [->|Hk]; [by left|right; by apply IH].
Qed.

Lemma cleaned_wf (d : dict) :
  dict_wf d -> dict_wf (clean_item <$> filter (fun kv => is_none kv.2 = false) d).
Proof.
  unfold dict_wf. induction d as [|[k' x] d IH]; [done|].
  rewrite fmap_cons. simpl. intros [Hk Hd]%NoDup_cons.
  destruct (is_none x) eqn:Hx.
  - rewrite filter_cons_False by (simpl; congruence). by apply IH.
  - rewrite filter_cons_True by done. rewrite !fmap_cons. simpl.
    apply NoDup_cons. split; [|by apply IH]. intros Hin. by apply Hk, cleaned_keys.
Qed.

Lemma cleaned_get (d : dict) (k : string) :
  dict_wf d ->
  dict_get k (clean_item <$> filter (fun kv => is_none kv.2 = false) d)
  = match dict_get k d with
    | Some v => if is_none v then None else Some (clean_nones v)
    | None => None
    end.
Proof.
  unfold dict_wf. induction d as [|[k' x] d IH]; [done|].
  rewrite fmap_cons. simpl. intros [Hk Hd]%NoDup_cons.
  destruct (String.eqb_spec k k') as [->|Hne].
  - destruct (is_none x) eqn:Hx.
    + rewrite filter_cons_False by (simpl; congruence).
      apply dict_get_None, dict_mem_false. intros Hin. by apply Hk, cleaned_keys.
    + rewrite filter_cons_True by done. rewrite fmap_cons. simpl.
      by rewrite String.eqb_refl.
  - destruct (is_none x) eqn:Hx.
    + rewrite filter_cons_False by (simpl; congruence). by apply IH.
    + rewrite filter_cons_True by done. rewrite fmap_cons. simpl.
      apply String.eqb_neq in Hne. rewrite Hne. by apply IH.
Qed.

(** X2.  Looking a key up after pruning: in a dictionary (its keys are
    distinct) the key is there exactly when it was there with a value
    other than [None], and what it holds is the pruned value; the keys
    stay distinct. *)
Theorem clean_nones_getitem (d : dict) (k : string) :
  dict_wf d ->
  exists d' : dict,
    clean_nones (VDict d) = VDict d'
    /\ dict_wf d'
    /\ getitem (VDict d') k
       = match dict_get k d with
         | Some v => if is_none v then Raise KeyError else Ok (clean_nones v)
         | None => Raise KeyError
         end.
Proof.
  intros Hd. eexists. split; [apply clean_nones_dict|]. split; [by apply cleaned_wf|].
  cbn [getitem]. rewrite cleaned_get by done.
  destruct (dict_get k d) as [v|]; [|done]. by destruct (is_none v).
Qed.

Lemma clean_nones_getitem_witness :
  dict_wf [("A", VNone); ("B", VList [VInt 1; VNone])]
  /\ exists d' : dict,
      clean_nones (VDict [("A", VNone); ("B", VList [VInt 1; VNone])]) = VDict d'
      /\ getitem (VDict d') "A" = Raise KeyError
      /\ getitem (VDict d') "B" = Ok (VList [VInt 1]).
Proof.
  assert (dict_wf [("A", VNone); ("B", VList [VInt 1; VNone])]) as Hwf.
  { unfold dict_wf. apply (bool_decide_unpack _). reflexivity. }
  split; [exact Hwf|].
  destruct (clean_nones_getitem [("A", VNone); ("B", VList [VInt 1; VNone])] "A" Hwf)
    as (d' & Hd' & _ & HA).
  exists d'. split; [exact Hd'|]. split; [exact HA|].
  injection Hd' as <-. reflexivity.
Defined.

(** ** jsonify: the rows and the columns *)

Section jsonify_rows.
Context `{PyLib}.

Lemma map_rows_cons (T : dict) (row : list (string * pobject))
    (rws : list (list (string * pobject))) (jsons : list value) :
  map_rows T (row :: rws) jsons
  = (d <- map_row T row ;; map_rows T rws (jsons ++ [VDict d])).
Proof. unfold map_rows. cbn [for_each]. by destruct (map_row T row). Qed.

Lemma map_rows_Ok (T : dict) (rws : list (list (string * pobject))) :
  forall jsons out,
  map_rows T rws jsons = Ok out ->
  exists news,
    out = jsons ++ news
    /\ Forall2 (fun row o => exists d, map_row T row = Ok d /\ o = VDict d) rws news.
Proof.
  induction rws as [|row rws IH]; intros jsons out.
  - intros [= <-]. exists []. by rewrite app_nil_r.
  - rewrite map_rows_cons. destruct (map_row T row) as [d|e] eqn:E; [|done].
    cbn [bind result_monad]. intros (news & -> & Hall)%IH.
    exists (VDict d :: news). rewrite <- app_assoc. split; [done|].
    constructor; [by exists d|done].
Qed.

Lemma map_rows_Raise (T : dict) (rws : list (list (string * pobject))) :
  forall jsons e,
  map_rows T rws jsons = Raise e -> exists row, row ∈ rws /\ map_row T row = Raise e.
Proof.
  induction rws as [|row rws IH]; intros jsons e; [done|].
  rewrite map_rows_cons. destruct (map_row T row) as [d|e'] eqn:E; cbn [bind result_monad].
  - intros (row' & Hin & Hrow)%IH. exists row'. split; [by right|done].
  - intros [= ->]. exists row. split; [by left|done].
Qed.

(** The accumulator only collects: the rows are mapped as they are
    from the empty list. *)
Lemma map_rows_acc (T : dict) (rws : list (list (string * pobject))) :
  forall jsons,
  map_rows T rws jsons = (news <- map_rows T rws [] ;; ret (jsons ++ news)).
Proof.
  induction rws as [|row rws IH]; intros jsons.
  - cbn. by rewrite app_nil_r.
  - rewrite !map_rows_cons. destruct (map_row T row) as [d|e]; [|done].
    cbn [bind result_monad]. rewrite (IH (jsons ++ [VDict d])), (IH ([] ++ [VDict d])).
    destruct (map_rows T rws []) as [news|]; [|done].
    cbn. by rewrite <- app_assoc.
Qed.

Lemma map_rows_app (T : dict) (rws1 rws2 : list (list (string * pobject)))
    (jsons : list value) :
  map_rows T (rws1 ++ rws2) jsons = (a <- map_rows T rws1 jsons ;; map_rows T rws2 a).
Proof.
  revert jsons. induction rws1 as [|row rws1 IH]; intros jsons; [done|].
  rewrite <- app_comm_cons, !map_rows_cons.
  destruct (map_row T row) as [d|e]; [|done]. cbn [bind result_monad]. apply IH.
Qed.

Lemma map_columns_keys (row : list (string * pobject)) :
  forall d d', for_each row map_column d = Ok d' -> d'.*1 = d.*1.
Proof.
  induction row as [|col row IH]; intros d d'.
  - by intros [= <-].
  - cbn [for_each]. intros (d1 & H1 & Hrest)%bind_Ok.
    rewrite (IH d1 d' Hrest). by eapply map_column_keys.
Qed.

Lemma map_columns_other (row : list (string * pobject)) :
  forall d d' k,
  for_each row map_column d = Ok d' -> k ∉ row.*1 -> dict_get k d' = dict_get k d.
Proof.
  induction row as [|[c x] row IH]; intros d d' k.
  - by intros [= <-].
  - cbn [for_each]. intros (d1 & H1 & Hrest)%bind_Ok Hk.
    rewrite fmap_cons, not_elem_of_cons in Hk. destruct Hk as [Hne Hk]. simpl in Hne.
    rewrite (IH d1 d' k Hrest Hk).
    unfold map_column in H1. simpl in H1. destruct (dict_mem c d).
    + apply bind_Ok in H1 as (v & _ & [= <-]). apply dict_get_set_ne. congruence.
    + by injection H1 as <-.
Qed.

(** With distinct labels, a recognised column holds its converted
    cell at the end of the row. *)
Lemma map_columns_cell (row : list (string * pobject)) :
  forall d d' c x,
  NoDup row.*1 -> (c, x) ∈ row -> dict_mem c d = true ->
  for_each row map_column d = Ok d' ->
  exists v, convert x = Ok v /\ dict_get c d' = Some v.
Proof.
  induction row as [|[c0 x0] row IH]; intros d d' c x Hnd Hin Hmem Hrun.
  { by apply elem_of_nil in Hin. }
  rewrite fmap_cons in Hnd. apply NoDup_cons in Hnd as [Hc0 Hnd]. simpl in Hc0.
  cbn [for_each] in Hrun. apply bind_Ok in Hrun as (d1 & H1 & Hrest).
  apply elem_of_cons in Hin as [[= -> ->]|Hin].
  - unfold map_column in H1. simpl in H1. rewrite Hmem in H1.
    apply bind_Ok in H1 as (v & Hv & [= <-]). exists v. split; [done|].
    rewrite (map_columns_other row _ d' c0 Hrest Hc0). apply dict_get_set_eq.
  - apply (IH d1 d' c x Hnd Hin); [|done].
    rewrite (dict_mem_keys c d1 d); [done|]. by eapply map_column_keys.
Qed.

Lemma map_columns_converted (T : dict) (row : list (string * pobject)) :
  forall d d' c x,
  d.*1 = T.*1 -> for_each row map_column d = Ok d' ->
  (c, x) ∈ row -> dict_mem c T = true -> is_ok (convert x) = true.
Proof.
  induction row as [|[c0 x0] row IH]; intros d d' c x Hk Hrun Hin Hmem.
  { by apply elem_of_nil in Hin. }
  cbn [for_each] in Hrun. apply bind_Ok in Hrun as (d1 & H1 & Hrest).
  apply elem_of_cons in Hin as [[= -> ->]|Hin].
  - unfold map_column in H1. simpl in H1.
    rewrite (dict_mem_keys c0 d T Hk), Hmem in H1.
    apply bind_Ok in H1 as (v & -> & _). done.
  - apply (IH d1 d' c x); [by eapply map_column_keys|done..].
Qed.

(** The one exception of a row is that of [literal_eval], on a string
    cell with both brackets in a recognised column. *)
Lemma map_columns_Raise (T : dict) (row : list (string * pobject)) :
  forall d e,
  d.*1 = T.*1 -> for_each row map_column d = Raise e ->
  exists c s,
    (c, PStr s) ∈ row /\ dict_mem c T = true
    /\ str_in "[" s && str_in "]" s = true /\ literal_eval s = Raise e.
Proof.
  induction row as [|[c x] row IH]; intros d e Hk; [done|].
  cbn [for_each]. destruct (map_column d (c, x)) as [d1|e1] eqn:E1; cbn [bind result_monad].
  - intros Hrest. destruct (IH d1 e) as (c' & s & Hin & Hs); [by eapply map_column_keys|done|].
    exists c', s. split; [by right|done].
  - intros [= ->]. unfold map_column in E1. simpl in E1.
    destruct (dict_mem c d) eqn:Hm; [|done].
    destruct x as [| | |s|]; simpl in E1; try done.
    destruct (str_in "[" s && str_in "]" s) eqn:Hb; [|done].
    destruct (literal_eval s) as [[l|]|e'] eqn:El; try done. injection E1 as ->.
    exists c, s. split; [by left|]. split; [by rewrite <- (dict_mem_keys c d T Hk)|done].
Qed.

Lemma zip_fst_elem {A B} (l : list A) (k : list B) (x : A) :
  x ∈ (zip l k).*1 -> x ∈ l.
Proof.
  revert k. induction l as [|a l IH]; intros [|b k]; simpl; try by intros ?%elem_of_nil.
  rewrite !elem_of_cons. intros [->|Hx]; [by left|right; by eapply IH].
Qed.

Lemma zip_fst_NoDup {A B} (l : list A) (k : list B) :
  NoDup l -> NoDup (zip l k).*1.
Proof.
  revert k. induction l as [|a l IH]; intros [|b k] Hnd; simpl; try by constructor.
  apply NoDup_cons in Hnd as [Ha Hnd]. constructor; [|by apply IH].
  intros Hin. by apply Ha, (zip_fst_elem l k).
Qed.

Lemma iterrows_lookup (dataframe : DataFrame) (i : nat) (r : list cell) :
  rows dataframe !! i = Some r ->
  iterrows dataframe !! i = Some (zip (columns dataframe) (replace_nan <$> r)).
Proof. intros Hr. unfold iterrows. by rewrite list_lookup_fmap, Hr. Qed.

Lemma iterrows_elem (dataframe : DataFrame) (row : list (string * pobject)) :
  row ∈ iterrows dataframe ->
  exists r, r ∈ rows dataframe /\ row = zip (columns dataframe) (replace_nan <$> r).
Proof. unfold iterrows. intros (r & -> & Hr)%list_elem_of_fmap. by exists r. Qed.

End jsonify_rows.

(** X3.  A key of the template that is the label of no column keeps
    the value of the template in every object [jsonify] returns (and a
    key that is neither stays absent). *)
Theorem jsonify_template_defaults `{PyLib} (dataframe : DataFrame) (json_part : dict)
    (w : World) (jsons : list value) (k : string) :
  (jsonify dataframe json_part w).2 = Ok jsons ->
  k ∉ columns dataframe ->
  Forall (fun o => getitem o k = getitem (VDict json_part) k) jsons.
Proof.
  rewrite jsonify_reading. intros (news & -> & Hall)%map_rows_Ok Hk.
  rewrite app_nil_l. apply Forall_forall. intros o [i Hi]%list_elem_of_lookup.
  destruct (Forall2_lookup_r _ _ _ _ _ Hall Hi) as (row & Hrow & d & Hd & ->).
  apply list_elem_of_lookup_2, iterrows_elem in Hrow as (r & _ & ->).
  cbn [getitem]. unfold map_row, deepcopy in Hd.
  rewrite (map_columns_other _ _ _ k Hd); [done|].
  intros Hin. by apply Hk, (zip_fst_elem _ _ _ Hin).
Qed.

Lemma jsonify_template_defaults_witness :
  exists d : dict,
    (@jsonify reference_lib (mkDataFrame ["Code"] [[CStr "A1"]])
       [("Code", VNone); ("Status", VStr "Active")] empty_world).2 = Ok [VDict d]
    /\ getitem (VDict d) "Status" = Ok (VStr "Active").
Proof.
  eexists. split; [reflexivity|].
  assert ("Status" ∉ columns (mkDataFrame ["Code"] [[CStr "A1"]])) as Hk.
  { simpl. rewrite list_elem_of_singleton. discriminate. }
  pose proof (@jsonify_template_defaults reference_lib (mkDataFrame ["Code"] [[CStr "A1"]])
                [("Code", VNone); ("Status", VStr "Active")] empty_world _ "Status"
                eq_refl Hk) as Hall.
  apply Forall_cons in Hall as [Hd _]. exact Hd.
Defined.

(** X4.  Where a cell ends up: when the labels of the frame are
    distinct, the object of row [i] has under the label of a recognised
    column [j] what lines 67-74 store for the cell of that row and
    column, and nothing written for another column or another row
    takes its place.  Stated for a cell that is not blank, and for a
    blank cell in a row that has a cell that is neither blank nor a
    timestamp. *)
Theorem jsonify_cell `{PyLib} (dataframe : DataFrame) (json_part : dict) (w : World)
    (jsons : list value) (i j : nat) (r : list cell) (c : string) (x : cell) :
  (jsonify dataframe json_part w).2 = Ok jsons ->
  NoDup (columns dataframe) ->
  rows dataframe !! i = Some r ->
  columns dataframe !! j = Some c ->
  r !! j = Some x ->
  dict_mem c json_part = true ->
  (x = CNaN -> exists y, y ∈ r /\ y <> CNaN /\ forall t, y <> CTimestamp t) ->
  exists (d : dict) (v : value),
    jsons !! i = Some (VDict d)
    /\ convert (replace_nan x) = Ok v
    /\ dict_get c d = Some v.
Proof.
  rewrite jsonify_reading. intros (news & -> & Hall)%map_rows_Ok Hnd Hr Hc Hx Hmem _.
  rewrite app_nil_l. apply iterrows_lookup in Hr.
  destruct (Forall2_lookup_l _ _ _ _ _ Hall Hr) as (o & Ho & d & Hd & ->).
  unfold map_row, deepcopy in Hd.
  destruct (map_columns_cell (zip (columns dataframe) (replace_nan <$> r))
              json_part d c (replace_nan x)) as (v & Hv & Hget); try done.
  - by apply zip_fst_NoDup.
  - apply (list_elem_of_lookup_2 _ j). apply lookup_zip_with_Some.
    exists c, (replace_nan x). split; [done|]. split; [done|].
    by rewrite list_lookup_fmap, Hx.
  - by exists d, v.
Qed.

Lemma jsonify_cell_witness :
  exists d : dict,
    (@jsonify reference_lib (mkDataFrame ["Code"; "Name"] [[CStr "A1"; CNaN]])
       [("Code", VNone); ("Name", VStr "unnamed")] empty_world).2 = Ok [VDict d]
    /\ dict_get "Name" d = Some VNone.
Proof.
  assert (NoDup (columns (mkDataFrame ["Code"; "Name"] [[CStr "A1"; CNaN]]))) as Hnd.
  { apply (bool_decide_unpack _). reflexivity. }
  destruct (@jsonify_cell reference_lib (mkDataFrame ["Code"; "Name"] [[CStr "A1"; CNaN]])
              [("Code", VNone); ("Name", VStr "unnamed")] empty_world _ 0 1
              [CStr "A1"; CNaN] "Name" CNaN eq_refl Hnd eq_refl eq_refl eq_refl eq_refl)
    as (d & v & Hd & Hv & Hget).
  { intros _. exists (CStr "A1"). split; [by left|]. split; discriminate. }
  exists d. injection Hd as <-. injection Hv as <-. split; [reflexivity|exact Hget].
Defined.

(** X5.  The only exception of [jsonify] is that of [literal_eval]: it
    raises what [literal_eval] raises on a string cell that holds both
    square brackets, in a column the template recognises; and it
    returns exactly when [literal_eval] accepts every such cell. *)
Theorem jsonify_raises_literal `{PyLib} (dataframe : DataFrame) (json_part : dict)
    (w : World) :
  (forall e, (jsonify dataframe json_part w).2 = Raise e ->
     exists row c s,
       row ∈ iterrows dataframe /\ (c, PStr s) ∈ row /\ dict_mem c json_part = true
       /\ str_in "[" s && str_in "]" s = true /\ literal_eval s = Raise e)
  /\ (is_ok (jsonify dataframe json_part w).2 = true <->
      forall row c s,
        row ∈ iterrows dataframe -> (c, PStr s) ∈ row -> dict_mem c json_part = true ->
        str_in "[" s && str_in "]" s = true -> is_ok (literal_eval s) = true).
Proof.
  rewrite jsonify_reading.
  assert (forall e, map_rows json_part (iterrows dataframe) [] = Raise e ->
          exists row c s,
            row ∈ iterrows dataframe /\ (c, PStr s) ∈ row /\ dict_mem c json_part = true
            /\ str_in "[" s && str_in "]" s = true /\ literal_eval s = Raise e) as Hraise.
  { intros e (row & Hrow & Hr)%map_rows_Raise.
    apply (map_columns_Raise json_part) in Hr as (c & s & Hs); [|done].
    by exists row, c, s. }
  split; [exact Hraise|]. split.
  - destruct (map_rows json_part (iterrows dataframe) []) as [out|] eqn:E; [|done].
    intros _ row c s Hrow Hin Hmem Hb.
    apply map_rows_Ok in E as (news & _ & Hall).
    apply list_elem_of_lookup in Hrow as [i Hi].
    destruct (Forall2_lookup_l _ _ _ _ _ Hall Hi) as (o & _ & d & Hd & _).
    pose proof (map_columns_converted json_part row _ d c (PStr s) eq_refl Hd Hin Hmem) as Hc.
    simpl in Hc. rewrite Hb in Hc. by destruct (literal_eval s).
  - intros Hall. destruct (map_rows json_part (iterrows dataframe) []) as [out|e] eqn:E; [done|].
    destruct (Hraise e eq_refl) as (row & c & s & Hrow & Hin & Hmem & Hb & He).
    specialize (Hall row c s Hrow Hin Hmem Hb). by rewrite He in Hall.
Qed.

(** X6.  The rows are mapped one by one and share no state: the result
    for a frame is the result for its first rows followed by the result
    for the rest, and the first exception is the one raised. *)
Theorem jsonify_rows_compose `{PyLib} (cols : list string) (rows1 rows2 : list (list cell))
    (json_part : dict) (w w1 w2 : World) :
  (jsonify (mkDataFrame cols (rows1 ++ rows2)) json_part w).2
  = (a <- (jsonify (mkDataFrame cols rows1) json_part w1).2 ;;
     b <- (jsonify (mkDataFrame cols rows2) json_part w2).2 ;;
     ret (a ++ b)).
Proof.
  rewrite !jsonify_reading. unfold iterrows. simpl. rewrite fmap_app, map_rows_app.
  destruct (map_rows json_part _ []) as [a|] eqn:E; [|done].
  cbn [bind result_monad]. apply map_rows_acc.
Qed.

Lemma diagnostics_row_length {A} (T : dict) (f : A -> pobject) (cols : list string)
    (cells : list A) :
  length cells = length cols ->
  length (diagnostics_row T (zip cols (f <$> cells)))
  = length (filter (fun c => dict_mem c T = false) cols).
Proof.
  revert cells. induction cols as [|c cols IH]; intros [|x cells] Hlen; try done.
  unfold diagnostics_row. cbn [fmap list_fmap zip zip_with mbind list_bind].
  fold (diagnostics_row T (zip cols (f <$> cells))). simpl.
  rewrite length_app, IH by (simpl in Hlen; lia).
  destruct (dict_mem c T) eqn:E.
  - by rewrite filter_cons_False by congruence.
  - by rewrite filter_cons_True by done.
Qed.

(** X7.  What [jsonify] prints when it returns: for a frame whose rows
    have one cell per column, one line for every row and every column
    the template does not recognise; nothing when every column is
    recognised or the frame has no rows. *)
Theorem jsonify_diagnostics_count `{PyLib} (dataframe : DataFrame) (json_part : dict)
    (w : World) (jsons : list value) :
  Forall (fun r => length r = length (columns dataframe)) (rows dataframe) ->
  (jsonify dataframe json_part w).2 = Ok jsons ->
  length (stdout (jsonify dataframe json_part w).1)
  = length (stdout w)
    + length (rows dataframe)
      * length (filter (fun c => dict_mem c json_part = false) (columns dataframe)).
Proof.
  intros Hrect Hok. unfold jsonify in *.
  destruct (rows_run json_part (iterrows dataframe) [] w) as (D & Hw & _ & Hr & Hout).
  rewrite Hw. rewrite Hr in Hok. rewrite Hok in Hout.
  destruct Hout as (news & _ & _ & _ & ->). simpl. rewrite length_app. f_equal.
  unfold iterrows. induction Hrect as [|r rws Hr' _ IH]; [done|].
  rewrite fmap_cons. cbn [mbind list_bind]. rewrite length_app. simpl.
  f_equal; [by apply diagnostics_row_length|exact IH].
Qed.

Lemma jsonify_diagnostics_count_witness :
  length (stdout (@jsonify reference_lib
                    (mkDataFrame ["Code"; "Colour"] [[CStr "A1"; CStr "red"];
                                                     [CStr "A2"; CStr "blue"]])
                    [("Code", VNone)] empty_world).1)
  = 2.
Proof.
  assert (Forall (fun r => length r = 2) [[CStr "A1"; CStr "red"]; [CStr "A2"; CStr "blue"]])
    as Hrect by (repeat constructor).
  exact (@jsonify_diagnostics_count reference_lib
           (mkDataFrame ["Code"; "Colour"] [[CStr "A1"; CStr "red"]; [CStr "A2"; CStr "blue"]])
           [("Code", VNone)] empty_world _ Hrect eq_refl).
Defined.

(** ** excel2bsdd: the allowed values *)

Lemma link_value_no_cls (B : dict) (prop_val : value) :
  dict_get "Classifications" B = Some (VList []) ->
  link_value (VDict B) prop_val
  = link_row origin_value "Properties" "AllowedValues" (VDict B) prop_val.
Proof.
  intros Hc. unfold link_value, link_row.
  destruct (getitem prop_val origin_value) as [related|e]; [|done]. cbn [bind result_monad].
  destruct (pop prop_val origin_value) as [pv|e]; [|done]. cbn [bind result_monad].
  destruct (link_child "Properties" "AllowedValues" (VDict B) related pv) as [b1|e] eqn:E;
    [|done].
  cbn [bind result_monad].
  apply link_child_Ok in E as (B0 & props & i & d & kids & [= <-] & HP & _ & _ & _ & ->).
  simpl. rewrite dict_get_set_ne, Hc by done. simpl. do 2 f_equal.
  apply dict_set_same. by rewrite dict_get_set_ne.
Qed.

Lemma link_values_no_cls (prop_vals : list value) :
  forall B : dict,
  dict_get "Classifications" B = Some (VList []) ->
  for_each prop_vals link_value (VDict B)
  = link_rows origin_value "Properties" "AllowedValues" prop_vals (VDict B).
Proof.
  unfold link_rows. induction prop_vals as [|pv pvs IH]; intros B Hc; [done|].
  cbn [for_each]. rewrite link_value_no_cls by done.
  destruct (link_row origin_value "Properties" "AllowedValues" (VDict B) pv) as [b1|e] eqn:E;
    [|done].
  cbn [bind result_monad].
  apply link_row_Ok in E
    as (B0 & cd & related & parents & i & d & kids & [= <-] & _ & _ & _ & _ & _ & _ & ->).
  apply IH. by rewrite dict_get_set_ne.
Qed.

(** X8.  Lines 122-128 when there is no classification: the loop over
    the classifications has nothing to go through, and the allowed
    values are linked to the properties exactly as the other children
    are to their parents, by [link_rows], exceptions included. *)
Theorem allowed_values_without_classifications (B : dict) (prop_vals : list value) :
  dict_get "Classifications" B = Some (VList []) ->
  for_each prop_vals link_value (VDict B)
  = link_rows origin_value "Properties" "AllowedValues" prop_vals (VDict B).
Proof. intros Hc. by apply link_values_no_cls. Qed.

Lemma allowed_values_without_classifications_witness :
  for_each [VDict [(origin_value, VStr "P1"); ("Code", VStr "red")]] link_value
    (VDict [("Classifications", VList []);
            ("Properties", VList [VDict [("Code", VStr "P1"); ("AllowedValues", VList [])]])])
  = Ok (VDict [("Classifications", VList []);
               ("Properties",
                VList [VDict [("Code", VStr "P1");
                              ("AllowedValues", VList [VDict [("Code", VStr "red")]])]])]).
Proof.
  etrans; [apply allowed_values_without_classifications; reflexivity|].
  vm_compute. reflexivity.
Defined.

(** ** excel2bsdd: the top-level lists *)

Lemma same_fields_refl (p : value) : same_fields p p.
Proof. by intros k _. Qed.

Lemma same_fields_trans (p q r : value) :
  same_fields p q -> same_fields q r -> same_fields p r.
Proof. intros Hpq Hqr k Hk. by rewrite (Hqr k Hk), (Hpq k Hk). Qed.

(** One pass of the linker, parent by parent. *)
Lemma link_rows_fields (okey P L : string) (children : list value) (B : dict)
    (parents : list value) (bsdd' : value) :
  L <> "Code" -> L ∈ child_lists ->
  dict_get P B = Some (VList parents) ->
  link_rows okey P L children (VDict B) = Ok bsdd' ->
  exists parents',
    bsdd' = VDict (dict_set P (VList parents') B)
    /\ Forall2 (fun p p' => same_fields p p' /\ (is_dict p -> is_dict p')) parents parents'.
Proof.
  intros HL HLin HP Hrun.
  destruct (link_rows_Ok okey P L children HL B parents bsdd' HP Hrun)
    as (parents' & -> & Hlen & _ & Hall).
  exists parents'. split; [done|]. apply Forall2_same_length_lookup_2; [done|].
  intros i p p' Hp Hp'. destruct (Hall i p Hp) as (p'' & Hp'' & Hk & _ & _ & Hd).
  rewrite Hp' in Hp''. injection Hp'' as <-. split.
  - intros k Hk'. apply Hk. intros ->. by apply Hk'.
  - intros [d ->]. by apply (Hd d).
Qed.

(** The loop over the allowed values returns only when it is the pass
    of the linker over the properties. *)
Lemma link_values_pass (prop_vals cls : list value) (B : dict) (bsdd' : value) :
  dict_get "Classifications" B = Some (VList cls) ->
  Forall is_dict cls ->
  for_each prop_vals link_value (VDict B) = Ok bsdd' ->
  link_rows origin_value "Properties" "AllowedValues" prop_vals (VDict B) = Ok bsdd'.
Proof.
  intros Hc Hcls Hrun. destruct prop_vals as [|pv pvs]; [done|].
  destruct cls as [|c rest]; [by rewrite <- link_values_no_cls|].
  apply Forall_cons in Hcls as [[dc ->] _].
  destruct (link_value_raises B pv dc rest Hc) as [e He].
  cbn [for_each] in Hrun. by rewrite He in Hrun.
Qed.

Section top_level.
Context `{PyLib} `{JSON_templates}.

Lemma before_linking_materials (d0 : dict) (cls mats props : list value) :
  dict_get "Materials" (before_linking d0 cls mats props) = Some (VList mats).
Proof. unfold before_linking. rewrite dict_get_set_ne by done. apply dict_get_set_eq. Qed.

Lemma excel2bsdd_lists (excel : Excel) (root : value) :
  excel2bsdd_reading excel = Ok root ->
  exists cls mats props cls' props',
    mapped (classification excel) Classification = Ok cls
    /\ mapped (material excel) Material = Ok mats
    /\ mapped (property excel) Property = Ok props
    /\ getitem root "Classifications" = Ok (VList cls')
    /\ getitem root "Materials" = Ok (VList mats)
    /\ getitem root "Properties" = Ok (VList props')
    /\ Forall2 same_fields cls cls' /\ Forall2 same_fields props props'.
Proof.
  intros (d0 & rest & cls & mats & props & cps & crs & pvs & prs & b4 & b5 & b6
          & _ & _ & Hcls & Hmats & Hprops & _ & _ & _ & _ & H4 & H5 & H6 & H7)
    %excel2bsdd_reading_Ok.
  exists cls, mats, props.
  apply (link_rows_fields _ _ _ _ _ cls) in H4 as (cls1 & -> & Hc1);
    [|done|set_solver|apply before_linking_classifications].
  apply (link_rows_fields _ _ _ _ _ cls1) in H5 as (cls2 & -> & Hc2);
    [|done|set_solver|apply dict_get_set_eq].
  assert (Forall is_dict cls2) as Hdicts.
  { apply mapped_Ok in Hcls as [Hshaped _].
    assert (Forall is_dict cls) as Hd0.
    { eapply Forall_impl; [exact Hshaped|]. intros o (d & -> & _). by exists d. }
    assert (Forall is_dict cls1) as Hd1.
    { clear -Hd0 Hc1. induction Hc1 as [|p p' ps ps' [_ Hp] _ IH]; [done|].
      apply Forall_cons in Hd0 as [Hd Hd0]. constructor; [by apply Hp|by apply IH]. }
    clear -Hd1 Hc2. induction Hc2 as [|p p' ps ps' [_ Hp] _ IH]; [done|].
    apply Forall_cons in Hd1 as [Hd Hd1]. constructor; [by apply Hp|by apply IH]. }
  apply (link_values_pass pvs cls2) in H6; [|apply dict_get_set_eq|done].
  apply (link_rows_fields _ _ _ _ _ props) in H6 as (props1 & -> & Hp1); [|done|set_solver|].
  2: { rewrite !dict_get_set_ne by done. apply before_linking_properties. }
  apply (link_rows_fields _ _ _ _ _ props1) in H7 as (props2 & -> & Hp2);
    [|done|set_solver|apply dict_get_set_eq].
  exists cls2, props2. do 3 (split; [done|]). cbn [getitem].
  split; [by rewrite !dict_get_set_ne, dict_get_set_eq by done|].
  split; [by rewrite !dict_get_set_ne, before_linking_materials by done|].
  split; [by rewrite dict_get_set_eq|].
  split.
  - eapply Forall2_trans; [apply same_fields_trans| |].
    + eapply Forall2_impl; [exact Hc1|]. by intros p p' [Hf _].
    + eapply Forall2_impl; [exact Hc2|]. by intros p p' [Hf _].
  - eapply Forall2_trans; [apply same_fields_trans| |].
    + eapply Forall2_impl; [exact Hp1|]. by intros p p' [Hf _].
    + eapply Forall2_impl; [exact Hp2|]. by intros p p' [Hf _].
Qed.

End top_level.

(** X9.  The three top-level lists of the tree [excel2bsdd] returns:
    the materials are the mapped rows of the Material sheet as they
    are; the classifications and the properties are the mapped rows of
    their sheets, as many and in row order, each with every field other
    than its child lists as mapped. *)
Theorem excel2bsdd_top_level_lists `{PyLib} `{JSON_templates} (excel : Excel) (w : World)
    (root : value) :
  (excel2bsdd excel w).2 = Ok root ->
  exists cls mats props cls' props',
    (jsonify (classification excel) Classification w).2 = Ok cls
    /\ (jsonify (material excel) Material w).2 = Ok mats
    /\ (jsonify (property excel) Property w).2 = Ok props
    /\ getitem root "Classifications" = Ok (VList cls')
    /\ getitem root "Materials" = Ok (VList mats)
    /\ getitem root "Properties" = Ok (VList props')
    /\ Forall2 same_fields cls cls' /\ Forall2 same_fields props props'.
Proof.
  rewrite excel2bsdd_result, !jsonify_result. apply excel2bsdd_lists.
Qed.

Lemma excel2bsdd_top_level_lists_witness :
  exists root,
    (@excel2bsdd reference_lib reference_templates excel_property_values empty_world).2
    = Ok root
    /\ getitem root "Materials" = Ok (VList [VDict [("Code", VStr "M1"); ("Name", VNone)]]).
Proof.
  eexists. split; [reflexivity|].
  destruct (@excel2bsdd_top_level_lists reference_lib reference_templates
              excel_property_values empty_world _ eq_refl)
    as (cls & mats & props & cls' & props' & _ & Hmats & _ & _ & Hget & _).
  injection Hmats as <-. exact Hget.
Defined.

(** ** excel2bsdd: what is printed *)

Lemma bindM_Ok {A B} (c : M A) (k : A -> M B) (w w' : World) (b : B) :
  (x <- c ;; k x) w = (w', Ok b) ->
  exists a w1, c w = (w1, Ok a) /\ k a w1 = (w', Ok b).
Proof. rewrite bind_run. destruct (c w) as [w1 [a|e]]; [by exists a, w1|done]. Qed.

Lemma lift_Ok {A} (r : result A) (w w' : World) (a : A) :
  lift r w = (w', Ok a) -> w' = w.
Proof. by intros [= <- _]. Qed.

Section printed.
Context `{PyLib} `{JSON_templates}.

Lemma jsonify_run_Ok (dataframe : DataFrame) (T : dict) (w w' : World) (jsons : list value) :
  jsonify dataframe T w = (w', Ok jsons) ->
  w' = mkWorld (stdout w ++ diagnostics T dataframe) (files w).
Proof.
  unfold jsonify. intros Hrun.
  destruct (rows_run T (iterrows dataframe) [] w) as (D & Hw & _ & Hr & Hout).
  rewrite Hrun in Hw, Hr. simpl in Hw, Hr. rewrite <- Hr in Hout.
  destruct Hout as (news & _ & _ & _ & ->). exact Hw.
Qed.

Ltac pipeline_step E :=
  let J := fresh "J" in
  apply bindM_Ok in E as (? & ? & J & E);
  first [apply jsonify_run_Ok in J | apply lift_Ok in J];
  subst.

Lemma excel2bsdd_world (excel : Excel) (w w' : World) (root : value) :
  excel2bsdd excel w = (w', Ok root) ->
  w' = mkWorld
         (stdout w
          ++ diagnostics Domain (domain excel)
          ++ diagnostics Classification (classification excel)
          ++ diagnostics Material (material excel)
          ++ diagnostics Property (property excel)
          ++ diagnostics ClassificationProperty (classificationproperty excel)
          ++ diagnostics ClassificationRelation (classificationrelation excel)
          ++ diagnostics AllowedValue (propertyvalue excel)
          ++ diagnostics PropertyRelation (propertyrelation excel))
         (files w).
Proof.
  unfold excel2bsdd. intros E. do 16 pipeline_step E.
  injection E as <- _. simpl. by rewrite <- !app_assoc.
Qed.

End printed.

(** X10.  What a run of [excel2bsdd] that returns has printed: the
    diagnostics of the eight sheets, in the order Domain,
    Classification, Material, Property, ClassificationProperty,
    ClassificationRelation, PropertyValue, PropertyRelation, one line
    per row and column the template of the sheet does not recognise;
    the linker prints nothing, and no file is touched. *)
Theorem excel2bsdd_prints `{PyLib} `{JSON_templates} (excel : Excel) (w : World)
    (root : value) :
  (excel2bsdd excel w).2 = Ok root ->
  stdout (excel2bsdd excel w).1
  = stdout w
    ++ diagnostics Domain (domain excel)
    ++ diagnostics Classification (classification excel)
    ++ diagnostics Material (material excel)
    ++ diagnostics Property (property excel)
    ++ diagnostics ClassificationProperty (classificationproperty excel)
    ++ diagnostics ClassificationRelation (classificationrelation excel)
    ++ diagnostics AllowedValue (propertyvalue excel)
    ++ diagnostics PropertyRelation (propertyrelation excel)
  /\ files (excel2bsdd excel w).1 = files w.
Proof.
  intros Hok. destruct (excel2bsdd excel w) as [w' r] eqn:E. simpl in Hok. subst r.
  apply excel2bsdd_world in E as ->. done.
Qed.

Lemma excel2bsdd_prints_witness :
  stdout (@excel2bsdd reference_lib reference_templates excel_property_values empty_world).1
  = ["No such property as 'Colour' in the JSON"].
Proof.
  destruct (@excel2bsdd_prints reference_lib reference_templates excel_property_values
              empty_world _ eq_refl) as [Hout _].
  etrans; [exact Hout|]. vm_compute. reflexivity.
Defined.

(** ** The linker: every child under one parent *)

Lemma list_sum_add {A} (f g : A -> nat) (l : list A) :
  list_sum ((fun i => f i + g i) <$> l) = list_sum (f <$> l) + list_sum (g <$> l).
Proof.
  induction l as [|x l IH]; [done|]. rewrite !fmap_cons, !list_sum_cons, IH. lia.
Qed.

Lemma list_sum_zero {A} (f : A -> nat) (l : list A) :
  (forall x, x ∈ l -> f x = 0) -> list_sum (f <$> l) = 0.
Proof.
  induction l as [|x l IH]; intros Hf; [done|].
  rewrite fmap_cons, list_sum_cons, (Hf x), IH; [done| |by left].
  intros y Hy. apply Hf. by right.
Qed.

(** A test that holds of one number only is counted once. *)
Lemma list_sum_indicator (f : nat -> bool) (i0 : nat) :
  f i0 = true -> (forall i, f i = true -> i = i0) ->
  forall n s, s <= i0 < s + n ->
  list_sum ((fun i => if f i then 1 else 0) <$> seq s n) = 1.
Proof.
  intros Hi0 Huniq. induction n as [|n IH]; intros s Hs; [lia|].
  cbn [seq]. rewrite fmap_cons, list_sum_cons.
  destruct (decide (s = i0)) as [->|Hne].
  - rewrite Hi0, list_sum_zero; [done|].
    intros i Hi. apply elem_of_seq in Hi. destruct (f i) eqn:E; [|done].
    apply Huniq in E. lia.
  - destruct (f s) eqn:E; [by apply Huniq in E|]. rewrite IH; [done|lia].
Qed.

Lemma selects_bound (okey : string) (parents : list value) (i : nat) (child : value) :
  selects okey parents i child = true -> i < length parents.
Proof.
  unfold selects. destruct (getitem child okey) as [related|]; [|done].
  intros (p & Hp & _)%is_first_match_lookup. by eapply lookup_lt_Some.
Qed.

Lemma selects_unique (okey : string) (parents : list value) (i j : nat) (child : value) :
  selects okey parents i child = true -> selects okey parents j child = true -> i = j.
Proof.
  unfold selects. destruct (getitem child okey) as [related|]; [|done].
  apply is_first_match_unique.
Qed.

Lemma kids_of_total (okey : string) (parents children : list value) :
  Forall (fun child => exists i, selects okey parents i child = true) children ->
  list_sum ((fun i => length (kids_of okey parents children i)) <$> seq 0 (length parents))
  = length children.
Proof.
  induction 1 as [|child children [i0 Hi0] _ IH].
  - apply list_sum_zero. by intros i _.
  - erewrite list_fmap_ext; last first.
    { intros j i _. rewrite kids_of_cons, length_app. reflexivity. }
    rewrite (list_sum_add
               (fun i => length (if selects okey parents i child
                                 then [stripped okey child] else []))
               (fun i => length (kids_of okey parents children i))), IH.
    erewrite (list_fmap_ext _ (fun i => if selects okey parents i child then 1 else 0));
      last first.
    { intros j i _. by destruct (selects okey parents i child). }
    rewrite (list_sum_indicator (fun i => selects okey parents i child) i0); [done|done| |].
    + intros i Hi. by apply (selects_unique okey parents i i0 child).
    + pose proof (selects_bound okey parents i0 child Hi0). lia.
Qed.

(** X11.  The linker loses no child and attaches none twice: when a
    pass over the children returns, every parent's child list is its
    old list followed by the children that selected it, and the numbers
    of children selected by the parents add up to the number of
    children. *)
Theorem linker_conserves_children (okey P L : string) (children : list value)
    (B : dict) (parents : list value) (bsdd' : value) :
  L <> "Code" ->
  dict_get P B = Some (VList parents) ->
  link_rows okey P L children (VDict B) = Ok bsdd' ->
  exists parents',
    bsdd' = VDict (dict_set P (VList parents') B)
    /\ length parents' = length parents
    /\ (forall i p l0, parents !! i = Some p -> getitem p L = Ok (VList l0) ->
        exists p', parents' !! i = Some p'
          /\ getitem p' L = Ok (VList (l0 ++ kids_of okey parents children i)))
    /\ list_sum ((fun i => length (kids_of okey parents children i))
                   <$> seq 0 (length parents))
       = length children.
Proof.
  intros HL HP Hrun.
  destruct (link_rows_Ok okey P L children HL B parents bsdd' HP Hrun)
    as (parents' & -> & Hlen & Hsel & Hall).
  exists parents'. split; [done|]. split; [done|]. split.
  - intros i p l0 Hp Hl0. destruct (Hall i p Hp) as (p' & Hp' & _ & _ & Hkids & _).
    exists p'. split; [done|]. by apply Hkids.
  - by apply kids_of_total.
Qed.

Lemma linker_conserves_children_witness :
  let okey := "(Origin Classification Code)" in
  let parents := [VDict [("Code", VStr "A1"); ("ClassificationProperties", VList [])];
                  VDict [("Code", VStr "A2"); ("ClassificationProperties", VList [])]] in
  let children := [VDict [(okey, VStr "A2"); ("Code", VStr "height")];
                   VDict [(okey, VStr "A1"); ("Code", VStr "width")];
                   VDict [(okey, VStr "A2"); ("Code", VStr "depth")]] in
  list_sum ((fun i => length (kids_of okey parents children i)) <$> seq 0 (length parents))
  = 3.
Proof.
  intros okey parents children.
  destruct (linker_conserves_children okey "Classifications" "ClassificationProperties"
              children [("Classifications", VList parents)] parents _
              ltac:(discriminate) eq_refl eq_refl) as (parents' & _ & _ & _ & Hsum).
  exact Hsum.
Defined.

(** ** load_excel *)

(** A sheet read before the one that fails. *)
Ltac sheet_ok Hok j :=
  let E := fresh "E" in
  destruct (Hok j _ ltac:(lia) eq_refl) as [? E];
  simpl in E; rewrite E; cbn [bind result_monad].

Lemma load_excel_first_error (fs : gmap string file) (path : string) (wb : Workbook)
    (i : nat) (s : string * string) (e : exn) :
  fs !! path = Some (FExcel wb) ->
  sheets !! i = Some s ->
  (forall j s', j < i -> sheets !! j = Some s' -> is_ok (wb s'.1 s'.2) = true) ->
  wb s.1 s.2 = Raise e ->
  load_excel_reading fs path = Raise e.
Proof.
  intros Hf Hs Hprev He. unfold load_excel_reading. rewrite Hf. cbn [bind result_monad].
  assert (forall j s', j < i -> sheets !! j = Some s' -> exists df, wb s'.1 s'.2 = Ok df)
    as Hok.
  { intros j s' Hj Hs'. specialize (Hprev j s' Hj Hs').
    destruct (wb s'.1 s'.2) as [df|]; [by exists df|done]. }
  do 8 (destruct i as [|i];
        [injection Hs as <-; simpl in He;
         try sheet_ok Hok 0; try sheet_ok Hok 1; try sheet_ok Hok 2; try sheet_ok Hok 3;
         try sheet_ok Hok 4; try sheet_ok Hok 5; try sheet_ok Hok 6;
         by rewrite He|]).
  done.
Qed.

Lemma load_excel_all_read (fs : gmap string file) (path : string) (wb : Workbook) :
  fs !! path = Some (FExcel wb) ->
  Forall (fun s => is_ok (wb s.1 s.2) = true) sheets ->
  exists excel,
    load_excel_reading fs path = Ok excel
    /\ [wb "Domain" "C:Q"; wb "Classification" "C:AA"; wb "Material" "C:AA";
        wb "Property" "C:AT"; wb "ClassificationProperty" "C:T";
        wb "ClassificationRelation" "C:G"; wb "PropertyValue" "C:AT";
        wb "PropertyRelation" "C:AT"]
       = Ok <$> [domain excel; classification excel; material excel; property excel;
                 classificationproperty excel; classificationrelation excel;
                 propertyvalue excel; propertyrelation excel].
Proof.
  intros Hf Hall. unfold load_excel_reading. rewrite Hf. cbn [bind result_monad].
  unfold sheets in Hall. repeat (apply Forall_cons in Hall as [? Hall]). simpl in *.
  repeat match goal with
         | Hok : is_ok (wb ?a ?b) = true |- _ =>
             destruct (wb a b) eqn:?; [clear Hok|discriminate Hok]
         end.
  cbn [bind result_monad ret]. eexists. split; [reflexivity|]. reflexivity.
Qed.

(** X12.  [load_excel] reads the eight sheets in the order of the
    source, each with its own range of columns, and changes nothing:
    it prints nothing and writes no file; a path that names no file
    raises [FileNotFoundError]; the first sheet that cannot be read
    gives the exception of the call; and when every sheet is read the
    frames are returned under their names. *)
Theorem load_excel_sheets (path : string) (w : World) :
  (load_excel path w).1 = w
  /\ (files w !! path = None -> (load_excel path w).2 = Raise FileNotFoundError)
  /\ (forall wb i s e,
        files w !! path = Some (FExcel wb) ->
        sheets !! i = Some s ->
        (forall j s', j < i -> sheets !! j = Some s' -> is_ok (wb s'.1 s'.2) = true) ->
        wb s.1 s.2 = Raise e ->
        (load_excel path w).2 = Raise e)
  /\ (forall wb,
        files w !! path = Some (FExcel wb) ->
        Forall (fun s => is_ok (wb s.1 s.2) = true) sheets ->
        exists excel,
          (load_excel path w).2 = Ok excel
          /\ [wb "Domain" "C:Q"; wb "Classification" "C:AA"; wb "Material" "C:AA";
              wb "Property" "C:AT"; wb "ClassificationProperty" "C:T";
              wb "ClassificationRelation" "C:G"; wb "PropertyValue" "C:AT";
              wb "PropertyRelation" "C:AT"]
             = Ok <$> [domain excel; classification excel; material excel; property excel;
                       classificationproperty excel; classificationrelation excel;
                       propertyvalue excel; propertyrelation excel]).
Proof.
  rewrite load_excel_run. simpl. split; [done|]. split.
  { intros Hf. unfold load_excel_reading. by rewrite Hf. }
  split.
  - intros wb i s e. apply load_excel_first_error.
  - intros wb. apply load_excel_all_read.
Qed.

(** ** The script *)

Section script.
Context `{PyLib} `{JSON_templates}.

Lemma dump_Ok (path : string) (doc : value) (w : World) :
  (dump path doc w).2 = Ok tt ->
  files (dump path doc w).1 = <[path := FJson doc]> (files w).
Proof.
  unfold dump, open_w, json_dump. rewrite bind_run.
  destruct (String.eqb path ""); [done|].
  destruct (files w !! path) as [[| | | |e]|]; try done;
    destruct (json_error doc); try done; simpl; intros _; apply insert_insert_eq.
Qed.

Lemma dump_other (path path' : string) (doc : value) (w : World) :
  path <> path' -> files (dump path doc w).1 !! path' = files w !! path'.
Proof.
  intros Hne. unfold dump, open_w, json_dump. rewrite bind_run.
  destruct (String.eqb path ""); [done|].
  destruct (files w !! path) as [[| | | |e]|]; try done;
    destruct (json_error doc); simpl; by rewrite ?lookup_insert_ne.
Qed.

Lemma main_reading_Ok (argv : list string) (fs : gmap string file) (path : string)
    (doc : value) :
  main_reading argv fs = Ok (path, doc) ->
  exists a0 a2 rest excel root,
    argv = a0 :: path :: a2 :: rest
    /\ load_excel_reading fs a0 = Ok excel
    /\ excel2bsdd_reading excel = Ok root
    /\ doc = if String.eqb a2 "" then clean_nones root else root.
Proof.
  destruct argv as [|a0 [|a1 [|a2 rest]]]; try done.
  rewrite main_positions.
  intros (excel & Hl & (root & Hr & [= <- <-])%bind_Ok)%bind_Ok.
  exists a0, a2, rest, excel, root. by destruct a2.
Qed.

Lemma main_flag_run (a0 a1 a2 : string) (rest : list string) (w w' : World)
    (excel : Excel) (root : value) :
  (load_excel a0 w).2 = Ok excel ->
  excel2bsdd excel w = (w', Ok root) ->
  main (a0 :: a1 :: a2 :: rest) w
  = dump a1 (if String.eqb a2 "" then clean_nones root else root) w'.
Proof.
  rewrite load_excel_run. simpl. intros Hload Hroot. unfold main.
  do 3 (rewrite bind_lift; cbn [argv_get lookup list_lookup]).
  rewrite bind_run, load_excel_run, Hload, bind_run, Hroot. by destruct a2.
Qed.

Lemma main_other_files (argv : list string) (w : World) (path : string) :
  argv !! 1 <> Some path -> files (main argv w).1 !! path = files w !! path.
Proof.
  intros Hpath. pose proof (main_run argv w) as Hrun.
  destruct (main_reading argv (files w)) as [[p doc]|e] eqn:E.
  - destruct Hrun as (w' & Hf & ->). apply main_reading_Ok in E as (? & ? & ? & ? & ? & -> & _).
    rewrite dump_other, Hf; [done|]. intros ->. by apply Hpath.
  - by destruct Hrun as [_ ->].
Qed.

Lemma main_no_tree (argv : list string) (w : World) :
  (forall a0 excel root,
     argv !! 0 = Some a0 -> (load_excel a0 w).2 = Ok excel ->
     (excel2bsdd excel w).2 = Ok root -> False) ->
  is_ok (main argv w).2 = false /\ files (main argv w).1 = files w.
Proof.
  intros Hno. pose proof (main_run argv w) as Hrun.
  destruct (main_reading argv (files w)) as [[p doc]|e] eqn:E.
  - apply main_reading_Ok in E as (a0 & a2 & rest & excel & root & -> & Hl & Hr & _).
    destruct (Hno a0 excel root); [done| |].
    + by rewrite load_excel_run.
    + by rewrite excel2bsdd_result.
  - destruct Hrun as [-> ->]. done.
Qed.

End script.

(** X13.  The third argument is tested as a string: the tree is pruned
    when [sys.argv[2]] is the empty string and left as it is for every
    other string, ["False"] and ["0"] included.  When the workbook
    loads and [excel2bsdd] returns, what the script does from line 149
    on is to open the path in [sys.argv[1]] for writing and to dump
    that tree; if it then ends normally, the file holds the tree. *)
Theorem main_null_flag `{PyLib} `{JSON_templates} (a0 a1 a2 : string) (rest : list string)
    (w w' : World) (excel : Excel) (root : value) :
  (load_excel a0 w).2 = Ok excel ->
  excel2bsdd excel w = (w', Ok root) ->
  let doc := if String.eqb a2 "" then clean_nones root else root in
  main (a0 :: a1 :: a2 :: rest) w = dump a1 doc w'
  /\ ((main (a0 :: a1 :: a2 :: rest) w).2 = Ok tt ->
      files (main (a0 :: a1 :: a2 :: rest) w).1 = <[a1 := FJson doc]> (files w))
  /\ (a2 = "" -> doc = clean_nones root)
  /\ (a2 <> "" -> doc = root).
Proof.
  intros Hload Hroot doc.
  pose proof (main_flag_run a0 a1 a2 rest w w' excel root Hload Hroot) as Hmain.
  split; [done|]. split.
  - intros Hok. rewrite Hmain in Hok |- *. rewrite (dump_Ok _ _ _ Hok). f_equal.
    destruct (reads_as_excel2bsdd excel w) as (_ & Hf & _). by rewrite Hroot in Hf.
  - subst doc. split; [by intros ->|]. intros Hne. by destruct a2.
Qed.

Lemma main_null_flag_witness :
  let w := world_with excel_property_values in
  exists root,
    (@excel2bsdd reference_lib reference_templates excel_property_values w).2 = Ok root
    /\ files (@main reference_lib reference_templates ["in.xlsx"; "out.json"; "False"] w).1
       = <["out.json" := FJson root]> (files w)
    /\ null_free root = false.
Proof.
  intros w. eexists. split; [reflexivity|].
  destruct (@main_null_flag reference_lib reference_templates "in.xlsx" "out.json" "False" []
              w _ excel_property_values _ eq_refl eq_refl) as (_ & Hfiles & _ & _).
  split; [exact (Hfiles eq_refl)|]. vm_compute. reflexivity.
Defined.

(** X14.  With fewer than three entries in [sys.argv] the script ends
    with [IndexError] before it reads the workbook: nothing is printed
    and no file is written. *)
Theorem main_too_few_arguments `{PyLib} `{JSON_templates} (argv : list string) (w : World) :
  length argv < 3 -> main argv w = (w, Raise IndexError).
Proof.
  intros Hlen. destruct argv as [|a0 [|a1 [|a2 rest]]]; [done..|simpl in Hlen; lia].
Qed.

Lemma main_too_few_arguments_witness :
  @main reference_lib reference_templates ["in.xlsx"; "out.json"]
    (world_with excel_property_values)
  = (world_with excel_property_values, Raise IndexError).
Proof.
  apply (@main_too_few_arguments reference_lib reference_templates). simpl. lia.
Defined.

(** X15.  The one path the script can write to is the one in
    [sys.argv[1]]: whatever happens, every other path holds what it
    held before; and unless the workbook loads and [excel2bsdd]
    returns, the script ends with an exception before line 149 and
    that path is untouched as well. *)
Theorem main_writes_one_file `{PyLib} `{JSON_templates} (argv : list string) (w : World) :
  (forall path, argv !! 1 <> Some path ->
     files (main argv w).1 !! path = files w !! path)
  /\ ((forall a0 excel root,
         argv !! 0 = Some a0 -> (load_excel a0 w).2 = Ok excel ->
         (excel2bsdd excel w).2 = Ok root -> False) ->
      is_ok (main argv w).2 = false /\ files (main argv w).1 = files w).
Proof. split; [intros path; apply main_other_files|apply main_no_tree]. Qed.

(** ** excel2bsdd: a workbook without child rows *)

Section flat.
Context `{PyLib} `{JSON_templates}.

Lemma excel2bsdd_reading_flat (excel : Excel) (root : value) :
  rows (classificationproperty excel) = [] ->
  rows (classificationrelation excel) = [] ->
  rows (propertyvalue excel) = [] ->
  rows (propertyrelation excel) = [] ->
  excel2bsdd_reading excel = Ok root <->
  exists d0 rest cls mats props,
    mapped (domain excel) Domain = Ok (VDict d0 :: rest)
    /\ mapped (classification excel) Classification = Ok cls
    /\ mapped (material excel) Material = Ok mats
    /\ mapped (property excel) Property = Ok props
    /\ root = VDict (before_linking d0 cls mats props).
Proof.
  intros Hcp Hcr Hpv Hpr. split.
  - intros (d0 & rest & cls & mats & props & cps & crs & pvs & prs & b4 & b5 & b6
            & Hdom & _ & Hcls & Hmats & Hprops & Hcps & Hcrs & Hpvs & Hprs
            & H4 & H5 & H6 & H7)%excel2bsdd_reading_Ok.
    rewrite mapped_no_rows in Hcps, Hcrs, Hpvs, Hprs by done.
    injection Hcps as <-. injection Hcrs as <-. injection Hpvs as <-. injection Hprs as <-.
    injection H4 as <-. injection H5 as <-. injection H6 as <-. injection H7 as <-.
    by exists d0, rest, cls, mats, props.
  - intros (d0 & rest & cls & mats & props & Hdom & Hcls & Hmats & Hprops & ->).
    unfold excel2bsdd_reading.
    rewrite Hdom, Hcls, Hmats, Hprops, !mapped_no_rows by done. reflexivity.
Qed.

End flat.

(** X16.  A workbook without child rows (no ClassificationProperty,
    ClassificationRelation, PropertyValue or PropertyRelation row):
    [excel2bsdd] returns exactly when the four other sheets are mapped
    and the Domain sheet has a row, and the tree is then the object of
    the first Domain row with the mapped rows stored under
    [Classifications], [Materials] and [Properties], a key of the
    Domain template keeping its place and a new key going last, in
    this order. *)
Theorem excel2bsdd_flat `{PyLib} `{JSON_templates} (excel : Excel) (w : World)
    (root : value) :
  rows (classificationproperty excel) = [] ->
  rows (classificationrelation excel) = [] ->
  rows (propertyvalue excel) = [] ->
  rows (propertyrelation excel) = [] ->
  (excel2bsdd excel w).2 = Ok root <->
  exists d0 rest cls mats props,
    (jsonify (domain excel) Domain w).2 = Ok (VDict d0 :: rest)
    /\ (jsonify (classification excel) Classification w).2 = Ok cls
    /\ (jsonify (material excel) Material w).2 = Ok mats
    /\ (jsonify (property excel) Property w).2 = Ok props
    /\ root = VDict (dict_set "Properties" (VList props)
                       (dict_set "Materials" (VList mats)
                          (dict_set "Classifications" (VList cls) d0))).
Proof.
  intros Hcp Hcr Hpv Hpr. rewrite excel2bsdd_result.
  rewrite (excel2bsdd_reading_flat excel root Hcp Hcr Hpv Hpr).
  by setoid_rewrite jsonify_result.
Qed.

Lemma excel2bsdd_flat_witness :
  (@excel2bsdd reference_lib reference_templates excel_two_domains empty_world).2
  = Ok (VDict [("Name", VStr "first"); ("Classifications", VList []);
               ("Materials", VList []); ("Properties", VList [])]).
Proof.
  apply (@excel2bsdd_flat reference_lib reference_templates excel_two_domains empty_world _
           eq_refl eq_refl eq_refl eq_refl).
  exists [("Name", VStr "first")], [VDict [("Name", VStr "second")]], [], [], [].
  repeat split.
Defined.
